(** * The pattern lifecycle pipeline of email_tracker_pixel

    A shallow embedding of the pattern ledger
    ([scripts/pattern_version_control.py]), the validator
    ([scripts/pattern_validator.py]), the orchestrator's workers
    ([scripts/auto_update_orchestrator.py]), the change monitor
    ([scripts/realtime_github_sync.py]) and the domain index
    ([scripts/optimized_pattern_engine.py]).

    Conventions.
    - A Python [str] is a Rocq [string], one character per code point; the
      built-ins below follow CPython on the code points 0..255.
    - A Python [float] is a primitive binary64 [float]; [time.time()]
      readings and generated identifiers are inputs of the operations that
      consume them.
    - Files under a directory are a [gmap] from the file's stem to its
      decoded content; a [dict] whose iteration order is observable is an
      association list in insertion order. *)

From Stdlib Require Import ZArith Ascii String List Bool Lia.
From Stdlib Require Import Floats.PrimFloat Numbers.Cyclic.Int63.Uint63.
From Stdlib Require Import Floats.SpecFloat Floats.FloatOps.
From stdpp Require Import base option list gmap strings fin_maps sets.
From stdpp Require Import pretty.

Set Warnings "-inexact-float".
Open Scope string_scope.

(** ** Python built-ins on strings *)

Module Py.

(** [str.lower()] *)
Definition lower_char (c : ascii) : ascii :=
  let n := nat_of_ascii c in
  if (((65 <=? n) && (n <=? 90)) || ((192 <=? n) && (n <=? 222) && negb (n =? 215)))%nat
  then ascii_of_nat (n + 32) else c.

Fixpoint lower (s : string) : string :=
  match s with
  | EmptyString => EmptyString
  | String c r => String (lower_char c) (lower r)
  end.

(** [str.isspace()] on one character *)
Definition isspace (c : ascii) : bool :=
  let n := nat_of_ascii c in
  (((9 <=? n) && (n <=? 13)) || ((28 <=? n) && (n <=? 32)) || (n =? 133) || (n =? 160))%nat.

Fixpoint lstrip (s : string) : string :=
  match s with
  | EmptyString => EmptyString
  | String c r => if isspace c then lstrip r else s
  end.

Fixpoint rstrip (s : string) : string :=
  match s with
  | EmptyString => EmptyString
  | String c r =>
      match rstrip r with
      | EmptyString => if isspace c then EmptyString else String c EmptyString
      | r' => String c r'
      end
  end.

(** [s.strip()] *)
Definition strip (s : string) : string := rstrip (lstrip s).

(** [s.startswith(p)] *)
Fixpoint startswith (s p : string) : bool :=
  match p, s with
  | EmptyString, _ => true
  | String _ _, EmptyString => false
  | String a p', String b s' => if Ascii.eqb a b then startswith s' p' else false
  end.

(** [s[n:]] and [s[:n]] for [n >= 0] *)
Fixpoint slice_from (n : nat) (s : string) : string :=
  match n, s with
  | O, _ => s
  | S _, EmptyString => EmptyString
  | S n', String _ r => slice_from n' r
  end.

Fixpoint slice_to (n : nat) (s : string) : string :=
  match n, s with
  | O, _ => EmptyString
  | S _, EmptyString => EmptyString
  | S n', String c r => String c (slice_to n' r)
  end.

(** [s.find(sub)], [None] for -1 *)
Fixpoint find (s sub : string) : option nat :=
  if startswith s sub then Some O
  else match s with
       | EmptyString => None
       | String _ r => S <$> find r sub
       end.

(** [sub in s] *)
Definition contains (s sub : string) : bool :=
  match find s sub with Some _ => true | None => false end.

(** [s.split(sep, 1)] for a non-empty [sep] *)
Definition split1 (s sep : string) : list string :=
  match find s sep with
  | Some i => [slice_to i s; slice_from (i + String.length sep) s]
  | None => [s]
  end.

(** [s.splitlines()]: the line boundaries among the code points 0..255 *)
Definition is_linebreak (c : ascii) : bool :=
  let n := nat_of_ascii c in
  (((10 <=? n) && (n <=? 13)) || ((28 <=? n) && (n <=? 30)) || (n =? 133))%nat.

Fixpoint splitlines_from (line s : string) : list string :=
  match s with
  | EmptyString => match line with EmptyString => [] | _ => [line] end
  | String c r =>
      if Ascii.eqb c "013" then
        match r with
        | String "010" r' => line :: splitlines_from EmptyString r'
        | _ => line :: splitlines_from EmptyString r
        end
      else if is_linebreak c then line :: splitlines_from EmptyString r
      else splitlines_from (line ++ String c EmptyString) r
  end.

Definition splitlines (s : string) : list string := splitlines_from EmptyString s.

(** The line feed *)
Definition nl : string := String (ascii_of_nat 10) EmptyString.

(** Truthiness of [str] and of [Optional[str]] *)
Definition truthy (s : string) : bool :=
  match s with EmptyString => false | _ => true end.

Definition truthy_opt (o : option string) : bool :=
  match o with Some s => truthy s | None => false end.

(** [int] to [float]; exact below 2^53. *)
Definition float_of_nat (n : nat) : float := of_uint63 (Uint63.of_Z (Z.of_nat n)).

(** The order in which CPython iterates over a [set] of strings is not
    a function of the program text: it is taken from the environment,
    and only known to enumerate the set. *)
Class SetOrder := {
  list_of_set : gset string → list string;
  list_of_set_perm : ∀ s, list_of_set s ≡ₚ elements s
}.

End Py.

(** ** State passing *)

Definition State (S A : Type) : Type := S → A * S.

#[export] Instance state_ret {S} : MRet (State S) := λ A a s, (a, s).

#[export] Instance state_bind {S} : MBind (State S) :=
  λ A B k m s, let (a, s') := m s in k a s'.

Definition gets {S A} (f : S → A) : State S A := λ s, (f s, s).

Definition modify {S} (f : S → S) : State S unit := λ s, (tt, f s).

(** ** The validator ([scripts/pattern_validator.py]) *)

Module Validator.

(** A value of a [details] dictionary. *)
Inductive DetailValue :=
| DFloat (x : float)
| DInt (n : Z)
| DStr (s : string)
| DStrs (l : list string).

Record ValidationResult := {
  pattern : string;
  source : string;
  stage : string;
  passed : bool;
  score : float;
  details : list (string * DetailValue);
  duration_ms : float;
  timestamp : float
}.

(** An insertion-ordered [dict] with string keys, and [d[k] = v]. *)
Abbreviation dict V := (list (string * V)).

Fixpoint dict_set {V} (k : string) (v : V) (d : dict V) : dict V :=
  match d with
  | [] => [(k, v)]
  | (k', v') :: d' => if String.eqb k' k then (k, v) :: d' else (k', v') :: dict_set k v d'
  end.

(** [d.get(k)] *)
Fixpoint dict_get {V} (k : string) (d : dict V) : option V :=
  match d with
  | [] => None
  | (k', v) :: d' => if String.eqb k' k then Some v else dict_get k d'
  end.

Definition dict_keys {V} (d : dict V) : list string := d.*1.
Definition dict_values {V} (d : dict V) : list V := d.*2.

(** The four stage methods. Their bodies compile and time regular
    expressions against corpora read at start-up; the pipeline below only
    depends on the [ValidationResult] each returns for a pattern and its
    source. *)
Class Stages := {
  validate_syntax : string → string → ValidationResult;
  validate_performance : string → string → ValidationResult;
  validate_false_positives : string → string → ValidationResult;
  validate_community_score : string → string → ValidationResult
}.

(** Which stage methods a run has called, in call order. *)
Inductive StageCall := CallSyntax | CallPerformance | CallFalsePositive | CallCommunity.

Abbreviation Run := (State (list StageCall)).

Definition call (c : StageCall) (r : ValidationResult) : Run ValidationResult :=
  λ log, (r, (log ++ [c])%list).

Definition run {A} (m : Run A) : A * list StageCall := m [].

Section Pipeline.
Context `{Stages}.

Definition validate_pattern_comprehensive (pattern source : string)
  : Run (dict ValidationResult) :=
  let results := [] in
  (* Stage 1: Syntax validation *)
  syntax_result ← call CallSyntax (validate_syntax pattern source);
  let results := dict_set "syntax" syntax_result results in
  if negb (passed syntax_result) then mret results
  else
    (* Stage 2: Performance validation *)
    performance_result ← call CallPerformance (validate_performance pattern source);
    let results := dict_set "performance" performance_result results in
    (* Stage 3: False positive validation *)
    fp_result ← call CallFalsePositive (validate_false_positives pattern source);
    let results := dict_set "false_positive" fp_result results in
    (* Stage 4: Community scoring *)
    community_result ← call CallCommunity (validate_community_score pattern source);
    let results := dict_set "community" community_result results in
    mret results.

(** [validate_patterns_batch]: one task per pattern on the thread pool,
    results stored under [f"{source}:{pattern[:50]}"] as the tasks
    complete; completion order is taken to be submission order. *)
Definition batch_key (pattern source : string) : string :=
  source ++ ":" ++ Py.slice_to 50 pattern.

Definition validate_patterns_batch (patterns : list (string * string))
  : dict (dict ValidationResult) :=
  foldl (λ results ps,
           let '(pattern, source) := ps in
           dict_set (batch_key pattern source)
                    (run (validate_pattern_comprehensive pattern source)).1 results)
        [] patterns.

End Pipeline.

End Validator.

(** ** The pattern ledger ([scripts/pattern_version_control.py]) *)

Module VersionControl.

Abbreviation dict V := (Validator.dict V).

(** [Dict[str, List[str]]]: source name to its patterns. *)
Abbreviation Snapshot := (gmap string (list string)).

(** One entry of [changes["details"]]. *)
Record SourceChange := {
  added : list string;
  removed : list string;
  added_count : nat;
  removed_count : nat
}.

(** The [changes] dictionary of an update commit. *)
Record UpdateSummary := {
  patterns_added : nat;
  patterns_removed : nat;
  patterns_modified : nat;
  sources_modified : list string;
  change_details : dict SourceChange
}.

(** The three shapes of [changes], by their ["type"] entry. *)
Inductive Changes :=
| ChangesInitial
| ChangesUpdate (u : UpdateSummary)
| ChangesRollback (target_commit reason : string).

Record PatternCommit := {
  commit_id : string;
  parent_id : option string;
  timestamp : float;
  author : string;
  message : string;
  changes : Changes;
  pattern_snapshot : Snapshot;
  validation_results : option (dict (dict Validator.ValidationResult));
  rollback_safe : bool;
  branch : string
}.

Record SystemMetrics := {
  metrics_timestamp : float;
  pattern_count : nat;
  memory_usage : string;
  detection_speed : string
}.

Record RollbackPoint := {
  rollback_id : string;
  rollback_commit_id : option string;
  rollback_timestamp : float;
  rollback_reason : string;
  system_metrics : SystemMetrics;
  automatic : bool
}.

(** [branches/<name>.json] *)
Record BranchData := {
  branch_name : string;
  created : float;
  branch_head_commit : option string;
  parent_branch : option string;
  last_updated : option float
}.

(** [snapshots/<commit_id>.json] *)
Record SnapshotData := {
  snapshot_commit_id : string;
  snapshot_timestamp : float;
  patterns : Snapshot;
  snapshot_pattern_count : nat
}.

(** [config.json] *)
Record Config := {
  version : string;
  config_created : float;
  default_branch : string;
  auto_rollback : bool;
  max_commits : nat;
  retention_days : nat
}.

(** A [PatternVersionControl] object with the directory it works on.
    File stems are identifiers without path separators. [clock] and
    [entropy] are what [time.time()] and [_generate_commit_id()] (the
    SHA-256 digest of the time and a fresh UUID) will return, [ticks] and
    [draws] how many of them have been consumed. *)
Record Repo := {
  config_file : option Config;
  commits_dir : gmap string PatternCommit;
  branches_dir : gmap string BranchData;
  rollbacks_dir : gmap string RollbackPoint;
  snapshots_dir : gmap string SnapshotData;
  current_branch : string;
  head_commit : option string;
  clock : nat → float;
  ticks : nat;
  entropy : nat → string;
  draws : nat
}.

Definition set_config_file v (r : Repo) : Repo :=
  {| config_file := v; commits_dir := commits_dir r; branches_dir := branches_dir r;
     rollbacks_dir := rollbacks_dir r; snapshots_dir := snapshots_dir r;
     current_branch := current_branch r; head_commit := head_commit r;
     clock := clock r; ticks := ticks r; entropy := entropy r; draws := draws r |}.

Definition set_commits_dir v (r : Repo) : Repo :=
  {| config_file := config_file r; commits_dir := v; branches_dir := branches_dir r;
     rollbacks_dir := rollbacks_dir r; snapshots_dir := snapshots_dir r;
     current_branch := current_branch r; head_commit := head_commit r;
     clock := clock r; ticks := ticks r; entropy := entropy r; draws := draws r |}.

Definition set_branches_dir v (r : Repo) : Repo :=
  {| config_file := config_file r; commits_dir := commits_dir r; branches_dir := v;
     rollbacks_dir := rollbacks_dir r; snapshots_dir := snapshots_dir r;
     current_branch := current_branch r; head_commit := head_commit r;
     clock := clock r; ticks := ticks r; entropy := entropy r; draws := draws r |}.

Definition set_rollbacks_dir v (r : Repo) : Repo :=
  {| config_file := config_file r; commits_dir := commits_dir r; branches_dir := branches_dir r;
     rollbacks_dir := v; snapshots_dir := snapshots_dir r;
     current_branch := current_branch r; head_commit := head_commit r;
     clock := clock r; ticks := ticks r; entropy := entropy r; draws := draws r |}.

Definition set_snapshots_dir v (r : Repo) : Repo :=
  {| config_file := config_file r; commits_dir := commits_dir r; branches_dir := branches_dir r;
     rollbacks_dir := rollbacks_dir r; snapshots_dir := v;
     current_branch := current_branch r; head_commit := head_commit r;
     clock := clock r; ticks := ticks r; entropy := entropy r; draws := draws r |}.

Definition set_current_branch v (r : Repo) : Repo :=
  {| config_file := config_file r; commits_dir := commits_dir r; branches_dir := branches_dir r;
     rollbacks_dir := rollbacks_dir r; snapshots_dir := snapshots_dir r;
     current_branch := v; head_commit := head_commit r;
     clock := clock r; ticks := ticks r; entropy := entropy r; draws := draws r |}.

Definition set_head_commit v (r : Repo) : Repo :=
  {| config_file := config_file r; commits_dir := commits_dir r; branches_dir := branches_dir r;
     rollbacks_dir := rollbacks_dir r; snapshots_dir := snapshots_dir r;
     current_branch := current_branch r; head_commit := v;
     clock := clock r; ticks := ticks r; entropy := entropy r; draws := draws r |}.

Definition set_ticks v (r : Repo) : Repo :=
  {| config_file := config_file r; commits_dir := commits_dir r; branches_dir := branches_dir r;
     rollbacks_dir := rollbacks_dir r; snapshots_dir := snapshots_dir r;
     current_branch := current_branch r; head_commit := head_commit r;
     clock := clock r; ticks := v; entropy := entropy r; draws := draws r |}.

Definition set_draws v (r : Repo) : Repo :=
  {| config_file := config_file r; commits_dir := commits_dir r; branches_dir := branches_dir r;
     rollbacks_dir := rollbacks_dir r; snapshots_dir := snapshots_dir r;
     current_branch := current_branch r; head_commit := head_commit r;
     clock := clock r; ticks := ticks r; entropy := entropy r; draws := v |}.

Abbreviation VCS := (State Repo).

(** [time.time()] *)
Definition time_time : VCS float :=
  λ r, (clock r (ticks r), set_ticks (S (ticks r)) r).

Definition _generate_commit_id : VCS string :=
  λ r, (entropy r (draws r), set_draws (S (draws r)) r).

Definition _create_branch (name : string) (from_commit : option string) : VCS unit :=
  now ← time_time;
  modify (λ r, set_branches_dir
    (<[name := {| branch_name := name;
                  created := now;
                  branch_head_commit := from_commit;
                  parent_branch := if String.eqb name "main" then None else Some "main";
                  last_updated := None |}]> (branches_dir r)) r).

Definition _get_head_commit (branch : option string) : VCS (option string) :=
  current ← gets current_branch;
  let branch := default current branch in
  branch_file ← gets (λ r, branches_dir r !! branch);
  match branch_file with
  | None => mret None
  | Some branch_data => mret (branch_head_commit branch_data)
  end.

Definition _save_commit (commit : PatternCommit) : VCS unit :=
  modify (λ r, set_commits_dir (<[commit_id commit := commit]> (commits_dir r)) r).

Definition _load_commit (commit_id : string) : VCS (option PatternCommit) :=
  gets (λ r, commits_dir r !! commit_id).

Definition _update_branch_head (branch commit_id : string) : VCS unit :=
  branch_file ← gets (λ r, branches_dir r !! branch);
  branch_data ← match branch_file with
                | Some branch_data => mret branch_data
                | None =>
                    now ← time_time;
                    mret {| branch_name := branch; created := now;
                            branch_head_commit := None; parent_branch := None;
                            last_updated := None |}
                end;
  now ← time_time;
  modify (λ r, set_branches_dir
    (<[branch := {| branch_name := branch_name branch_data;
                    created := created branch_data;
                    branch_head_commit := Some commit_id;
                    parent_branch := parent_branch branch_data;
                    last_updated := Some now |}]> (branches_dir r)) r).

Definition _create_initial_commit : VCS unit :=
  id ← _generate_commit_id;
  now ← time_time;
  let initial_commit :=
    {| commit_id := id; parent_id := None; timestamp := now; author := "system";
       message := "Initial commit - Pattern VCS repository";
       changes := ChangesInitial; pattern_snapshot := ∅;
       validation_results := None; rollback_safe := true; branch := "main" |} in
  _save_commit initial_commit;;
  _update_branch_head "main" (commit_id initial_commit).

Definition _init_repository : VCS unit :=
  config ← gets config_file;
  match config with
  | Some _ => mret tt
  | None =>
      now ← time_time;
      modify (set_config_file (Some
        {| version := "1.0"; config_created := now; default_branch := "main";
           auto_rollback := true; max_commits := 1000; retention_days := 365 |}));;
      _create_branch "main" None;;
      _create_initial_commit
  end.

(** [__init__], after the directories exist. *)
Definition init : VCS unit :=
  _init_repository;;
  modify (set_current_branch "main");;
  head ← _get_head_commit None;
  modify (set_head_commit head).

Definition _get_current_patterns : VCS Snapshot :=
  head ← gets head_commit;
  match head with
  | Some id =>
      if Py.truthy id then
        current_commit ← _load_commit id;
        mret (from_option pattern_snapshot ∅ current_commit)
      else mret ∅
  | None => mret ∅
  end.

Definition list_sum (l : list nat) : nat := foldr Nat.add 0 l.

Definition count_patterns (patterns : Snapshot) : nat :=
  list_sum (length <$> (map_to_list patterns).*2).

Definition _get_total_pattern_count : VCS nat :=
  current_patterns ← _get_current_patterns;
  mret (count_patterns current_patterns).

Definition _get_system_metrics : VCS SystemMetrics :=
  now ← time_time;
  count ← _get_total_pattern_count;
  mret {| metrics_timestamp := now; pattern_count := count;
          memory_usage := "simulated"; detection_speed := "simulated" |}.

Definition _save_rollback_point (rollback_point : RollbackPoint) : VCS unit :=
  modify (λ r, set_rollbacks_dir
    (<[rollback_id rollback_point := rollback_point]> (rollbacks_dir r)) r).

Definition _create_snapshot (commit_id : string) (patterns : Snapshot) : VCS unit :=
  now ← time_time;
  modify (λ r, set_snapshots_dir
    (<[commit_id := {| snapshot_commit_id := commit_id; snapshot_timestamp := now;
                       patterns := patterns;
                       snapshot_pattern_count := count_patterns patterns |}]>
       (snapshots_dir r)) r).

Section Changes.
Context `{Py.SetOrder}.

Definition empty_summary : UpdateSummary :=
  {| patterns_added := 0; patterns_removed := 0; patterns_modified := 0;
     sources_modified := []; change_details := [] |}.

Definition _calculate_changes (old_patterns new_patterns : Snapshot) : Changes :=
  let all_sources : gset string := dom old_patterns ∪ dom new_patterns in
  ChangesUpdate
    (foldl (λ changes source,
              let old_set : gset string := list_to_set (default [] (old_patterns !! source)) in
              let new_set : gset string := list_to_set (default [] (new_patterns !! source)) in
              let added := new_set ∖ old_set in
              let removed := old_set ∖ new_set in
              if bool_decide (added = ∅) && bool_decide (removed = ∅) then changes
              else
                {| patterns_added := patterns_added changes + size added;
                   patterns_removed := patterns_removed changes + size removed;
                   patterns_modified := patterns_modified changes;
                   sources_modified := (sources_modified changes ++ [source])%list;
                   change_details :=
                     Validator.dict_set source
                       {| added := Py.list_of_set added;
                          removed := Py.list_of_set removed;
                          added_count := size added;
                          removed_count := size removed |}
                       (change_details changes) |})
           empty_summary (Py.list_of_set all_sources)).

Definition commit_changes (pattern_changes : Snapshot) (message author : string)
    (validation_results : option (dict (dict Validator.ValidationResult))) : VCS string :=
  current_patterns ← _get_current_patterns;
  let changes := _calculate_changes current_patterns pattern_changes in
  id ← _generate_commit_id;
  head ← gets head_commit;
  now ← time_time;
  current ← gets current_branch;
  let commit :=
    {| commit_id := id; parent_id := head; timestamp := now; author := author;
       message := message; changes := changes; pattern_snapshot := pattern_changes;
       validation_results := validation_results; rollback_safe := true;
       branch := current |} in
  _save_commit commit;;
  _update_branch_head current (commit_id commit);;
  modify (set_head_commit (Some (commit_id commit)));;
  _create_snapshot (commit_id commit) pattern_changes;;
  mret (commit_id commit).
End Changes.

Definition rollback_to_commit (commit_id reason : string) : VCS bool :=
  target ← _load_commit commit_id;
  match target with
  | None => mret false
  | Some target_commit =>
      (* Create rollback point *)
      rid ← _generate_commit_id;
      head ← gets head_commit;
      now ← time_time;
      metrics ← _get_system_metrics;
      _save_rollback_point
        {| rollback_id := rid; rollback_commit_id := head; rollback_timestamp := now;
           rollback_reason := reason; system_metrics := metrics; automatic := false |};;
      (* Create new commit with rollback *)
      id ← _generate_commit_id;
      head ← gets head_commit;
      now ← time_time;
      current ← gets current_branch;
      let rollback_commit :=
        {| commit_id := id; parent_id := head; timestamp := now;
           author := "rollback-system";
           message := "Rollback to " ++ Py.slice_to 8 commit_id ++ ": " ++ reason;
           changes := ChangesRollback commit_id reason;
           pattern_snapshot := pattern_snapshot target_commit;
           validation_results := None; rollback_safe := true; branch := current |} in
      _save_commit rollback_commit;;
      _update_branch_head current (VersionControl.commit_id rollback_commit);;
      modify (set_head_commit (Some (VersionControl.commit_id rollback_commit)));;
      mret true
  end.

(** The commit that [rollback_to_commit] writes for a target found in
    the store. *)
Definition rollback_commit_for (r : Repo) (target reason : string) (c : PatternCommit)
    : PatternCommit :=
  {| commit_id := entropy r (S (draws r));
     parent_id := head_commit r;
     timestamp := clock r (S (S (ticks r)));
     author := "rollback-system";
     message := "Rollback to " ++ Py.slice_to 8 target ++ ": " ++ reason;
     changes := ChangesRollback target reason;
     pattern_snapshot := pattern_snapshot c;
     validation_results := None;
     rollback_safe := true;
     branch := current_branch r |}.

(** The loop of [get_commit_history]: [room] is [limit - len(history)]. *)
Fixpoint walk_history (room : nat) (current_commit_id : option string)
    (commits : gmap string PatternCommit) : list PatternCommit :=
  match room with
  | O => []
  | S room' =>
      if Py.truthy_opt current_commit_id then
        match commits !! default "" current_commit_id with
        | None => []
        | Some commit => commit :: walk_history room' (parent_id commit) commits
        end
      else []
  end.

Definition get_commit_history (limit : Z) : VCS (list PatternCommit) :=
  head ← gets head_commit;
  gets (λ r, walk_history (Z.to_nat limit) head (commits_dir r)).

Definition create_branch (name : string) (from_commit : option string) : VCS bool :=
  head ← gets head_commit;
  let from_commit := match from_commit with Some c => Some c | None => head end in
  branch_file ← gets (λ r, branches_dir r !! name);
  match branch_file with
  | Some _ => mret false
  | None => _create_branch name from_commit;; mret true
  end.

Definition switch_branch (name : string) : VCS bool :=
  branch_file ← gets (λ r, branches_dir r !! name);
  match branch_file with
  | None => mret false
  | Some _ =>
      modify (set_current_branch name);;
      head ← _get_head_commit (Some name);
      modify (set_head_commit head);;
      mret true
  end.

(** An empty [pattern_vcs] directory and an object not yet initialised. *)
Definition empty_directory (clock : nat → float) (entropy : nat → string) : Repo :=
  {| config_file := None; commits_dir := ∅; branches_dir := ∅; rollbacks_dir := ∅;
     snapshots_dir := ∅; current_branch := ""; head_commit := None;
     clock := clock; ticks := 0; entropy := entropy; draws := 0 |}.

(** [PatternDiff], and an entry of its [source_changes]. *)
Record SourceDiff := {
  diff_added : list string;
  diff_removed : list string
}.

Record PatternDiff := {
  from_commit : string;
  to_commit : string;
  added_patterns : list string;
  removed_patterns : list string;
  modified_patterns : list (string * string);
  source_changes : dict SourceDiff
}.

(** The patterns of a source that the second snapshot has and the first
    lacks. *)
Definition gained (from_patterns to_patterns : Snapshot) (source : string) : gset string :=
  list_to_set (default [] (to_patterns !! source))
  ∖ list_to_set (default [] (from_patterns !! source)).

Section Diff.
Context `{Py.SetOrder}.

(** The loop of [generate_diff] over [all_sources]: [added_patterns],
    [removed_patterns] and [source_changes] as it leaves them. *)
Definition diff_sources (from_patterns to_patterns : Snapshot)
    : list string * list string * dict SourceDiff :=
  let all_sources : gset string := dom from_patterns ∪ dom to_patterns in
  foldl (λ '(added_patterns, removed_patterns, source_changes) source,
           let from_set : gset string :=
             list_to_set (default [] (from_patterns !! source)) in
           let to_set : gset string := list_to_set (default [] (to_patterns !! source)) in
           let added := to_set ∖ from_set in
           let removed := from_set ∖ to_set in
           if bool_decide (added = ∅) && bool_decide (removed = ∅)
           then (added_patterns, removed_patterns, source_changes)
           else ((added_patterns ++ Py.list_of_set added)%list,
                 (removed_patterns ++ Py.list_of_set removed)%list,
                 Validator.dict_set source
                   {| diff_added := Py.list_of_set added;
                      diff_removed := Py.list_of_set removed |} source_changes))
        ([], [], []) (Py.list_of_set all_sources).

(** [generate_diff]. [None]: [ValueError("Invalid commit IDs")]. *)
Definition generate_diff (from_commit to_commit : string) : VCS (option PatternDiff) :=
  from_commit_obj ← _load_commit from_commit;
  to_commit_obj ← _load_commit to_commit;
  match from_commit_obj, to_commit_obj with
  | Some from_commit_obj, Some to_commit_obj =>
      let '(added_patterns, removed_patterns, source_changes) :=
        diff_sources (pattern_snapshot from_commit_obj) (pattern_snapshot to_commit_obj) in
      mret (Some {| from_commit := from_commit; to_commit := to_commit;
                    added_patterns := added_patterns;
                    removed_patterns := removed_patterns;
                    modified_patterns := [];
                    source_changes := source_changes |})
  | _, _ => mret None
  end.
End Diff.






Definition is_rollback (c : PatternCommit) : bool :=
  match changes c with
  | ChangesRollback _ _ => true
  | _ => false
  end.


Section Committed.
Context `{Py.SetOrder}.

(** The commit that [commit_changes] writes. *)
Definition committed (r : Repo) (pattern_changes : Snapshot) (message author : string)
    (validation_results : option (dict (dict Validator.ValidationResult))) : PatternCommit :=
  {| commit_id := entropy r (draws r);
     parent_id := head_commit r;
     timestamp := clock r (ticks r);
     author := author;
     message := message;
     changes := _calculate_changes (_get_current_patterns r).1 pattern_changes;
     pattern_snapshot := pattern_changes;
     validation_results := validation_results;
     rollback_safe := true;
     branch := current_branch r |}.
End Committed.

(** A ledger in which every commit is filed under its own id, and
    every parent, the head and every branch head are stored commits. *)
Definition well_formed (r : Repo) : Prop :=
  (∀ id c, commits_dir r !! id = Some c →
           commit_id c = id ∧
           ∀ parent, parent_id c = Some parent → is_Some (commits_dir r !! parent)) ∧
  (∀ head, head_commit r = Some head → is_Some (commits_dir r !! head)) ∧
  (∀ name data head, branches_dir r !! name = Some data →
                     branch_head_commit data = Some head →
                     is_Some (commits_dir r !! head)).

End VersionControl.

(** ** The change monitor ([scripts/realtime_github_sync.py]) *)

Module Monitor.

Abbreviation dict V := (Validator.dict V).

Record GitHubSource := {
  name : string;
  url : string;
  api_url : string;
  description : string;
  poll_interval : Z;
  priority : string;
  etag : option string;
  last_modified : option string;
  last_check : option float;
  last_commit_sha : option string
}.

(** A value of the [changes] dictionary of a [ChangeEvent]. *)
Inductive ChangeValue :=
| Count (n : nat)
| Lines (l : list string).

Record ChangeEvent := {
  source_name : string;
  change_type : string;
  timestamp : float;
  commit_sha : string;
  changes : dict ChangeValue;
  validation_required : bool
}.

(** What [session.get(source.url)] came to. *)
Inductive HttpOutcome :=
| Status200 (content : string) (etag last_modified : option string)
| Status304
| StatusOther (status : nat)
| RequestFailed.

(** One [_monitor_source] task: the source object it was handed, and the
    monitor's cache directory and outbound queue. *)
Record Task := {
  source : GitHubSource;
  cache_dir : gmap string string;
  change_queue : list ChangeEvent;
  clock : nat → float;
  ticks : nat
}.

Definition set_source v (t : Task) : Task :=
  {| source := v; cache_dir := cache_dir t; change_queue := change_queue t;
     clock := clock t; ticks := ticks t |}.

Definition set_cache_dir v (t : Task) : Task :=
  {| source := source t; cache_dir := v; change_queue := change_queue t;
     clock := clock t; ticks := ticks t |}.

Definition set_change_queue v (t : Task) : Task :=
  {| source := source t; cache_dir := cache_dir t; change_queue := v;
     clock := clock t; ticks := ticks t |}.

Definition set_ticks v (t : Task) : Task :=
  {| source := source t; cache_dir := cache_dir t; change_queue := change_queue t;
     clock := clock t; ticks := v |}.

Definition with_headers (etag last_modified : option string) (now : float)
    (s : GitHubSource) : GitHubSource :=
  {| name := name s; url := url s; api_url := api_url s; description := description s;
     poll_interval := poll_interval s; priority := priority s;
     etag := etag; last_modified := last_modified; last_check := Some now;
     last_commit_sha := last_commit_sha s |}.

Definition with_last_commit_sha (sha : string) (s : GitHubSource) : GitHubSource :=
  {| name := name s; url := url s; api_url := api_url s; description := description s;
     poll_interval := poll_interval s; priority := priority s;
     etag := etag s; last_modified := last_modified s; last_check := last_check s;
     last_commit_sha := Some sha |}.

Abbreviation Poll := (State Task).

Definition time_time : Poll float :=
  λ t, (clock t (ticks t), set_ticks (S (ticks t)) t).

(** [_fetch_with_etag], given what the request came to. *)
Definition _fetch_with_etag (response : HttpOutcome)
    : Poll (option string * option string * bool) :=
  match response with
  | Status304 => mret (None, None, false)
  | Status200 content etag last_modified =>
      now ← time_time;
      modify (λ t, set_source (with_headers etag last_modified now (source t)) t);;
      mret (Some content, etag, true)
  | StatusOther _ => mret (None, None, false)
  | RequestFailed => mret (None, None, false)
  end.

(** [_check_for_commits], given what [_make_github_api_call] returned:
    [None], or the [sha] of each commit object of the answer. *)
Definition _check_for_commits (api_data : option (list string)) : Poll (option string) :=
  match api_data with
  | None => mret None
  | Some [] => mret None
  | Some (latest_sha :: _) =>
      known ← gets (λ t, last_commit_sha (source t));
      if Py.truthy_opt known && bool_decide (known = Some latest_sha) then mret None
      else
        modify (λ t, set_source (with_last_commit_sha latest_sha (source t)) t);;
        mret (Some latest_sha)
  end.

(** The contents of scenario A: the lines a, b and the lines a, b, c. *)
Definition a_b : string := "a" ++ Py.nl ++ "b".
Definition a_b_c : string := "a" ++ Py.nl ++ "b" ++ Py.nl ++ "c".

Section Detection.
Context `{Py.SetOrder}.

(** [hashlib.sha256(s.encode()).hexdigest()] *)
Variable sha256_hexdigest : string → string.

Definition _detect_changes (old_content : option string) (new_content : string)
    : Poll (option ChangeEvent) :=
  if bool_decide (old_content = Some new_content) then mret None
  else
    let content_hash := Py.slice_to 16 (sha256_hexdigest new_content) in
    let old_lines : gset string :=
      if Py.truthy_opt old_content
      then list_to_set (Py.splitlines (default "" old_content)) else ∅ in
    let new_lines : gset string := list_to_set (Py.splitlines new_content) in
    let added_lines := new_lines ∖ old_lines in
    let removed_lines := old_lines ∖ new_lines in
    if bool_decide (added_lines = ∅) && bool_decide (removed_lines = ∅) then mret None
    else
      source ← gets source;
      now ← time_time;
      mret (Some
        {| source_name := name source;
           change_type := "modified";
           timestamp := now;
           commit_sha := if Py.truthy_opt (last_commit_sha source)
                         then default "" (last_commit_sha source) else content_hash;
           changes :=
             [("added_patterns", Count (size added_lines));
              ("removed_patterns", Count (size removed_lines));
              ("added_lines", Lines (take 10 (Py.list_of_set added_lines)));
              ("removed_lines", Lines (take 10 (Py.list_of_set removed_lines)));
              ("total_lines", Count (size new_lines))];
           validation_required := true |}).

Definition cache_file (s : GitHubSource) : string := name s ++ "_github_cache.txt".

(** The line sets [_detect_changes] compares. *)
Definition old_lines_of (old_content : option string) : gset string :=
  if Py.truthy_opt old_content
  then list_to_set (Py.splitlines (default "" old_content)) else ∅.

Definition new_lines_of (new_content : string) : gset string :=
  list_to_set (Py.splitlines new_content).

Definition added_between (old_content : option string) (new_content : string) : gset string :=
  new_lines_of new_content ∖ old_lines_of old_content.

Definition removed_between (old_content : option string) (new_content : string)
    : gset string :=
  old_lines_of old_content ∖ new_lines_of new_content.

(** The [changes] of the event [_detect_changes] builds when the line
    sets differ, and the event. *)
Definition change_summary (old_content : option string) (new_content : string)
    : dict ChangeValue :=
  [("added_patterns", Count (size (added_between old_content new_content)));
   ("removed_patterns", Count (size (removed_between old_content new_content)));
   ("added_lines", Lines (take 10 (Py.list_of_set (added_between old_content new_content))));
   ("removed_lines",
    Lines (take 10 (Py.list_of_set (removed_between old_content new_content))));
   ("total_lines", Count (size (new_lines_of new_content)))].

Definition detected (t : Task) (old_content : option string) (new_content : string) : ChangeEvent :=
  {| source_name := name (source t);
     change_type := "modified";
     timestamp := clock t (ticks t);
     commit_sha := if Py.truthy_opt (last_commit_sha (source t))
                   then default "" (last_commit_sha (source t))
                   else Py.slice_to 16 (sha256_hexdigest new_content);
     changes := change_summary old_content new_content;
     validation_required := true |}.

(** Whether [_detect_changes] reports a change. *)
Definition differs (old_content : option string) (new_content : string) : bool :=
  negb (bool_decide (old_content = Some new_content)
        || (bool_decide (added_between old_content new_content = ∅)
            && bool_decide (removed_between old_content new_content = ∅))).

Definition _monitor_source (api_data : option (list string)) (response : HttpOutcome)
    : Poll unit :=
  (* Check for new commits first *)
  new_commit_sha ← _check_for_commits api_data;
  (* Load cached content *)
  cache_file ← gets (λ t, cache_file (source t));
  old_content ← gets (λ t, cache_dir t !! cache_file);
  (* Fetch content with ETag optimization *)
  '(new_content, etag, content_changed) ← _fetch_with_etag response;
  if content_changed && Py.truthy_opt new_content then
    change_event ← _detect_changes old_content (default "" new_content);
    match change_event with
    | Some change_event =>
        (* Cache new content *)
        modify (λ t, set_cache_dir (<[cache_file := default "" new_content]> (cache_dir t)) t);;
        (* Queue change for processing *)
        modify (λ t, set_change_queue (change_queue t ++ [change_event])%list t)
    | None => mret tt
    end
  else mret tt.

End Detection.

(** The request headers of [_fetch_with_etag]. *)
Definition request_headers (s : GitHubSource) : dict string :=
  let headers := [("User-Agent", "Email-Tracker-Pixel-AutoUpdate/2.0");
                  ("Cache-Control", "no-cache")] in
  (* Add ETag and Last-Modified headers if available *)
  let headers := if Py.truthy_opt (etag s)
                 then Validator.dict_set "If-None-Match" (default "" (etag s)) headers
                 else headers in
  let headers := if Py.truthy_opt (last_modified s)
                 then Validator.dict_set "If-Modified-Since" (default "" (last_modified s))
                        headers
                 else headers in
  headers.

(** [get_pending_changes]: drains the queue. *)
Definition get_pending_changes : Poll (list ChangeEvent) :=
  changes ← gets change_queue;
  modify (set_change_queue []);;
  mret changes.

End Monitor.

(** ** The orchestrator's validation gate ([scripts/auto_update_orchestrator.py]) *)

Module Orchestrator.

Abbreviation dict V := (Validator.dict V).
Abbreviation ValidationResults := (dict (dict Validator.ValidationResult)).

Record AutoUpdateConfig := {
  enabled : bool;
  validation_enabled : bool;
  auto_rollback : bool;
  max_rollback_attempts : Z;
  performance_threshold : float;
  false_positive_threshold : float;
  health_check_interval : Z;
  pattern_refresh_interval : Z;
  emergency_stop : bool
}.

Definition default_config : AutoUpdateConfig :=
  {| enabled := true; validation_enabled := true; auto_rollback := true;
     max_rollback_attempts := 3; performance_threshold := 2.0;
     false_positive_threshold := 0.001; health_check_interval := 300;
     pattern_refresh_interval := 3600; emergency_stop := false |}.

(** What [_summarize_validation_results] returns. *)
Inductive ValidationSummary :=
| NoResults
| Summary (total_patterns passed_patterns failed_patterns : nat)
          (avg_score success_rate : float).

(** One line of [autoupdate/validation_failures.jsonl]. *)
Record FailureDetails := {
  failure_source : string;
  failure_timestamp : float;
  failure_change : Monitor.ChangeEvent;
  validation_summary : ValidationSummary
}.

(** The orchestrator: its configuration, the monitor it polls, the
    queues between its workers and the failure log. *)
Record Orchestrator := {
  config : AutoUpdateConfig;
  github_monitor : Monitor.Task;
  validation_queue : list Monitor.ChangeEvent;
  update_queue : list (Monitor.ChangeEvent * option ValidationResults);
  validation_failures : list FailureDetails;
  clock : nat → float;
  ticks : nat
}.

Definition set_github_monitor v (o : Orchestrator) : Orchestrator :=
  {| config := config o; github_monitor := v; validation_queue := validation_queue o;
     update_queue := update_queue o; validation_failures := validation_failures o;
     clock := clock o; ticks := ticks o |}.

Definition set_validation_queue v (o : Orchestrator) : Orchestrator :=
  {| config := config o; github_monitor := github_monitor o; validation_queue := v;
     update_queue := update_queue o; validation_failures := validation_failures o;
     clock := clock o; ticks := ticks o |}.

Definition set_update_queue v (o : Orchestrator) : Orchestrator :=
  {| config := config o; github_monitor := github_monitor o;
     validation_queue := validation_queue o;
     update_queue := v; validation_failures := validation_failures o;
     clock := clock o; ticks := ticks o |}.

Definition set_validation_failures v (o : Orchestrator) : Orchestrator :=
  {| config := config o; github_monitor := github_monitor o;
     validation_queue := validation_queue o;
     update_queue := update_queue o; validation_failures := v;
     clock := clock o; ticks := ticks o |}.

Definition set_ticks v (o : Orchestrator) : Orchestrator :=
  {| config := config o; github_monitor := github_monitor o;
     validation_queue := validation_queue o;
     update_queue := update_queue o; validation_failures := validation_failures o;
     clock := clock o; ticks := v |}.

Abbreviation Worker := (State Orchestrator).

Definition time_time : Worker float :=
  λ o, (clock o (ticks o), set_ticks (S (ticks o)) o).

(** Running a monitor method on [self.github_monitor]. *)
Definition on_monitor {A} (m : Monitor.Poll A) : Worker A :=
  λ o, let (a, t) := m (github_monitor o) in (a, set_github_monitor t o).

(** [_extract_patterns_from_change]. [None]: iterating an ["added_lines"]
    entry that is not a list raises [TypeError]. *)
Definition _extract_patterns_from_change (change : Monitor.ChangeEvent)
    : option (list (string * string)) :=
  match Validator.dict_get "added_lines" (Monitor.changes change) with
  | Some (Monitor.Lines added_lines) =>
      Some (take 20
        (foldl (λ patterns line,
                  if Py.truthy (Py.strip line)
                     && negb (Py.startswith line "!") && negb (Py.startswith line "#")
                  then (patterns ++ [(Py.strip line, Monitor.source_name change)])%list
                  else patterns)
               [] added_lines))
  | Some (Monitor.Count _) => None
  | None => Some []
  end.

(** The accumulators of [_validation_passed]: [total_score], [total_count],
    [failed_count]. *)
Definition tally (validation_results : ValidationResults) : float * nat * nat :=
  foldl (λ acc pattern_results,
           foldl (λ '(total_score, total_count, failed_count) stage_result,
                    let result := stage_result.2 in
                    ((total_score + Validator.score result)%float,
                     S total_count,
                     if Validator.passed result then failed_count else S failed_count))
                 acc pattern_results.2)
        (0%float, 0%nat, 0%nat) validation_results.


Definition add_scores (acc : float) (results : list Validator.ValidationResult) : float :=
  foldl (λ acc result, (acc + Validator.score result)%float) acc results.

Definition total_score (results : list Validator.ValidationResult) : float :=
  add_scores 0 results.

Definition failed_count (results : list Validator.ValidationResult) : nat :=
  length (filter (λ result, Validator.passed result = false) results).


Definition failure_rate (results : list Validator.ValidationResult) : float :=
  (Py.float_of_nat (failed_count results) / Py.float_of_nat (length results))%float.

Definition _validation_passed (validation_results : ValidationResults) : bool :=
  match validation_results with
  | [] => false
  | _ =>
      let '(total_score, total_count, failed_count) := tally validation_results in
      if (total_count =? 0)%nat then false
      else
        let avg_score := (total_score / Py.float_of_nat total_count)%float in
        let failure_rate :=
          (Py.float_of_nat failed_count / Py.float_of_nat total_count)%float in
        (* Pass if average score > 0.7 and failure rate < 20% *)
        (0.7 <? avg_score)%float && (failure_rate <? 0.2)%float
  end.

(** [sum(xs)] over floats. *)
Definition float_sum (xs : list float) : float := foldl PrimFloat.add 0%float xs.

(** [_summarize_validation_results]. [None]: a pattern with no stage
    result makes the mean raise [ZeroDivisionError]. *)
Definition _summarize_validation_results (validation_results : ValidationResults)
    : option ValidationSummary :=
  match validation_results with
  | [] => Some NoResults
  | _ =>
      let per_pattern := Validator.dict_values validation_results in
      let total_patterns := length validation_results in
      let passed_patterns :=
        length (filter (λ pr, forallb Validator.passed (Validator.dict_values pr) = true)
                       per_pattern) in
      if existsb (λ pr, (length pr =? 0)%nat) per_pattern then None
      else
        Some (Summary total_patterns passed_patterns (total_patterns - passed_patterns)
                (float_sum ((λ pr, float_sum (Validator.score <$> Validator.dict_values pr)
                                   / Py.float_of_nat (length pr))%float <$> per_pattern)
                 / Py.float_of_nat total_patterns)%float
                (Py.float_of_nat passed_patterns / Py.float_of_nat total_patterns)%float)
  end.

Definition _handle_validation_failure (change : Monitor.ChangeEvent)
    (validation_results : ValidationResults) : Worker unit :=
  now ← time_time;
  match _summarize_validation_results validation_results with
  | None => mret tt
  | Some summary =>
      modify (λ o, set_validation_failures
        (validation_failures o ++
           [{| failure_source := Monitor.source_name change;
               failure_timestamp := now;
               failure_change := change;
               validation_summary := summary |}])%list o)
  end.

(** One turn of the [_change_processor] loop. *)
Definition _change_processor : Worker unit :=
  changes ← on_monitor Monitor.get_pending_changes;
  config ← gets config;
  modify (λ o,
    foldl (λ o change,
             if emergency_stop config then o
             else if validation_enabled config
                  then set_validation_queue (validation_queue o ++ [change])%list o
                  else set_update_queue (update_queue o ++ [(change, None)])%list o)
          o changes).

Section Validation.
Context `{Validator.Stages}.

(** One turn of the [_validation_processor] loop. *)
Definition _validation_processor : Worker unit :=
  queue ← gets validation_queue;
  match queue with
  | [] => mret tt
  | change :: queue' =>
      modify (set_validation_queue queue');;
      (* Extract patterns from change *)
      match _extract_patterns_from_change change with
      | None => mret tt
      | Some [] => mret tt
      | Some patterns_to_validate =>
          (* Run comprehensive validation *)
          let validation_results := Validator.validate_patterns_batch patterns_to_validate in
          (* Check if validation passed *)
          if _validation_passed validation_results
          then modify (λ o, set_update_queue
                         (update_queue o ++ [(change, Some validation_results)])%list o)
          else _handle_validation_failure change validation_results
      end
  end.

End Validation.

End Orchestrator.

(** ** The domain index ([scripts/optimized_pattern_engine.py]) *)

Module Engine.

(** A call that returns a value or raises. *)
Inductive Result (A : Type) :=
| Ok (a : A)
| Raised (exception : string).
Arguments Ok {A} a.
Arguments Raised {A} exception.

#[export] Instance result_ret : MRet Result := λ A a, Ok a.

#[export] Instance result_bind : MBind Result :=
  λ A B k m, match m with Ok a => k a | Raised e => Raised e end.

(** [l[i]] *)
Definition getitem {A} (l : list A) (i : nat) : Result A :=
  match l !! i with
  | Some a => Ok a
  | None => Raised "IndexError"
  end.

(** An entry of [domain_index[d]['patterns']]. *)
Record PatternEntry := {
  pattern : string;
  regex_pattern : string;
  pattern_confidence : string
}.

(** A value of [domain_index]. *)
Record ThreatInfo := {
  threat_level : string;
  source : string;
  patterns : list PatternEntry;
  confidence : string
}.

Record Stats := {
  domains_indexed : nat;
  patterns_cached : nat;
  cache_hits : nat;
  cache_misses : nat;
  total_lookups : nat
}.

(** An [OptimizedPatternEngine]. The regex cache is keyed by the
    pattern text, of which its key is the MD5 digest. *)
Record Engine := {
  domain_index : gmap string ThreatInfo;
  url_pattern_index : gmap string (list string);
  regex_pattern_cache : gset string;
  stats : Stats
}.

Definition new_engine : Engine :=
  {| domain_index := ∅; url_pattern_index := ∅; regex_pattern_cache := ∅;
     stats := {| domains_indexed := 0; patterns_cached := 0; cache_hits := 0;
                 cache_misses := 0; total_lookups := 0 |} |}.

Definition set_domain_index v (e : Engine) : Engine :=
  {| domain_index := v; url_pattern_index := url_pattern_index e;
     regex_pattern_cache := regex_pattern_cache e; stats := stats e |}.

Definition set_url_pattern_index v (e : Engine) : Engine :=
  {| domain_index := domain_index e; url_pattern_index := v;
     regex_pattern_cache := regex_pattern_cache e; stats := stats e |}.

Definition set_regex_pattern_cache v (e : Engine) : Engine :=
  {| domain_index := domain_index e; url_pattern_index := url_pattern_index e;
     regex_pattern_cache := v; stats := stats e |}.

Definition set_stats v (e : Engine) : Engine :=
  {| domain_index := domain_index e; url_pattern_index := url_pattern_index e;
     regex_pattern_cache := regex_pattern_cache e; stats := v |}.

Definition count_domain_indexed (s : Stats) : Stats :=
  {| domains_indexed := S (domains_indexed s); patterns_cached := patterns_cached s;
     cache_hits := cache_hits s; cache_misses := cache_misses s;
     total_lookups := total_lookups s |}.

Definition count_pattern_cached (s : Stats) : Stats :=
  {| domains_indexed := domains_indexed s; patterns_cached := S (patterns_cached s);
     cache_hits := cache_hits s; cache_misses := cache_misses s;
     total_lookups := total_lookups s |}.

Definition count_cache_hit (s : Stats) : Stats :=
  {| domains_indexed := domains_indexed s; patterns_cached := patterns_cached s;
     cache_hits := S (cache_hits s); cache_misses := cache_misses s;
     total_lookups := total_lookups s |}.

Definition count_cache_miss (s : Stats) : Stats :=
  {| domains_indexed := domains_indexed s; patterns_cached := patterns_cached s;
     cache_hits := cache_hits s; cache_misses := S (cache_misses s);
     total_lookups := total_lookups s |}.

Definition count_lookup (s : Stats) : Stats :=
  {| domains_indexed := domains_indexed s; patterns_cached := patterns_cached s;
     cache_hits := cache_hits s; cache_misses := cache_misses s;
     total_lookups := S (total_lookups s) |}.

(** [_extract_base_domain] *)
Definition _extract_base_domain (domain : string) : Result string :=
  let domain := Py.strip (Py.lower domain) in
  (* Remove www prefix *)
  let domain := if Py.startswith domain "www." then Py.slice_from 4 domain else domain in
  (* Remove protocol if present *)
  domain ← (if Py.contains domain "://" then getitem (Py.split1 domain "://") 1
            else mret domain);
  (* Remove path if present *)
  domain ← (if Py.contains domain "/" then getitem (Py.split1 domain "/") 0
            else mret domain);
  mret domain.

(** The [try] block of [_extract_domain_from_url] *)
Definition extract_domain_try (url : string) : Result string :=
  url ← (if Py.contains url "://" then getitem (Py.split1 url "://") 1 else mret url);
  url ← (if Py.contains url "/" then getitem (Py.split1 url "/") 0 else mret url);
  mret (Py.lower url).

Definition _extract_domain_from_url (url : string) : string :=
  match extract_domain_try url with
  | Ok domain => domain
  | Raised _ => ""
  end.

(** An object of [cache_data['data']]; [None] for a key it lacks. *)
Record MailTrackerItem := {
  item_pattern : option string;
  item_domain : option string;
  item_regex_pattern : option string;
  item_confidence : option string
}.

(** The body of the loop of [_index_mailtracker_patterns]: one
    [Engine] to the next, or the exception that ends the loop. *)
Definition index_mailtracker_item (item : MailTrackerItem) (e : Engine) : Result Engine :=
  let pattern := default "" (item_pattern item) in
  let domain := default "" (item_domain item) in
  if Py.truthy domain && Py.truthy pattern then
    (* Extract base domain for indexing *)
    base_domain ← _extract_base_domain domain;
    let e :=
      match domain_index e !! base_domain with
      | Some _ => e
      | None =>
          set_domain_index
            (<[base_domain := {| threat_level := "critical"; source := "MailTracker";
                                 patterns := []; confidence := "high" |}]> (domain_index e)) e
      end in
    let e :=
      set_domain_index
        (alter (λ info,
                  {| threat_level := threat_level info; source := source info;
                     patterns := (patterns info ++
                       [{| pattern := pattern;
                           regex_pattern := default "" (item_regex_pattern item);
                           pattern_confidence := default "high" (item_confidence item) |}])%list;
                     confidence := confidence info |})
               base_domain (domain_index e)) e in
    mret (set_stats (count_domain_indexed (stats e)) e)
  else mret e.

(** A [for] loop whose body may raise, under the method's
    [try ... except Exception]: the state reached when the loop ends or
    is left. *)
Fixpoint for_each {A} (body : A → Engine → Result Engine) (items : list A) (e : Engine)
    : Engine :=
  match items with
  | [] => e
  | item :: items' =>
      match body item e with
      | Ok e' => for_each body items' e'
      | Raised _ => e
      end
  end.

(** [_index_mailtracker_patterns], given the decoded cache file
    ([None] when it does not exist). *)
Definition _index_mailtracker_patterns (cache_data : option (list MailTrackerItem))
    (e : Engine) : Engine :=
  match cache_data with
  | None => e
  | Some data => for_each index_mailtracker_item data e
  end.

(** [sources/github_tracking_rules.json] *)
Record GitHubRules := {
  domains : list string;
  url_patterns : list string
}.

Definition index_github_domain (url_patterns : list string) (domain : string) (e : Engine)
    : Result Engine :=
  if (3 <? String.length domain)%nat && Py.contains domain "." then
    base_domain ← _extract_base_domain domain;
    let e :=
      match domain_index e !! base_domain with
      | Some _ => e
      | None =>
          set_domain_index
            (<[base_domain := {| threat_level := "medium"; source := "GitHub";
                                 patterns := []; confidence := "medium" |}]> (domain_index e)) e
      end in
    (* Add URL patterns for this domain *)
    mret (foldl (λ e url_pattern,
                   if (5 <? String.length url_pattern)%nat then
                     set_url_pattern_index
                       (<[base_domain := (default [] (url_pattern_index e !! base_domain)
                                          ++ [url_pattern])%list]> (url_pattern_index e)) e
                   else e)
                e url_patterns)
  else mret e.

Definition _index_github_patterns (github_data : option GitHubRules) (e : Engine) : Engine :=
  match github_data with
  | None => e
  | Some data => for_each (index_github_domain (url_patterns data)) (domains data) e
  end.

(** The double quote, and the ten [common_patterns]. *)
Definition dq : string := String (ascii_of_nat 34) EmptyString.

Definition link_pattern (word : string) : string :=
  "(?:src|href)=[\" ++ dq ++ "\']([^\" ++ dq ++ "\']*" ++ word ++ "[^\" ++ dq ++ "\']*)".

Definition size_pattern (first second : string) : string :=
  first ++ "=[" ++ dq ++ "\']?1[" ++ dq ++ "\']?[^>]*" ++ second ++ "=[" ++ dq ++ "\']?1["
  ++ dq ++ "\']?".

Definition style_pattern (rule : string) : string :=
  "style=[" ++ dq ++ "\'][^" ++ dq ++ "\']*" ++ rule ++ "[^" ++ dq ++ "\']*[" ++ dq ++ "\']".

Definition common_patterns : list string :=
  [ link_pattern "track"; link_pattern "pixel"; link_pattern "analytics";
    link_pattern "beacon"; link_pattern "collect";
    "<img[^>]*src=[\" ++ dq ++ "\']([^\" ++ dq ++ "\']+)[\" ++ dq ++ "\'][^>]*>";
    size_pattern "width" "height"; size_pattern "height" "width";
    style_pattern "display:\s*none"; style_pattern "width:\s*1px" ].

(** [_precompile_common_patterns]: each of the ten compiles. *)
Definition _precompile_common_patterns (e : Engine) : Engine :=
  foldl (λ e pattern,
           set_stats (count_pattern_cached (stats e))
             (set_regex_pattern_cache ({[ pattern ]} ∪ regex_pattern_cache e) e))
        e common_patterns.

(** [_initialize_indexes], given the two files it reads. *)
Definition _initialize_indexes (cache_data : option (list MailTrackerItem))
    (github_data : option GitHubRules) (e : Engine) : Engine :=
  (* 1. Index MailTracker patterns *)
  let e := _index_mailtracker_patterns cache_data e in
  (* 2. Index GitHub patterns *)
  let e := _index_github_patterns github_data e in
  (* 3. Pre-compile frequently used regex patterns *)
  _precompile_common_patterns e.

(** The engine at the start of each turn of such a loop and when it is
    left: what [self] shows to a caller that runs between two turns. *)
Fixpoint states_of {A} (body : A → Engine → Result Engine) (items : list A) (e : Engine)
    : list Engine :=
  match items with
  | [] => [e]
  | item :: items' =>
      e :: match body item e with
           | Ok e' => states_of body items' e'
           | Raised _ => []
           end
  end.




(** One index entry continues another: same threat data, and the
    patterns of the first begin those of the second. *)
Definition entry_extends (i1 i2 : ThreatInfo) : Prop :=
  threat_level i1 = threat_level i2 ∧ source i1 = source i2 ∧
  confidence i1 = confidence i2 ∧ patterns i1 `prefix_of` patterns i2.

(** Every entry of the first index is continued in the second. *)
Definition index_grows (e1 e2 : Engine) : Prop :=
  ∀ domain i1, domain_index e1 !! domain = Some i1 →
               ∃ i2, domain_index e2 !! domain = Some i2 ∧ entry_extends i1 i2.

(** [fast_domain_lookup] *)
Definition fast_domain_lookup (url : string) : State Engine (Result (option ThreatInfo)) :=
  modify (λ e, set_stats (count_lookup (stats e)) e);;
  (* Extract domain from URL *)
  let domain := _extract_domain_from_url url in
  if negb (Py.truthy domain) then mret (Ok None)
  else
    match _extract_base_domain domain with
    | Raised exception => mret (Raised exception)
    | Ok base_domain =>
        (* O(1) hash table lookup *)
        index ← gets domain_index;
        match index !! base_domain with
        | Some info =>
            modify (λ e, set_stats (count_cache_hit (stats e)) e);;
            mret (Ok (Some info))
        | None =>
            modify (λ e, set_stats (count_cache_miss (stats e)) e);;
            mret (Ok None)
        end
    end.

(** What [_analyze_single_url] returns for a URL it finds. *)
Record Analysis := {
  analysis_url : string;
  analysis_domain : string;
  analysis_threat_level : string;
  analysis_source : string;
  analysis_confidence : string;
  patterns_matched : nat;
  is_malicious : bool;
  url_pattern_match : option string
}.

(** [_analyze_single_url] *)
Definition _analyze_single_url (url : string) : State Engine (Result (option Analysis)) :=
  (* Fast domain lookup first *)
  threat_info ← fast_domain_lookup url;
  match threat_info with
  | Raised exception => mret (Raised exception)
  | Ok None => mret (Ok None)
  | Ok (Some threat_info) =>
      (* Extract URL components *)
      let domain := _extract_domain_from_url url in
      (* Check URL patterns for this domain *)
      match _extract_base_domain domain with
      | Raised exception => mret (Raised exception)
      | Ok base_domain =>
          index ← gets url_pattern_index;
          mret (Ok (Some
            {| analysis_url := url;
               analysis_domain := domain;
               analysis_threat_level := threat_level threat_info;
               analysis_source := source threat_info;
               analysis_confidence := confidence threat_info;
               patterns_matched := length (patterns threat_info);
               is_malicious :=
                 bool_decide (threat_level threat_info ∈ ["critical"; "high"]);
               url_pattern_match :=
                 match index !! base_domain with
                 | Some url_patterns =>
                     List.find (λ pattern, Py.contains (Py.lower url) (Py.lower pattern))
                               url_patterns
                 | None => None
                 end |}))
      end
  end.

(** [batch_analyze_urls]: one task per URL on the thread pool, the
    results collected as the tasks complete; completion order is taken to
    be submission order. A task that raised is reported and skipped. *)
Fixpoint analyze_each (urls : list string) (results : list Analysis)
    : State Engine (list Analysis) :=
  match urls with
  | [] => mret results
  | url :: urls' =>
      result ← _analyze_single_url url;
      match result with
      | Ok (Some result) => analyze_each urls' (results ++ [result])%list
      | Ok None => analyze_each urls' results
      | Raised _ => analyze_each urls' results
      end
  end.

Definition batch_analyze_urls (urls : list string) : State Engine (list Analysis) :=
  match urls with
  | [] => mret []
  | _ => analyze_each urls []
  end.

(** The two kinds of entry [_initialize_indexes] creates: one made by
    the MailTracker loop, which has a pattern from its first turn on, and
    one made by the GitHub loop. *)
Definition mailtracker_entry (info : ThreatInfo) : Prop :=
  threat_level info = "critical" ∧ source info = "MailTracker" ∧ confidence info = "high" ∧
  patterns info ≠ [].

Definition github_entry (info : ThreatInfo) : Prop :=
  threat_level info = "medium" ∧ source info = "GitHub" ∧ confidence info = "medium" ∧
  patterns info = [].

(** The items the MailTracker loop indexes. *)
Definition indexable (item : MailTrackerItem) : bool :=
  Py.truthy (default "" (item_domain item)) && Py.truthy (default "" (item_pattern item)).

End Engine.

(** ** Updates, health and rollback ([scripts/auto_update_orchestrator.py]) *)

Module Recovery.

Abbreviation dict V := (Validator.dict V).

Record SystemHealth := {
  health_timestamp : float;
  detection_speed_ms : float;
  memory_usage_mb : float;
  pattern_count : nat;
  false_positive_rate : float;
  cache_hit_rate : float;
  errors_per_hour : Z;
  status : string
}.

Definition set_status v (h : SystemHealth) : SystemHealth :=
  {| health_timestamp := health_timestamp h; detection_speed_ms := detection_speed_ms h;
     memory_usage_mb := memory_usage_mb h; pattern_count := pattern_count h;
     false_positive_rate := false_positive_rate h; cache_hit_rate := cache_hit_rate h;
     errors_per_hour := errors_per_hour h; status := v |}.

(** The whole [AutoUpdateOrchestrator]: the part its change and
    validation workers use, and the ledger, the engine and the counters
    of its update and health workers. *)
Record Controller := {
  workers : Orchestrator.Orchestrator;
  version_control : VersionControl.Repo;
  pattern_engine : option Engine.Engine;
  health_history : list SystemHealth;
  rollback_count : Z;
  last_update : float
}.

Definition set_workers v (ctl : Controller) : Controller :=
  {| workers := v; version_control := version_control ctl;
     pattern_engine := pattern_engine ctl; health_history := health_history ctl;
     rollback_count := rollback_count ctl; last_update := last_update ctl |}.

Definition set_version_control v (ctl : Controller) : Controller :=
  {| workers := workers ctl; version_control := v;
     pattern_engine := pattern_engine ctl; health_history := health_history ctl;
     rollback_count := rollback_count ctl; last_update := last_update ctl |}.

Definition set_health_history v (ctl : Controller) : Controller :=
  {| workers := workers ctl; version_control := version_control ctl;
     pattern_engine := pattern_engine ctl; health_history := v;
     rollback_count := rollback_count ctl; last_update := last_update ctl |}.

Definition set_rollback_count v (ctl : Controller) : Controller :=
  {| workers := workers ctl; version_control := version_control ctl;
     pattern_engine := pattern_engine ctl; health_history := health_history ctl;
     rollback_count := v; last_update := last_update ctl |}.

Definition set_last_update v (ctl : Controller) : Controller :=
  {| workers := workers ctl; version_control := version_control ctl;
     pattern_engine := pattern_engine ctl; health_history := health_history ctl;
     rollback_count := rollback_count ctl; last_update := v |}.

(** [self.config.emergency_stop = True] *)
Definition stopped (c : Orchestrator.AutoUpdateConfig) : Orchestrator.AutoUpdateConfig :=
  {| Orchestrator.enabled := Orchestrator.enabled c;
     Orchestrator.validation_enabled := Orchestrator.validation_enabled c;
     Orchestrator.auto_rollback := Orchestrator.auto_rollback c;
     Orchestrator.max_rollback_attempts := Orchestrator.max_rollback_attempts c;
     Orchestrator.performance_threshold := Orchestrator.performance_threshold c;
     Orchestrator.false_positive_threshold := Orchestrator.false_positive_threshold c;
     Orchestrator.health_check_interval := Orchestrator.health_check_interval c;
     Orchestrator.pattern_refresh_interval := Orchestrator.pattern_refresh_interval c;
     Orchestrator.emergency_stop := true |}.

Definition set_config v (o : Orchestrator.Orchestrator) : Orchestrator.Orchestrator :=
  {| Orchestrator.config := v;
     Orchestrator.github_monitor := Orchestrator.github_monitor o;
     Orchestrator.validation_queue := Orchestrator.validation_queue o;
     Orchestrator.update_queue := Orchestrator.update_queue o;
     Orchestrator.validation_failures := Orchestrator.validation_failures o;
     Orchestrator.clock := Orchestrator.clock o;
     Orchestrator.ticks := Orchestrator.ticks o |}.

Abbreviation Control := (State Controller).

(** Running a worker of the first part, or a ledger method, on the
    object's own field. *)
Definition on_workers {A} (m : Orchestrator.Worker A) : Control A :=
  λ ctl, let (a, o) := m (workers ctl) in (a, set_workers o ctl).

Definition on_ledger {A} (m : VersionControl.VCS A) : Control A :=
  λ ctl, let (a, r) := m (version_control ctl) in (a, set_version_control r ctl).

Definition config : Control Orchestrator.AutoUpdateConfig :=
  gets (λ ctl, Orchestrator.config (workers ctl)).

(** [int(x)]: truncation toward zero. [None]: [ValueError] for a NaN,
    [OverflowError] for an infinity. *)
Definition int_of_float (x : float) : option Z :=
  match Prim2SF x with
  | S754_zero _ => Some 0%Z
  | S754_finite negative m e =>
      let magnitude :=
        if (0 <=? e)%Z then (Z.pos m * 2 ^ e)%Z else (Z.pos m / 2 ^ (- e))%Z in
      Some (if negative then (- magnitude)%Z else magnitude)
  | S754_infinity _ => None
  | S754_nan => None
  end.

(** [_get_current_patterns] of the orchestrator. *)
Definition _get_current_patterns : Control VersionControl.Snapshot :=
  engine ← gets pattern_engine;
  match engine with
  | None => mret ∅
  | Some _ => mret {[ "current_state" := ["pattern_extraction_placeholder"] ]}
  end.

Definition _get_total_pattern_count : Control nat :=
  on_ledger VersionControl._get_total_pattern_count.

(** [_collect_health_metrics] *)
Definition _collect_health_metrics : Control SystemHealth :=
  now ← on_workers Orchestrator.time_time;
  count ← _get_total_pattern_count;
  let health :=
    {| health_timestamp := now; detection_speed_ms := 25.0; memory_usage_mb := 150.0;
       pattern_count := count; false_positive_rate := 0.0001; cache_hit_rate := 0.75;
       errors_per_hour := 0; status := "healthy" |} in
  (* Determine status based on metrics *)
  if (100 <? detection_speed_ms health)%float || (0.01 <? false_positive_rate health)%float
  then mret (set_status "critical" health)
  else if (50 <? detection_speed_ms health)%float || (500 <? memory_usage_mb health)%float
       then mret (set_status "degraded" health)
       else mret health.

(** [_perform_rollback] *)
Definition _perform_rollback (rollback_commit reason : string) : Control unit :=
  count ← gets rollback_count;
  config ← config;
  if (Orchestrator.max_rollback_attempts config <=? count)%Z then
    modify (λ ctl, set_workers (set_config (stopped config) (workers ctl)) ctl)
  else
    success ← on_ledger (VersionControl.rollback_to_commit rollback_commit reason);
    if success : bool then modify (λ ctl, set_rollback_count (rollback_count ctl + 1)%Z ctl)
    else mret tt.

(** [_trigger_emergency_rollback]: the first of the five most recent
    commits that is not a rollback is rolled back to. *)
Definition _trigger_emergency_rollback (health : SystemHealth) : Control unit :=
  (* Get recent commits to rollback to *)
  recent_commits ← on_ledger (VersionControl.get_commit_history 5);
  match List.find (λ commit, negb (VersionControl.is_rollback commit)) recent_commits with
  | Some commit =>
      _perform_rollback (VersionControl.commit_id commit) ("emergency: " ++ status health)
  | None => mret tt
  end.

(** One turn of the [_health_monitor] loop. *)
Definition _health_monitor : Control unit :=
  (* Collect health metrics *)
  health ← _collect_health_metrics;
  modify (λ ctl, set_health_history (health_history ctl ++ [health])%list ctl);;
  (* Keep only recent history *)
  modify (λ ctl, if (100 <? length (health_history ctl))%nat
                 then set_health_history
                        (drop (length (health_history ctl) - 100) (health_history ctl)) ctl
                 else ctl);;
  (* Check for health issues *)
  config ← config;
  if bool_decide (status health ∈ ["degraded"; "critical"]) then
    if bool_decide (status health = "critical") && Orchestrator.auto_rollback config
    then _trigger_emergency_rollback health
    else mret tt
  else mret tt.

Section Updates.
Context `{Py.SetOrder}.

(** [str] of a list of strings. *)
Variable str_of_list : list string → string.

(** [f"{change.changes.get('added_patterns', 0)}"] *)
Definition added_patterns_text (change : Monitor.ChangeEvent) : string :=
  match Validator.dict_get "added_patterns" (Monitor.changes change) with
  | None => "0"
  | Some (Monitor.Count n) => pretty n
  | Some (Monitor.Lines l) => str_of_list l
  end.

(** [_create_rollback_point] *)
Definition _create_rollback_point (reason : string) : Control string :=
  current_patterns ← _get_current_patterns;
  on_ledger (VersionControl.commit_changes current_patterns ("Rollback point: " ++ reason)
               "auto-update-system" None).

(** [_simulate_new_patterns]. [None]: [int] raised. *)
Definition _simulate_new_patterns (change : Monitor.ChangeEvent)
    : Control (option VersionControl.Snapshot) :=
  now ← on_workers Orchestrator.time_time;
  match int_of_float now with
  | None => mret None
  | Some seconds =>
      mret (Some {[ Monitor.source_name change :=
                      ["simulated_pattern_" ++ pretty seconds;
                       "test_pattern_" ++ Py.slice_to 8 (Monitor.commit_sha change)] ]})
  end.

(** [_apply_pattern_update]: [False] when its [try] block raised. *)
Definition _apply_pattern_update (change : Monitor.ChangeEvent)
    (validation_results : option Orchestrator.ValidationResults) : Control bool :=
  (* Commit changes to version control *)
  new_patterns ← _simulate_new_patterns change;
  match new_patterns with
  | None => mret false
  | Some new_patterns =>
      on_ledger (VersionControl.commit_changes new_patterns
                   ("Auto-update from " ++ Monitor.source_name change ++ ": "
                    ++ added_patterns_text change ++ " patterns")
                   "auto-update-system" validation_results);;
      mret true
  end.

(** One turn of the [_update_processor] loop. *)
Definition _update_processor : Control unit :=
  queue ← gets (λ ctl, Orchestrator.update_queue (workers ctl));
  match queue with
  | [] => mret tt
  | (change, validation_results) :: queue' =>
      modify (λ ctl, set_workers (Orchestrator.set_update_queue queue' (workers ctl)) ctl);;
      (* Create rollback point *)
      rollback_point ← _create_rollback_point "before_update";
      (* Apply the update *)
      success ← _apply_pattern_update change validation_results;
      if success : bool then
        now ← on_workers Orchestrator.time_time;
        modify (set_last_update now);;
        (* Reset rollback count on success *)
        modify (set_rollback_count 0%Z)
      else
        config ← config;
        if Orchestrator.auto_rollback config
        then _perform_rollback rollback_point "update_application_failed"
        else mret tt
  end.

End Updates.

End Recovery.

(** ** Concrete runs *)

Module Examples.

(** One admissible iteration order for sets: stdpp's enumeration. *)
#[export] Instance enumeration_order : Py.SetOrder :=
  {| Py.list_of_set := elements;
     Py.list_of_set_perm := λ s, reflexivity (elements s) |}.

(** A clock that advances by a second at each reading. *)
Fixpoint seconds_after (start : float) (n : nat) : float :=
  match n with
  | O => start
  | S n' => seconds_after (start + 1)%float n'
  end.

Definition example_clock (n : nat) : float := seconds_after 1700000000 n.

Definition example_entropy (n : nat) : string :=
  nth n ["4be1c07a"; "90d3f2a6"; "c57e08b1"; "0a9f6d3e"; "e2b4417c"; "7d10a5f9"] "5c3e9b02".

(** Stage outcomes of the kind the validator produces: a pattern with
    [.*.*.*] fails the syntax stage on its format check, [gmail.com]
    matches legitimate URLs, and the community stage passes a domain with
    a tracking keyword and fails the others. *)
Definition outcome (stage : string) (passed : bool) (score : float)
    (pattern source : string) : Validator.ValidationResult :=
  {| Validator.pattern := pattern; Validator.source := source; Validator.stage := stage;
     Validator.passed := passed; Validator.score := score; Validator.details := [];
     Validator.duration_ms := 0.5; Validator.timestamp := example_clock 0 |}.

#[export] Instance recorded_stages : Validator.Stages :=
  {| Validator.validate_syntax pattern :=
       if Py.contains pattern ".*.*.*" then outcome "syntax" false 0.87 pattern
       else outcome "syntax" true 0.95 pattern;
     Validator.validate_performance := outcome "performance" true 0.75;
     Validator.validate_false_positives pattern :=
       if Py.contains pattern "gmail" then outcome "false_positive" false 0 pattern
       else outcome "false_positive" true 0.7 pattern;
     Validator.validate_community_score pattern :=
       if Py.contains pattern "track" then outcome "community" true 0.65 pattern
       else if Py.contains pattern "cdn" then outcome "community" false 0.4 pattern
       else outcome "community" false 0.5 pattern |}.

Import VersionControl.

(** A fresh ledger, then the commits [{}] -> [{"s": ["p1"]}] ->
    [{"s": ["p1", "p2"]}]. *)
Definition ledger0 : Repo := (init (empty_directory example_clock example_entropy)).2.

Definition ledger1 : Repo :=
  (commit_changes {[ "s" := ["p1"] ]} "add p1" "auto-update" None ledger0).2.

Definition ledger2 : Repo :=
  (commit_changes {[ "s" := ["p1"; "p2"] ]} "add p2" "auto-update" None ledger1).2.

Definition chain : list PatternCommit := (get_commit_history 50 ledger2).1.

Definition commit0 : PatternCommit :=
  {| commit_id := "4be1c07a"; parent_id := None; timestamp := example_clock 2;
     author := "system"; message := "Initial commit - Pattern VCS repository";
     changes := ChangesInitial; pattern_snapshot := ∅;
     validation_results := None; rollback_safe := true; branch := "main" |}.

Definition commit1 : PatternCommit :=
  {| commit_id := "90d3f2a6"; parent_id := Some "4be1c07a"; timestamp := example_clock 4;
     author := "auto-update"; message := "add p1";
     changes := ChangesUpdate
       {| patterns_added := 1; patterns_removed := 0; patterns_modified := 0;
          sources_modified := ["s"];
          change_details := [("s", {| added := ["p1"]; removed := [];
                                      added_count := 1; removed_count := 0 |})] |};
     pattern_snapshot := {[ "s" := ["p1"] ]};
     validation_results := None; rollback_safe := true; branch := "main" |}.

Definition commit2 : PatternCommit :=
  {| commit_id := "c57e08b1"; parent_id := Some "90d3f2a6"; timestamp := example_clock 7;
     author := "auto-update"; message := "add p2";
     changes := ChangesUpdate
       {| patterns_added := 1; patterns_removed := 0; patterns_modified := 0;
          sources_modified := ["s"];
          change_details := [("s", {| added := ["p2"]; removed := [];
                                      added_count := 1; removed_count := 0 |})] |};
     pattern_snapshot := {[ "s" := ["p1"; "p2"] ]};
     validation_results := None; rollback_safe := true; branch := "main" |}.

(** A digest function standing for SHA-256. *)
Definition example_sha256 (content : string) : string :=
  "2c26b46b68ffc68ff99b453c1d30413413422d706483bfa0f98a5e886266e7ae".

Definition source_X : Monitor.GitHubSource :=
  {| Monitor.name := "X";
     Monitor.url := "https://raw.githubusercontent.com/example/lists/master/x.txt";
     Monitor.api_url := "https://api.github.com/repos/example/lists/commits?path=x.txt&per_page=1";
     Monitor.description := "Example list";
     Monitor.poll_interval := 60; Monitor.priority := "high";
     Monitor.etag := None; Monitor.last_modified := None;
     Monitor.last_check := None; Monitor.last_commit_sha := None |}.

(** The monitor with [a_b] cached for source X and nothing queued. *)
Definition monitor_X : Monitor.Task :=
  {| Monitor.source := source_X;
     Monitor.cache_dir := {[ "X_github_cache.txt" := Monitor.a_b ]};
     Monitor.change_queue := [];
     Monitor.clock := example_clock; Monitor.ticks := 0 |}.

Definition orchestrator_X : Orchestrator.Orchestrator :=
  {| Orchestrator.config := Orchestrator.default_config;
     Orchestrator.github_monitor := monitor_X;
     Orchestrator.validation_queue := [];
     Orchestrator.update_queue := [];
     Orchestrator.validation_failures := [];
     Orchestrator.clock := example_clock; Orchestrator.ticks := 0 |}.

(** The event of scenario A. *)
Definition event_c : Monitor.ChangeEvent :=
  {| Monitor.source_name := "X"; Monitor.change_type := "modified";
     Monitor.timestamp := example_clock 0; Monitor.commit_sha := "2c26b46b68ffc68f";
     Monitor.changes :=
       [("added_patterns", Monitor.Count 1); ("removed_patterns", Monitor.Count 0);
        ("added_lines", Monitor.Lines ["c"]); ("removed_lines", Monitor.Lines []);
        ("total_lines", Monitor.Count 3)];
     Monitor.validation_required := true |}.

(** The orchestrator with the event of scenario A approved for update,
    the ledger [ledger2] and no engine. *)
Definition controller_X : Recovery.Controller :=
  {| Recovery.workers := Orchestrator.set_update_queue [(event_c, None)] orchestrator_X;
     Recovery.version_control := ledger2;
     Recovery.pattern_engine := None;
     Recovery.health_history := [];
     Recovery.rollback_count := 0;
     Recovery.last_update := example_clock 0 |}.

(** A sample of added lines: a rule, a blank line, two comments, one of
    them indented, and a rule with spaces around it. *)
Definition event_lines : Monitor.ChangeEvent :=
  {| Monitor.source_name := "X"; Monitor.change_type := "modified";
     Monitor.timestamp := example_clock 0; Monitor.commit_sha := "2c26b46b68ffc68f";
     Monitor.changes :=
       [("added_patterns", Monitor.Count 5); ("removed_patterns", Monitor.Count 0);
        ("added_lines",
         Monitor.Lines ["||pixel.tracker.com^"; "   "; "! a comment"; "  # indented";
                        " beacon.example.net "]);
        ("removed_lines", Monitor.Lines []);
        ("total_lines", Monitor.Count 5)];
     Monitor.validation_required := true |}.

(** The same orchestrator with a clock whose reading is not a number. *)
Definition controller_stalled : Recovery.Controller :=
  {| Recovery.workers :=
       {| Orchestrator.config := Orchestrator.default_config;
          Orchestrator.github_monitor := monitor_X;
          Orchestrator.validation_queue := [];
          Orchestrator.update_queue := [(event_c, None)];
          Orchestrator.validation_failures := [];
          Orchestrator.clock := λ _, nan; Orchestrator.ticks := 0 |};
     Recovery.version_control := ledger2;
     Recovery.pattern_engine := None;
     Recovery.health_history := [];
     Recovery.rollback_count := 0;
     Recovery.last_update := example_clock 0 |}.

(** [str] of a list of strings none of which needs escaping. *)
Definition example_str_of_list (l : list string) : string :=
  "[" ++ String.concat ", " ((λ s, "'" ++ s ++ "'") <$> l) ++ "]".

(** Two entries of a MailTracker cache file. *)
Definition two_items : list Engine.MailTrackerItem :=
  [ {| Engine.item_pattern := Some "flexlinks"; Engine.item_domain := Some "track.flexlinks.com";
       Engine.item_regex_pattern := Some "track\.flexlinks\.com";
       Engine.item_confidence := Some "high" |};
    {| Engine.item_pattern := Some "pntrac"; Engine.item_domain := Some "www.pntrac.com";
       Engine.item_regex_pattern := None; Engine.item_confidence := None |} ].


End Examples.

(** * Properties *)

Example lower_example : Py.lower "WWW.Example.COM/Path" = "www.example.com/path".
Proof. reflexivity. Qed.

Example strip_example : Py.strip "  a b " = "a b".
Proof. reflexivity. Qed.

Example split1_example : Py.split1 "https://a.b/c://d" "://" = ["https"; "a.b/c://d"].
Proof. reflexivity. Qed.

Example splitlines_example :
  Py.splitlines ("a" ++ String "010" ("" ++ String "013" (String "010" ("b" ++ String "010" ""))))
  = ["a"; ""; "b"].
Proof. reflexivity. Qed.

(** Unfolding the monadic plumbing of a state-passing definition. *)
Ltac unfold_state :=
  cbv beta iota zeta delta [mbind mret state_bind state_ret gets modify].

(** ** The pattern ledger *)

Section Ledger.
Import VersionControl.

Implicit Types (r : Repo) (c : PatternCommit).

(** Reading the metrics consumes one clock reading and nothing else. *)
Lemma get_system_metrics_state r :
  (_get_system_metrics r).2 = set_ticks (S (ticks r)) r.
Proof.
  unfold _get_system_metrics, _get_total_pattern_count, _get_current_patterns,
    _load_commit, time_time.
  unfold_state. cbn. destruct (head_commit r) as [id|]; [|done].
  destruct (Py.truthy id); done.
Qed.

Lemma rollback_found r target reason c :
  commits_dir r !! target = Some c →
  ∃ r', rollback_to_commit target reason r = (true, r') ∧
        commits_dir r' = <[entropy r (S (draws r)) := rollback_commit_for r target reason c]> (commits_dir r) ∧
        head_commit r' = Some (entropy r (S (draws r))) ∧
        current_branch r' = current_branch r ∧
        branch_head_commit <$> (branches_dir r' !! current_branch r') = Some (Some (entropy r (S (draws r)))).
Proof.
  intros Hc. unfold rollback_to_commit, _load_commit, _generate_commit_id, time_time.
  unfold_state. rewrite Hc. cbn.
  destruct (_get_system_metrics _) as [m s] eqn:E.
  pose proof (get_system_metrics_state (set_ticks (S (ticks r)) (set_draws (S (draws r)) r))) as Hs.
  rewrite E in Hs. cbn in Hs. subst s.
  unfold _save_rollback_point, _save_commit, _update_branch_head, time_time.
  unfold_state. cbn.
  destruct (branches_dir r !! current_branch r) as [b|] eqn:Eb; cbn;
    (eexists; split; [reflexivity|]; cbn; repeat split; try reflexivity;
     rewrite lookup_insert_eq; reflexivity).
Qed.

Lemma rollback_missing r target reason :
  commits_dir r !! target = None → rollback_to_commit target reason r = (false, r).
Proof.
  intros Hc. unfold rollback_to_commit, _load_commit. unfold_state. by rewrite Hc.
Qed.

(** C1. Rollback law. For a chain [c0 -> c1 -> c2] whose tip is the
    head of the current branch, and a generated commit id that is not
    yet in use, [rollback_to_commit(c0.commit_id, reason)] returns [True]
    and stores a new commit [rc], the new head of the object and of the
    current branch, with [rc.pattern_snapshot = c0.pattern_snapshot] and
    [rc.parent_id] the head before the call; every commit stored before
    the call, [c0], [c1] and [c2] among them, is still stored unchanged
    under its id; and [get_commit_history(1)] then returns exactly [rc]. *)
Theorem rollback_law r c0 c1 c2 reason :
  let new_id := entropy r (S (draws r)) in
  commits_dir r !! commit_id c0 = Some c0 →
  commits_dir r !! commit_id c1 = Some c1 →
  commits_dir r !! commit_id c2 = Some c2 →
  parent_id c1 = Some (commit_id c0) →
  parent_id c2 = Some (commit_id c1) →
  head_commit r = Some (commit_id c2) →
  commits_dir r !! new_id = None →
  new_id ≠ "" →
  ∃ r' rc,
    rollback_to_commit (commit_id c0) reason r = (true, r') ∧
    commit_id rc = new_id ∧
    commits_dir r' !! new_id = Some rc ∧
    head_commit r' = Some new_id ∧
    branch_head_commit <$> (branches_dir r' !! current_branch r') = Some (Some new_id) ∧
    pattern_snapshot rc = pattern_snapshot c0 ∧
    parent_id rc = Some (commit_id c2) ∧
    (∀ id c, commits_dir r !! id = Some c → commits_dir r' !! id = Some c) ∧
    commits_dir r' !! commit_id c0 = Some c0 ∧
    commits_dir r' !! commit_id c1 = Some c1 ∧
    commits_dir r' !! commit_id c2 = Some c2 ∧
    (get_commit_history 1 r').1 = [rc].
Proof.
  intros new_id H0 H1 H2 _ _ Hhead Hfresh Hne.
  destruct (rollback_found r (commit_id c0) reason c0 H0)
    as (r' & Hrun & Hcommits & Hh & Hcur & Hbranch).
  fold new_id in Hcommits, Hh, Hbranch.
  assert (Hold : ∀ id c, commits_dir r !! id = Some c → commits_dir r' !! id = Some c).
  { intros id c Hid. rewrite Hcommits. rewrite lookup_insert_ne; [done|].
    intros ->. congruence. }
  exists r', (rollback_commit_for r (commit_id c0) reason c0).
  split_and!; try done; auto.
  - rewrite Hcommits. apply lookup_insert_eq.
  - assert (Ht : Py.truthy new_id = true) by (by destruct new_id).
    unfold get_commit_history. unfold_state.
    rewrite Hh. change (Z.to_nat 1) with 1%nat.
    cbn [fst walk_history Py.truthy_opt default]. rewrite Ht.
    by rewrite Hcommits, lookup_insert_eq.
Qed.

End Ledger.

Section LedgerRuns.
Import VersionControl Examples.

Example chain_commits : chain = [commit2; commit1; commit0].
Proof. vm_compute. reflexivity. Qed.

(** The rollback law at the chain [commit0 -> commit1 -> commit2]. *)
Lemma rollback_law_witness :
  ∃ r' rc,
    rollback_to_commit (commit_id commit0) "latency regression" ledger2 = (true, r') ∧
    commit_id rc = "e2b4417c" ∧
    pattern_snapshot rc = pattern_snapshot commit0 ∧
    parent_id rc = Some (commit_id commit2) ∧
    commits_dir r' !! commit_id commit0 = Some commit0 ∧
    commits_dir r' !! commit_id commit1 = Some commit1 ∧
    commits_dir r' !! commit_id commit2 = Some commit2 ∧
    (get_commit_history 1 r').1 = [rc].
Proof.
  assert (S0 : commits_dir ledger2 !! commit_id commit0 = Some commit0)
    by (vm_compute; reflexivity).
  assert (S1 : commits_dir ledger2 !! commit_id commit1 = Some commit1)
    by (vm_compute; reflexivity).
  assert (S2 : commits_dir ledger2 !! commit_id commit2 = Some commit2)
    by (vm_compute; reflexivity).
  assert (P1 : parent_id commit1 = Some (commit_id commit0)) by reflexivity.
  assert (P2 : parent_id commit2 = Some (commit_id commit1)) by reflexivity.
  assert (Hd : head_commit ledger2 = Some (commit_id commit2))
    by (vm_compute; reflexivity).
  assert (Fr : commits_dir ledger2 !! entropy ledger2 (S (draws ledger2)) = None)
    by (vm_compute; reflexivity).
  assert (Ne : entropy ledger2 (S (draws ledger2)) ≠ "")
    by (vm_compute; discriminate).
  pose proof (rollback_law ledger2 commit0 commit1 commit2 "latency regression"
                S0 S1 S2 P1 P2 Hd Fr Ne) as L.
  destruct L as (r' & rc & Hrun & Hid & _ & _ & _ & Hsnap & Hparent & _ & H0 & H1 & H2 & Hhist).
  assert (Id : entropy ledger2 (S (draws ledger2)) = "e2b4417c")
    by (vm_compute; reflexivity).
  exists r', rc. rewrite Id in Hid. split_and!; assumption.
Defined.

Example history_after_rollback :
  commit_id <$> (get_commit_history 50
                   (rollback_to_commit "4be1c07a" "latency regression" ledger2).2).1
  = ["e2b4417c"; "c57e08b1"; "90d3f2a6"; "4be1c07a"].
Proof. vm_compute. reflexivity. Qed.

Example rollback_unknown_target :
  rollback_to_commit "deadbeef" "manual rollback" ledger2 = (false, ledger2).
Proof. apply rollback_missing. vm_compute. reflexivity. Qed.
End LedgerRuns.

(** ** The validator *)

Section ValidatorPipeline.
Import Validator.
Context `{Stages}.

Lemma comprehensive_run (pattern source : string) :
  run (validate_pattern_comprehensive pattern source) =
    if passed (validate_syntax pattern source)
    then ([("syntax", validate_syntax pattern source);
           ("performance", validate_performance pattern source);
           ("false_positive", validate_false_positives pattern source);
           ("community", validate_community_score pattern source)],
          [CallSyntax; CallPerformance; CallFalsePositive; CallCommunity])
    else ([("syntax", validate_syntax pattern source)], [CallSyntax]).
Proof.
  unfold run, validate_pattern_comprehensive, call. unfold_state.
  destruct (passed (validate_syntax pattern source)); reflexivity.
Qed.

(** C3, as the code has it. The stage methods are called in the order
    syntax, performance, false-positive, community. Only a failing syntax
    stage cuts the run short: the run then calls the syntax stage alone
    and returns the map with the one entry. When the syntax stage passes,
    the three later stages are all called, in that order, and all four
    results are in the returned map, whatever their [passed] flags. *)
Theorem stages_in_order_syntax_gates (pattern source : string) :
  let outcome := run (validate_pattern_comprehensive pattern source) in
  outcome.2 `prefix_of` [CallSyntax; CallPerformance; CallFalsePositive; CallCommunity] ∧
  dict_get "syntax" outcome.1 = Some (validate_syntax pattern source) ∧
  (passed (validate_syntax pattern source) = false →
   outcome.2 = [CallSyntax] ∧ dict_keys outcome.1 = ["syntax"]) ∧
  (passed (validate_syntax pattern source) = true →
   outcome.2 = [CallSyntax; CallPerformance; CallFalsePositive; CallCommunity] ∧
   dict_keys outcome.1 = ["syntax"; "performance"; "false_positive"; "community"] ∧
   dict_get "performance" outcome.1 = Some (validate_performance pattern source) ∧
   dict_get "false_positive" outcome.1 = Some (validate_false_positives pattern source) ∧
   dict_get "community" outcome.1 = Some (validate_community_score pattern source)).
Proof.
  intros outcome. subst outcome. rewrite comprehensive_run.
  destruct (passed (validate_syntax pattern source)); cbn [fst snd]; split_and!;
    try done.
  by exists [CallPerformance; CallFalsePositive; CallCommunity].
Qed.

Lemma comprehensive_syntax_failed (pattern source : string) :
  passed (validate_syntax pattern source) = false →
  run (validate_pattern_comprehensive pattern source)
  = ([("syntax", validate_syntax pattern source)], [CallSyntax]).
Proof.
  intros Hs. by rewrite comprehensive_run, Hs.
Qed.

(** C4. When the syntax stage fails, the returned map holds the
    ['syntax'] entry alone: the keys of the three later stages are absent
    from it, and none of their methods has been called. *)
Theorem syntax_failure_leaves_later_stages_absent (pattern source : string) :
  passed (validate_syntax pattern source) = false →
  let results := (run (validate_pattern_comprehensive pattern source)).1 in
  results = [("syntax", validate_syntax pattern source)] ∧
  dict_keys results = ["syntax"] ∧
  dict_get "performance" results = None ∧
  dict_get "false_positive" results = None ∧
  dict_get "community" results = None ∧
  (run (validate_pattern_comprehensive pattern source)).2 = [CallSyntax].
Proof.
  intros Hs results. subst results.
  rewrite (comprehensive_syntax_failed _ _ Hs). done.
Qed.
End ValidatorPipeline.

Section ValidatorRuns.
Import Validator Examples.

(** C3, as stated, fails: the false-positive stage of [gmail.com] does
    not pass, and the community stage is still called and its result is
    in the map. *)
Lemma later_stage_runs_after_failed_stage :
  let outcome := run (validate_pattern_comprehensive "gmail.com" "easyprivacy") in
  passed <$> dict_get "false_positive" outcome.1 = Some false ∧
  is_Some (dict_get "community" outcome.1) ∧
  outcome.2 = [CallSyntax; CallPerformance; CallFalsePositive; CallCommunity].
Proof. vm_compute. split_and!; eauto. Qed.

(** The pattern [.*.*.*] fails its syntax stage and has no other result. *)
Lemma syntax_failure_witness :
  let results := (run (validate_pattern_comprehensive ".*.*.*" "test_bad_performance")).1 in
  results = [("syntax", validate_syntax ".*.*.*" "test_bad_performance")] ∧
  dict_keys results = ["syntax"] ∧
  dict_get "performance" results = None ∧
  dict_get "false_positive" results = None ∧
  dict_get "community" results = None ∧
  (run (validate_pattern_comprehensive ".*.*.*" "test_bad_performance")).2 = [CallSyntax].
Proof.
  apply (syntax_failure_leaves_later_stages_absent ".*.*.*" "test_bad_performance").
  reflexivity.
Defined.
End ValidatorRuns.

(** ** The validation gate *)

Section Gate.
Import Validator Orchestrator.

Implicit Types (vr : ValidationResults) (rs : list ValidationResult).









Section Routing.
Context `{Stages}.




End Routing.
End Gate.

Section GateRuns.
Import Validator Orchestrator Examples.

End GateRuns.

(** ** The change monitor *)

Section ChangeDetection.
Import Validator Monitor.
Context `{Py.SetOrder}.
Variable sha256_hexdigest : string → string.

Implicit Types (t : Task) (ev : ChangeEvent).

Lemma list_of_set_length (s : gset string) : length (Py.list_of_set s) = size s.
Proof. by rewrite (Py.list_of_set_perm s). Qed.

Lemma list_of_set_empty : Py.list_of_set ∅ = [].
Proof.
  apply Permutation_nil_r. by rewrite (Py.list_of_set_perm ∅), elements_empty.
Qed.

Lemma list_of_set_singleton (x : string) : Py.list_of_set {[ x ]} = [x].
Proof.
  apply Permutation_singleton_r.
  by rewrite (Py.list_of_set_perm {[ x ]}), elements_singleton.
Qed.

Lemma detect_changes_run t old_content new_content :
  _detect_changes sha256_hexdigest old_content new_content t =
    if differs old_content new_content
    then (Some (detected sha256_hexdigest t old_content new_content), set_ticks (S (ticks t)) t)
    else (None, t).
Proof.
  unfold _detect_changes, differs.
  destruct (bool_decide (old_content = Some new_content)); [reflexivity|].
  fold (old_lines_of old_content). fold (new_lines_of new_content).
  fold (added_between old_content new_content).
  fold (removed_between old_content new_content).
  cbn [orb].
  destruct (bool_decide (added_between old_content new_content = ∅)
            && bool_decide (removed_between old_content new_content = ∅));
    reflexivity.
Qed.

Lemma detect_changes_some t old_content new_content ev t' :
  _detect_changes sha256_hexdigest old_content new_content t = (Some ev, t') →
  ev = detected sha256_hexdigest t old_content new_content ∧ t' = set_ticks (S (ticks t)) t.
Proof.
  rewrite detect_changes_run.
  destruct (differs _ _); intros [= <- <-]; done.
Qed.

Lemma check_for_commits_frame t api_data :
  let t1 := (_check_for_commits api_data t).2 in
  cache_dir t1 = cache_dir t ∧ change_queue t1 = change_queue t ∧
  name (source t1) = name (source t).
Proof.
  unfold _check_for_commits. destruct api_data as [[|latest_sha shas]|]; try done.
  unfold_state. by destruct (_ && _).
Qed.

Lemma monitor_source_fetched t api_data content etag last_modified :
  let t' := (_monitor_source sha256_hexdigest api_data
               (Status200 content etag last_modified) t).2 in
  let old_content := cache_dir t !! cache_file (source t) in
  if Py.truthy content && differs old_content content
  then ∃ ev, change_queue t' = (change_queue t ++ [ev])%list ∧
             cache_dir t' = <[cache_file (source t) := content]> (cache_dir t) ∧
             source_name ev = name (source t) ∧
             changes ev = change_summary old_content content
  else change_queue t' = change_queue t ∧ cache_dir t' = cache_dir t.
Proof.
  intros t' old_content. subst t' old_content.
  unfold _monitor_source. unfold_state.
  pose proof (check_for_commits_frame t api_data) as (Hc & Hq & Hn).
  destruct (_check_for_commits api_data t) as [new_sha t1]. cbn [snd] in Hc, Hq, Hn.
  unfold _fetch_with_etag, time_time. unfold_state.
  cbn [andb Py.truthy_opt default]. unfold cache_file. rewrite Hn, Hc.
  destruct (Py.truthy content); cbn [andb]; [|done].
  rewrite detect_changes_run.
  destruct (differs _ _); cbn; [|done].
  eexists; split_and!.
  - rewrite Hq. reflexivity.
  - by rewrite Hc.
  - exact Hn.
  - reflexivity.
Qed.

Lemma monitor_source_not_fetched t api_data response :
  (∀ content etag last_modified, response ≠ Status200 content etag last_modified) →
  let t' := (_monitor_source sha256_hexdigest api_data response t).2 in
  change_queue t' = change_queue t ∧ cache_dir t' = cache_dir t.
Proof.
  intros Hr t'. subst t'. unfold _monitor_source. unfold_state.
  pose proof (check_for_commits_frame t api_data) as (Hc & Hq & Hn).
  destruct (_check_for_commits api_data t) as [new_sha t1]. cbn [snd] in Hc, Hq, Hn.
  destruct response as [content e lm| | |]; try done. by destruct (Hr content e lm).
Qed.

Lemma summary_added_lines old_content new_content :
  dict_get "added_lines" (change_summary old_content new_content)
  = Some (Lines (take 10 (Py.list_of_set (added_between old_content new_content)))).
Proof. reflexivity. Qed.

Lemma summary_removed_lines old_content new_content :
  dict_get "removed_lines" (change_summary old_content new_content)
  = Some (Lines (take 10 (Py.list_of_set (removed_between old_content new_content)))).
Proof. reflexivity. Qed.

Lemma summary_added_patterns old_content new_content :
  dict_get "added_patterns" (change_summary old_content new_content)
  = Some (Count (size (added_between old_content new_content))).
Proof. reflexivity. Qed.

Lemma summary_removed_patterns old_content new_content :
  dict_get "removed_patterns" (change_summary old_content new_content)
  = Some (Count (size (removed_between old_content new_content))).
Proof. reflexivity. Qed.

(** C6. Scenario A: with [a\nb] cached for the source, a poll that
    fetches [a\nb\nc] puts exactly one event on the queue, whose added
    lines are [c] alone and whose removed lines are none. *)
Theorem scenario_a_one_event t api_data etag last_modified :
  cache_dir t !! cache_file (source t) = Some a_b →
  let t' := (_monitor_source sha256_hexdigest api_data
               (Status200 a_b_c etag last_modified) t).2 in
  ∃ ev, change_queue t' = (change_queue t ++ [ev])%list ∧
        source_name ev = name (source t) ∧
        dict_get "added_lines" (changes ev) = Some (Lines ["c"]) ∧
        dict_get "removed_lines" (changes ev) = Some (Lines []).
Proof.
  intros Hcache t'. subst t'.
  pose proof (monitor_source_fetched t api_data a_b_c etag last_modified) as Hrun.
  cbv zeta in Hrun. rewrite Hcache in Hrun.
  assert (Hd : Py.truthy a_b_c && differs (Some a_b) a_b_c = true)
    by (vm_compute; reflexivity).
  rewrite Hd in Hrun. destruct Hrun as (ev & Hq & _ & Hn & Hch).
  assert (Ha : added_between (Some a_b) a_b_c = {[ "c" ]})
    by (vm_compute; reflexivity).
  assert (Hr : removed_between (Some a_b) a_b_c = ∅)
    by (vm_compute; reflexivity).
  exists ev. split_and!; [done|done| |].
  - by rewrite Hch, summary_added_lines, Ha, list_of_set_singleton.
  - by rewrite Hch, summary_removed_lines, Hr, list_of_set_empty.
Qed.

Lemma extract_patterns_length (source_name : string) (lines : list string)
    (acc : list (string * string)) :
  (length (foldl (λ patterns line,
                   if Py.truthy (Py.strip line)
                      && negb (Py.startswith line "!") && negb (Py.startswith line "#")
                   then (patterns ++ [(Py.strip line, source_name)])%list
                   else patterns)
                acc lines)
  ≤ length acc + length lines)%nat.
Proof.
  revert acc. induction lines as [|line lines IH]; intros acc; cbn [foldl length]; [lia|].
  etrans; [apply IH|]. destruct (_ && _); rewrite ?length_app; cbn; lia.
Qed.

(** C10. An event built by [_detect_changes] keeps the first ten lines
    of the added set and of the removed set, in iteration order, while
    [added_patterns] and [removed_patterns] are the sizes of the whole
    sets; [_extract_patterns_from_change] therefore yields at most ten
    candidate patterns for it. *)
Theorem change_event_samples_ten_lines t old_content new_content ev t' :
  _detect_changes sha256_hexdigest old_content new_content t = (Some ev, t') →
  let added := added_between old_content new_content in
  let removed := removed_between old_content new_content in
  ∃ added_lines removed_lines patterns,
    dict_get "added_lines" (changes ev) = Some (Lines added_lines) ∧
    dict_get "removed_lines" (changes ev) = Some (Lines removed_lines) ∧
    added_lines = take 10 (Py.list_of_set added) ∧
    removed_lines = take 10 (Py.list_of_set removed) ∧
    (length added_lines ≤ 10)%nat ∧
    (length removed_lines ≤ 10)%nat ∧
    dict_get "added_patterns" (changes ev) = Some (Count (size added)) ∧
    dict_get "removed_patterns" (changes ev) = Some (Count (size removed)) ∧
    length (Py.list_of_set added) = size added ∧
    length (Py.list_of_set removed) = size removed ∧
    Orchestrator._extract_patterns_from_change ev = Some patterns ∧
    (length patterns ≤ length added_lines)%nat ∧
    (length patterns ≤ 10)%nat.
Proof.
  intros Hd added removed. apply detect_changes_some in Hd as [-> _].
  assert (Hlen : ∀ s : gset string, (length (take 10 (Py.list_of_set s)) ≤ 10)%nat).
  { intros s. rewrite length_take. lia. }
  eexists _, _, _. split_and!.
  - apply summary_added_lines.
  - apply summary_removed_lines.
  - reflexivity.
  - reflexivity.
  - apply Hlen.
  - apply Hlen.
  - apply summary_added_patterns.
  - apply summary_removed_patterns.
  - apply list_of_set_length.
  - apply list_of_set_length.
  - unfold Orchestrator._extract_patterns_from_change.
    cbn [changes detected]. rewrite summary_added_lines. reflexivity.
  - rewrite length_take. etrans; [apply Nat.le_min_r|].
    etrans; [apply extract_patterns_length|]. cbn [length]. fold added. lia.
  - rewrite length_take. etrans; [apply Nat.le_min_r|].
    etrans; [apply extract_patterns_length|]. cbn [length]. fold added.
    specialize (Hlen added). lia.
Qed.
End ChangeDetection.

Section MonitorRuns.
Import Validator Monitor Examples.

Example scenario_a_event :
  _detect_changes example_sha256 (Some a_b) a_b_c monitor_X
  = (Some event_c, set_ticks 1 monitor_X).
Proof. vm_compute. reflexivity. Qed.

(** Scenario A on source X with the 200 answer and no commits-API data. *)
Lemma scenario_a_witness :
  ∃ ev, change_queue (_monitor_source example_sha256 None
                        (Status200 a_b_c None None) monitor_X).2
        = (change_queue monitor_X ++ [ev])%list ∧
        source_name ev = name (source monitor_X) ∧
        dict_get "added_lines" (changes ev) = Some (Lines ["c"]) ∧
        dict_get "removed_lines" (changes ev) = Some (Lines []).
Proof.
  assert (Hc : cache_dir monitor_X !! cache_file (source monitor_X) = Some a_b)
    by (vm_compute; reflexivity).
  exact (scenario_a_one_event example_sha256 monitor_X None None None Hc).
Defined.

(** The event of scenario A keeps its one added line, counted once. *)
Lemma samples_ten_lines_witness :
  ∃ added_lines patterns,
    dict_get "added_lines" (changes event_c) = Some (Lines added_lines) ∧
    (length added_lines ≤ 10)%nat ∧
    dict_get "added_patterns" (changes event_c)
    = Some (Count (size (added_between (Some a_b) a_b_c))) ∧
    Orchestrator._extract_patterns_from_change event_c = Some patterns ∧
    (length patterns ≤ 10)%nat.
Proof.
  assert (Hd : _detect_changes example_sha256 (Some a_b) a_b_c monitor_X
               = (Some event_c, set_ticks 1 monitor_X))
    by (vm_compute; reflexivity).
  destruct (change_event_samples_ten_lines example_sha256 monitor_X (Some a_b) a_b_c
              event_c (set_ticks 1 monitor_X) Hd)
    as (added_lines & removed_lines & patterns & Ha & _ & _ & _ & Hla & _ & Hc & _ & _ & _
        & Hx & _ & Hlp).
  exists added_lines, patterns. split_and!; assumption.
Defined.
End MonitorRuns.

(** ** The cache baseline *)

Section CacheBaseline.
Import Validator Monitor Orchestrator.
Context `{Py.SetOrder} `{Stages}.
Variable sha256_hexdigest : string → string.

Lemma change_processor_keeps_cache (o : Orchestrator) :
  cache_dir (github_monitor (_change_processor o).2) = cache_dir (github_monitor o).
Proof.
  unfold _change_processor, on_monitor, get_pending_changes. unfold_state.
  cbn [fst snd]. generalize (change_queue (github_monitor o)). intros changes.
  assert (Hfold : ∀ o0 : Orchestrator,
    github_monitor
      (foldl (λ o change,
                if emergency_stop (config o0) then o
                else if validation_enabled (config o0)
                     then set_validation_queue (validation_queue o ++ [change])%list o
                     else set_update_queue (update_queue o ++ [(change, None)])%list o)
             o0 changes) = github_monitor o0).
  { intros o0. generalize (config o0). intros c. revert o0.
    induction changes as [|change changes IH]; intros o0; [done|].
    cbn [foldl]. rewrite IH.
    by destruct (emergency_stop c), (validation_enabled c). }
  cbn [snd]. cbn [config set_github_monitor] in *.
  specialize (Hfold (set_github_monitor (Monitor.set_change_queue [] (github_monitor o)) o)).
  cbn [config set_github_monitor] in Hfold. by rewrite Hfold.
Qed.

Lemma validation_processor_keeps_monitor (o : Orchestrator) :
  github_monitor (_validation_processor o).2 = github_monitor o.
Proof.
  unfold _validation_processor. unfold_state.
  destruct (validation_queue o) as [|change queue]; [done|].
  destruct (_extract_patterns_from_change change) as [[|p ps]|]; try done.
  destruct (_validation_passed _); [done|].
  unfold _handle_validation_failure, Orchestrator.time_time. unfold_state.
  by destruct (_summarize_validation_results _).
Qed.

(** C7, as the code has it. When [_monitor_source] detects a change it
    writes the fetched content to the source's cache file at once and
    then puts the event on the change queue: when it returns, the cache
    already holds the new content and the event is still waiting on the
    queue. Otherwise it leaves cache and queue as they were. The workers
    that take the event further never write the cache. *)
Theorem cache_written_at_detection (t : Task) api_data response (o : Orchestrator) :
  let t' := (_monitor_source sha256_hexdigest api_data response t).2 in
  ((∃ ev content etag last_modified,
      response = Status200 content etag last_modified ∧
      change_queue t' = (change_queue t ++ [ev])%list ∧
      cache_dir t' = <[cache_file (source t) := content]> (cache_dir t) ∧
      cache_dir t' !! cache_file (source t) = Some content)
   ∨ (change_queue t' = change_queue t ∧ cache_dir t' = cache_dir t)) ∧
  cache_dir (github_monitor (_change_processor o).2) = cache_dir (github_monitor o) ∧
  cache_dir (github_monitor (_validation_processor o).2) = cache_dir (github_monitor o).
Proof.
  intros t'. subst t'. split_and!.
  - destruct response as [content etag last_modified| | |].
    + pose proof (monitor_source_fetched sha256_hexdigest t api_data content etag
                    last_modified) as Hrun.
      cbv zeta in Hrun. destruct (_ && _).
      * destruct Hrun as (ev & Hq & Hc & _). left.
        exists ev, content, etag, last_modified. split_and!; try done.
        rewrite Hc. apply lookup_insert_eq.
      * by right.
    + right. by apply monitor_source_not_fetched.
    + right. by apply monitor_source_not_fetched.
    + right. by apply monitor_source_not_fetched.
  - apply change_processor_keeps_cache.
  - by rewrite validation_processor_keeps_monitor.
Qed.
End CacheBaseline.

Section CacheBaselineRuns.
Import Validator Monitor Orchestrator Examples.

(** C7, as stated, fails: after the poll of scenario A the cache of
    source X holds the new content while the event is still on the
    change queue; validation then rejects the event (its one pattern
    fails the community stage), logs the failure and forwards nothing,
    and the cache keeps the new content. *)
Lemma baseline_replaced_before_acceptance :
  let polled :=
    (on_monitor (_monitor_source example_sha256 None (Status200 a_b_c None None))
       orchestrator_X).2 in
  let rejected := (_validation_processor (_change_processor polled).2).2 in
  cache_dir (github_monitor orchestrator_X) !! "X_github_cache.txt" = Some a_b ∧
  cache_dir (github_monitor polled) !! "X_github_cache.txt" = Some a_b_c ∧
  changes <$> change_queue (github_monitor polled) = [changes event_c] ∧
  update_queue polled = [] ∧
  update_queue rejected = [] ∧
  length (validation_failures rejected) = 1%nat ∧
  cache_dir (github_monitor rejected) !! "X_github_cache.txt" = Some a_b_c.
Proof. vm_compute. split_and!; reflexivity. Qed.
End CacheBaselineRuns.

(** ** The domain index *)

Section DomainLookup.
Import Engine.

Lemma split1_found (s sep : string) :
  Py.contains s sep = true → ∃ before after, Py.split1 s sep = [before; after].
Proof.
  unfold Py.contains, Py.split1. destruct (Py.find s sep); [eauto|done].
Qed.

Lemma getitem_after (s sep : string) :
  Py.contains s sep = true → ∃ part, getitem (Py.split1 s sep) 1 = Ok part.
Proof. intros Hc. destruct (split1_found s sep Hc) as (b & a & ->). by exists a. Qed.

Lemma getitem_before (s sep : string) : ∃ part, getitem (Py.split1 s sep) 0 = Ok part.
Proof. unfold Py.split1. destruct (Py.find s sep); cbn; eauto. Qed.

Lemma strip_scheme_and_path_ok (s : string) :
  ∃ d, (d1 ← (if Py.contains s "://" then getitem (Py.split1 s "://") 1 else mret s);
        if Py.contains d1 "/" then getitem (Py.split1 d1 "/") 0 else mret d1) = Ok d.
Proof.
  destruct (Py.contains s "://") eqn:Hs.
  - destruct (getitem_after s "://" Hs) as (d1 & ->). cbn.
    destruct (Py.contains d1 "/"); [apply getitem_before|by exists d1].
  - cbn. destruct (Py.contains s "/"); [apply getitem_before|by exists s].
Qed.

(** No subscript of [_extract_base_domain] is out of range. *)
Lemma extract_base_domain_ok (domain : string) :
  ∃ base_domain, _extract_base_domain domain = Ok base_domain.
Proof.
  unfold _extract_base_domain.
  destruct (strip_scheme_and_path_ok
              (if Py.startswith (Py.strip (Py.lower domain)) "www."
               then Py.slice_from 4 (Py.strip (Py.lower domain))
               else Py.strip (Py.lower domain))) as (d & Hd).
  exists d. rewrite <- Hd. unfold mbind, result_bind, mret, result_ret.
  destruct (if Py.contains _ "://" then _ else _); [|done].
  by destruct (if Py.contains _ "/" then _ else _).
Qed.

(** Nor is one of [_extract_domain_from_url]: its handler is never
    entered. *)
Lemma extract_domain_try_ok (url : string) :
  ∃ part, extract_domain_try url = Ok (Py.lower part).
Proof.
  unfold extract_domain_try.
  destruct (strip_scheme_and_path_ok url) as (d & Hd). exists d.
  unfold mbind, result_bind, mret, result_ret in *.
  destruct (if Py.contains url "://" then _ else _); [|done].
  by destruct (if Py.contains _ "/" then _ else _); simplify_eq.
Qed.

(** C9. For every URL string, [fast_domain_lookup] returns without
    raising, either [None] or an entry of the domain index, and leaves
    the index as it was; a URL whose extracted domain is empty yields
    [None]. *)
Theorem fast_domain_lookup_never_raises (url : string) (e : Engine) :
  ∃ answer e',
    fast_domain_lookup url e = (Ok answer, e') ∧
    domain_index e' = domain_index e ∧
    (∀ info, answer = Some info →
             ∃ base_domain, domain_index e !! base_domain = Some info) ∧
    (_extract_domain_from_url url = "" → answer = None).
Proof.
  unfold fast_domain_lookup. unfold_state.
  destruct (_extract_domain_from_url url) as [|c domain] eqn:Hd; cbn [Py.truthy negb].
  - eexists _, _. split_and!; [reflexivity|done|done|done].
  - destruct (extract_base_domain_ok (String c domain)) as (base_domain & ->).
    cbn [domain_index set_stats].
    destruct (domain_index e !! base_domain) as [info|] eqn:Hi.
    + eexists _, _. split_and!; [reflexivity|done| |done].
      intros ? [= <-]. eauto.
    + eexists _, _. split_and!; [reflexivity|done|done|done].
Qed.
End DomainLookup.

Section DomainLookupRuns.
Import Engine Examples.

Example malformed_urls :
  (λ url, (fast_domain_lookup url new_engine).1)
    <$> [""; "no scheme or path"; "http://"; "/only/a/path"; "://"; "https:///x"]
  = [Ok None; Ok None; Ok None; Ok None; Ok None; Ok None].
Proof. vm_compute. reflexivity. Qed.

Example extracted_domains :
  _extract_domain_from_url
    <$> [""; "http://"; "/only/a/path"; "HTTPS://Track.Example.com/a/b?c=d"; "example.com"]
  = [""; ""; ""; "track.example.com"; "example.com"].
Proof. vm_compute. reflexivity. Qed.
End DomainLookupRuns.

(** ** Building the index *)

Section IndexBuild.
Import Engine.

Implicit Types (e : Engine) (i : ThreatInfo).

Lemma entry_extends_refl i : entry_extends i i.
Proof. by unfold entry_extends. Qed.

Lemma entry_extends_trans i1 i2 i3 :
  entry_extends i1 i2 → entry_extends i2 i3 → entry_extends i1 i3.
Proof.
  intros (? & ? & ? & ?) (? & ? & ? & ?). unfold entry_extends.
  split_and!; try congruence. by etrans.
Qed.

Lemma index_grows_refl e : index_grows e e.
Proof. intros d i Hi. exists i. split; [done|apply entry_extends_refl]. Qed.

Lemma index_grows_trans e1 e2 e3 : index_grows e1 e2 → index_grows e2 e3 → index_grows e1 e3.
Proof.
  intros H12 H23 d i1 Hi1. destruct (H12 d i1 Hi1) as (i2 & Hi2 & Hx).
  destruct (H23 d i2 Hi2) as (i3 & Hi3 & Hy). exists i3. split; [done|].
  by eapply entry_extends_trans.
Qed.


(** One turn of the MailTracker loop adds a pattern to one entry,
    creating the entry when the domain is new. *)
Lemma index_mailtracker_item_grows item e e' :
  index_mailtracker_item item e = Ok e' → index_grows e e'.
Proof.
  unfold index_mailtracker_item.
  destruct (Py.truthy _ && Py.truthy _); [|intros [= <-]; apply index_grows_refl].
  destruct (extract_base_domain_ok (default "" (item_domain item))) as (b & ->).
  unfold mbind, result_bind, mret, result_ret. intros [= <-].
  intros d i1 Hi1. cbn [domain_index set_stats set_domain_index].
  destruct (domain_index e !! b) as [info|] eqn:Hb; cbn [domain_index set_domain_index].
  - destruct (decide (d = b)) as [->|Hne].
    + rewrite lookup_alter_eq, Hb. cbn. eexists. split; [reflexivity|].
      assert (i1 = info) as -> by congruence.
      unfold entry_extends. cbn. split_and!; try done. by apply prefix_app_r.
    + rewrite lookup_alter_ne by done. exists i1. split; [done|apply entry_extends_refl].
  - assert (d ≠ b) by (intros ->; congruence).
    rewrite lookup_alter_ne, lookup_insert_ne by done.
    exists i1. split; [done|apply entry_extends_refl].
Qed.

Lemma add_url_patterns_index (base_domain : string) (url_patterns : list string) e :
  domain_index
    (foldl (λ e url_pattern,
              if (5 <? String.length url_pattern)%nat then
                set_url_pattern_index
                  (<[base_domain := (default [] (url_pattern_index e !! base_domain)
                                     ++ [url_pattern])%list]> (url_pattern_index e)) e
              else e)
           e url_patterns)
  = domain_index e.
Proof.
  revert e. induction url_patterns as [|p ps IH]; intros e; [done|].
  cbn [foldl]. rewrite IH. by destruct (5 <? String.length p)%nat.
Qed.

(** One turn of the GitHub loop adds at most an entry for a new domain. *)
Lemma index_github_domain_grows url_patterns domain e e' :
  index_github_domain url_patterns domain e = Ok e' → index_grows e e'.
Proof.
  unfold index_github_domain.
  destruct ((3 <? String.length domain)%nat && Py.contains domain ".");
    [|intros [= <-]; apply index_grows_refl].
  destruct (extract_base_domain_ok domain) as (b & ->).
  unfold mbind, result_bind, mret, result_ret. intros [= <-].
  intros d i1 Hi1. rewrite add_url_patterns_index.
  destruct (domain_index e !! b) as [info|] eqn:Hb; cbn [domain_index set_domain_index].
  - exists i1. split; [done|apply entry_extends_refl].
  - assert (d ≠ b) by (intros ->; congruence).
    rewrite lookup_insert_ne by done.
    exists i1. split; [done|apply entry_extends_refl].
Qed.

(** Every state of a loop whose turns grow the index is below the state
    the loop ends in. *)
Lemma states_of_grow {A} (body : A → Engine → Result Engine) (items : list A) :
  (∀ item e e', body item e = Ok e' → index_grows e e') →
  ∀ e s, s ∈ states_of body items e → index_grows s (for_each body items e).
Proof.
  intros Hbody. induction items as [|item items IH]; intros e s Hs; cbn in *.
  - apply list_elem_of_singleton in Hs as ->. apply index_grows_refl.
  - destruct (body item e) as [e1|x] eqn:Hb.
    + apply elem_of_cons in Hs as [->|Hs].
      * eapply index_grows_trans; [by eapply Hbody|].
        apply IH. destruct items; cbn; apply elem_of_cons; by left.
      * by apply IH.
    + apply list_elem_of_singleton in Hs as ->. apply index_grows_refl.
Qed.

Lemma precompile_keeps_index e :
  domain_index (_precompile_common_patterns e) = domain_index e.
Proof. reflexivity. Qed.



Lemma states_of_head {A} (body : A → Engine → Result Engine) (items : list A) e :
  e ∈ states_of body items e.
Proof. destruct items; cbn; apply elem_of_cons; by left. Qed.

End IndexBuild.

Section IndexBuildRuns.
Import Engine Examples.

End IndexBuildRuns.

(** ** The ledger: commits, history, branches *)

Section LedgerOperations.
Import VersionControl.
Context `{Py.SetOrder}.

Implicit Types (r : Repo) (c : PatternCommit) (p : Snapshot).

Lemma get_current_patterns_run r :
  _get_current_patterns r =
    (match head_commit r with
     | Some id => if Py.truthy id
                  then from_option pattern_snapshot ∅ (commits_dir r !! id) else ∅
     | None => ∅
     end, r).
Proof.
  unfold _get_current_patterns, _load_commit. unfold_state.
  destruct (head_commit r) as [id|]; [|done]. by destruct (Py.truthy id).
Qed.

Lemma commit_changes_run r p message author vrs :
  ∃ r', commit_changes p message author vrs r = (entropy r (draws r), r') ∧
        commits_dir r' = <[entropy r (draws r) := committed r p message author vrs]>
                           (commits_dir r) ∧
        head_commit r' = Some (entropy r (draws r)) ∧
        current_branch r' = current_branch r ∧
        branch_head_commit <$> (branches_dir r' !! current_branch r)
        = Some (Some (entropy r (draws r))) ∧
        (∀ b, b ≠ current_branch r → branches_dir r' !! b = branches_dir r !! b) ∧
        rollbacks_dir r' = rollbacks_dir r ∧
        config_file r' = config_file r ∧
        (patterns <$> snapshots_dir r' !! entropy r (draws r)) = Some p ∧
        (snapshot_pattern_count <$> snapshots_dir r' !! entropy r (draws r))
        = Some (count_patterns p).
Proof.
  unfold commit_changes, committed,
    _generate_commit_id, time_time, _save_commit, _update_branch_head,
    _create_snapshot, time_time. unfold_state.
  rewrite !get_current_patterns_run. cbn.
  destruct (branches_dir r !! current_branch r) as [b|] eqn:Eb; cbn;
    (eexists; split; [reflexivity|]; cbn; split_and!; try reflexivity;
     [by rewrite lookup_insert_eq
     |by intros b' Hb'; rewrite lookup_insert_ne
     |by rewrite lookup_insert_eq
     |by rewrite lookup_insert_eq]).
Qed.

(** X1. A commit under a generated id that is new and non-empty: the
    call returns the id; the commit stored under it carries the committed
    snapshot, the previous head as parent and the current branch; the
    object's head and the branch file point to it; every older commit is
    still stored; the snapshot file holds the snapshot and its pattern
    count; and the current patterns are now the committed snapshot. *)
Theorem commit_changes_records r p message author vrs :
  let id := entropy r (draws r) in
  commits_dir r !! id = None →
  id ≠ "" →
  ∃ r' c,
    commit_changes p message author vrs r = (id, r') ∧
    commits_dir r' !! id = Some c ∧
    commit_id c = id ∧
    pattern_snapshot c = p ∧
    parent_id c = head_commit r ∧
    branch c = current_branch r ∧
    head_commit r' = Some id ∧
    branch_head_commit <$> (branches_dir r' !! current_branch r') = Some (Some id) ∧
    (∀ old c', commits_dir r !! old = Some c' → commits_dir r' !! old = Some c') ∧
    (patterns <$> snapshots_dir r' !! id) = Some p ∧
    (snapshot_pattern_count <$> snapshots_dir r' !! id) = Some (count_patterns p) ∧
    (_get_current_patterns r').1 = p ∧
    (_get_total_pattern_count r').1 = count_patterns p.
Proof.
  intros id Hfresh Hne.
  destruct (commit_changes_run r p message author vrs)
    as (r' & Hrun & Hc & Hh & Hb & Hbh & _ & _ & _ & Hs1 & Hs2).
  fold id in Hrun, Hc, Hh, Hbh, Hs1, Hs2.
  assert (Hcur : (_get_current_patterns r').1 = p).
  { rewrite get_current_patterns_run, Hh. cbn [fst].
    assert (Py.truthy id = true) as -> by (by destruct id).
    by rewrite Hc, lookup_insert_eq. }
  exists r', (committed r p message author vrs).
  split_and!; try done.
  - rewrite Hc. apply lookup_insert_eq.
  - by rewrite Hb.
  - intros old c' Hold. rewrite Hc, lookup_insert_ne; [done|]. intros <-. congruence.
  - unfold _get_total_pattern_count. unfold_state.
    destruct (_get_current_patterns r') as [cur r''] eqn:E. cbn in *. by subst cur.
Qed.

(** X2. After a rollback to a stored commit, under a generated id that
    is non-empty, the current patterns are the target's snapshot. *)
Theorem rollback_restores_patterns r target reason c :
  commits_dir r !! target = Some c →
  entropy r (S (draws r)) ≠ "" →
  (_get_current_patterns (rollback_to_commit target reason r).2).1 = pattern_snapshot c ∧
  (_get_total_pattern_count (rollback_to_commit target reason r).2).1
  = count_patterns (pattern_snapshot c).
Proof.
  intros Hc Hne. destruct (rollback_found r target reason c Hc) as (r' & -> & Hs & Hh & _).
  cbn [snd].
  assert (Hcur : (_get_current_patterns r').1 = pattern_snapshot c).
  { rewrite get_current_patterns_run, Hh. cbn [fst].
    assert (Py.truthy (entropy r (S (draws r))) = true) as ->
      by (by destruct (entropy r (S (draws r)))).
    by rewrite Hs, lookup_insert_eq. }
  split; [done|].
  unfold _get_total_pattern_count. unfold_state.
  destruct (_get_current_patterns r') as [cur r''] eqn:E. cbn in *. by subst cur.
Qed.




End LedgerOperations.

Section LedgerInvariant.
Import VersionControl.
Context `{Py.SetOrder}.

Implicit Types (r : Repo) (c : PatternCommit) (p : Snapshot).

Lemma rollback_run r target reason c :
  commits_dir r !! target = Some c →
  ∃ r', rollback_to_commit target reason r = (true, r') ∧
        commits_dir r' = <[entropy r (S (draws r)) := rollback_commit_for r target reason c]>
                           (commits_dir r) ∧
        head_commit r' = Some (entropy r (S (draws r))) ∧
        current_branch r' = current_branch r ∧
        branch_head_commit <$> (branches_dir r' !! current_branch r)
        = Some (Some (entropy r (S (draws r)))) ∧
        (∀ b, b ≠ current_branch r → branches_dir r' !! b = branches_dir r !! b) ∧
        snapshots_dir r' = snapshots_dir r ∧
        (rollback_commit_id <$> rollbacks_dir r' !! entropy r (draws r))
        = Some (head_commit r) ∧
        (rollback_reason <$> rollbacks_dir r' !! entropy r (draws r)) = Some reason.
Proof.
  intros Hc. unfold rollback_to_commit, _load_commit, _generate_commit_id, time_time.
  unfold_state. rewrite Hc. cbn.
  destruct (_get_system_metrics _) as [m s] eqn:E.
  pose proof (get_system_metrics_state (set_ticks (S (ticks r)) (set_draws (S (draws r)) r))) as Hs.
  rewrite E in Hs. cbn in Hs. subst s.
  unfold _save_rollback_point, _save_commit, _update_branch_head, time_time.
  unfold_state. cbn.
  destruct (branches_dir r !! current_branch r) as [b|] eqn:Eb; cbn;
    (eexists; split; [reflexivity|]; cbn; split_and!; try reflexivity;
     [by rewrite lookup_insert_eq
     |by intros b' Hb'; rewrite lookup_insert_ne
     |by rewrite lookup_insert_eq
     |by rewrite lookup_insert_eq]).
Qed.

Lemma init_new_run r :
  config_file r = None →
  ∃ r', init r = (tt, r') ∧
        (∃ c, commits_dir r' = <[entropy r (draws r) := c]> (commits_dir r) ∧
              commit_id c = entropy r (draws r) ∧ parent_id c = None ∧
              pattern_snapshot c = ∅ ∧ changes c = ChangesInitial ∧
              author c = "system" ∧ branch c = "main") ∧
        head_commit r' = Some (entropy r (draws r)) ∧
        current_branch r' = "main" ∧
        branch_head_commit <$> (branches_dir r' !! "main") = Some (Some (entropy r (draws r))) ∧
        (∀ b, b ≠ "main" → branches_dir r' !! b = branches_dir r !! b) ∧
        is_Some (config_file r').
Proof.
  intros Hcfg. unfold init, _init_repository, _create_branch, _create_initial_commit,
    _generate_commit_id, _save_commit, _update_branch_head, _get_head_commit, time_time.
  unfold_state. rewrite Hcfg. cbn.
  rewrite lookup_insert_eq. cbn. rewrite lookup_insert_eq. cbn.
  eexists. split; [reflexivity|]. cbn. split_and!; try reflexivity.
  - eexists. split_and!; reflexivity.
  - by rewrite lookup_insert_eq.
  - intros b Hb. by rewrite !lookup_insert_ne.
  - done.
Qed.

Lemma init_existing_run r config :
  config_file r = Some config →
  init r = (tt, set_head_commit (branches_dir r !! "main" ≫= branch_head_commit)
                  (set_current_branch "main" r)).
Proof.
  intros Hcfg. unfold init, _init_repository, _get_head_commit. unfold_state.
  rewrite Hcfg. cbn. by destruct (branches_dir r !! "main").
Qed.

(** Writing one commit whose parent is stored, and pointing the head
    and a branch at it, keeps a ledger well formed. *)
Lemma well_formed_step r r' id c :
  well_formed r →
  commits_dir r' = <[id := c]> (commits_dir r) →
  commit_id c = id →
  (∀ parent, parent_id c = Some parent → is_Some (commits_dir r !! parent)) →
  head_commit r' = Some id →
  (∀ name data head,
     branches_dir r' !! name = Some data → branch_head_commit data = Some head →
     head = id ∨ ∃ data0, branches_dir r !! name = Some data0
                          ∧ branch_head_commit data0 = Some head) →
  well_formed r'.
Proof.
  intros (Hc & Hh & Hb) Hs Hid Hp Hh' Hb'.
  assert (Hkeep : ∀ k, is_Some (commits_dir r !! k) → is_Some (commits_dir r' !! k)).
  { intros k Hk. rewrite Hs. destruct (decide (id = k)) as [->|Hne].
    - rewrite lookup_insert_eq. eauto.
    - by rewrite lookup_insert_ne. }
  assert (Hnew : is_Some (commits_dir r' !! id)).
  { rewrite Hs, lookup_insert_eq. eauto. }
  split_and!.
  - intros k c0. rewrite Hs. destruct (decide (id = k)) as [->|Hne].
    + rewrite lookup_insert_eq. intros [= <-]. split; [done|].
      intros parent Hparent. rewrite <- Hs. by apply Hkeep, Hp.
    + rewrite lookup_insert_ne by done. intros Hk.
      destruct (Hc k c0 Hk) as [Hk1 Hk2]. split; [done|].
      intros parent Hparent. rewrite <- Hs. by apply Hkeep, Hk2.
  - intros head. rewrite Hh'. by intros [= <-].
  - intros name data head Hn Hd.
    destruct (Hb' name data head Hn Hd) as [->|(data0 & Hn0 & Hd0)]; [done|].
    by eapply Hkeep, Hb.
Qed.

Lemma branch_head_cases r r' current id name data head :
  branch_head_commit <$> (branches_dir r' !! current) = Some (Some id) →
  (∀ b, b ≠ current → branches_dir r' !! b = branches_dir r !! b) →
  branches_dir r' !! name = Some data → branch_head_commit data = Some head →
  head = id ∨ ∃ data0, branches_dir r !! name = Some data0
                       ∧ branch_head_commit data0 = Some head.
Proof.
  intros Hcur Hother Hn Hd. destruct (decide (name = current)) as [->|Hne].
  - rewrite Hn in Hcur. cbn in Hcur. left. congruence.
  - right. exists data. by rewrite <- Hother.
Qed.

Lemma commit_changes_well_formed r p message author vrs :
  well_formed r → well_formed (commit_changes p message author vrs r).2.
Proof.
  intros Hwf. destruct (commit_changes_run r p message author vrs)
    as (r' & -> & Hc & Hh & Hb & Hbh & Hbo & _).
  cbn [snd]. eapply well_formed_step; try done.
  - intros parent Hp. by apply Hwf.
  - intros name data head. by apply branch_head_cases with (current := current_branch r).
Qed.

Lemma rollback_well_formed r target reason :
  well_formed r → well_formed (rollback_to_commit target reason r).2.
Proof.
  intros Hwf. destruct (commits_dir r !! target) as [c|] eqn:Hc.
  - destruct (rollback_run r target reason c Hc) as (r' & -> & Hs & Hh & Hb & Hbh & Hbo & _).
    cbn [snd]. eapply well_formed_step; try done.
    + intros parent Hp. by apply Hwf.
    + intros name data head. by apply branch_head_cases with (current := current_branch r).
  - by rewrite rollback_missing.
Qed.

Lemma init_well_formed r : well_formed r → well_formed (init r).2.
Proof.
  intros Hwf. destruct (config_file r) as [config|] eqn:Hcfg.
  - rewrite (init_existing_run r config Hcfg). cbn [snd].
    destruct Hwf as (Hc & Hh & Hb). split_and!; cbn; [done| |done].
    intros head Hhead. destruct (branches_dir r !! "main") as [data|] eqn:Hm; [|done].
    by eapply Hb.
  - destruct (init_new_run r Hcfg) as (r' & -> & (c & Hs & Hid & Hp & _) & Hh & _ & Hbh & Hbo & _).
    cbn [snd]. eapply well_formed_step; try done.
    + intros parent. by rewrite Hp.
    + intros name data head. by apply branch_head_cases with (current := "main").
Qed.

Lemma create_branch_well_formed r name from :
  well_formed r →
  (∀ id, from = Some id → is_Some (commits_dir r !! id)) →
  well_formed (create_branch name from r).2.
Proof.
  intros (Hc & Hh & Hb) Hfrom. unfold create_branch, _create_branch, time_time.
  unfold_state. destruct (branches_dir r !! name) as [data|] eqn:Hn; [done|].
  cbn. split_and!; cbn; [done|done|].
  intros b data head. destruct (decide (name = b)) as [->|Hne].
  - rewrite lookup_insert_eq. intros [= <-]. cbn.
    destruct from as [id|]; [intros [= <-]; by apply Hfrom|apply Hh].
  - rewrite lookup_insert_ne by done. apply Hb.
Qed.

Lemma switch_branch_well_formed r name :
  well_formed r → well_formed (switch_branch name r).2.
Proof.
  intros (Hc & Hh & Hb). unfold switch_branch, _get_head_commit. unfold_state.
  destruct (branches_dir r !! name) as [data|] eqn:Hn; [|done].
  cbn. rewrite Hn. cbn. split_and!; cbn; [done| |done].
  intros head Hhead. by eapply Hb.
Qed.

Lemma empty_directory_well_formed clock entropy :
  well_formed (empty_directory clock entropy).
Proof. split_and!; cbn; intros *; by rewrite ?lookup_empty. Qed.

(** X4. Well-formedness of the ledger (every commit filed under its own
    id; every parent id, the head and every branch head a stored commit)
    holds of an empty directory and is kept by opening the repository, by
    [commit_changes], by [rollback_to_commit], by [switch_branch], and by
    [create_branch] from the head or from a stored commit. *)
Theorem ledger_stays_well_formed :
  (∀ clock entropy, well_formed (empty_directory clock entropy)) ∧
  (∀ r, well_formed r → well_formed (init r).2) ∧
  (∀ r p message author vrs,
     well_formed r → well_formed (commit_changes p message author vrs r).2) ∧
  (∀ r target reason, well_formed r → well_formed (rollback_to_commit target reason r).2) ∧
  (∀ r name, well_formed r → well_formed (switch_branch name r).2) ∧
  (∀ r name from,
     well_formed r → (∀ id, from = Some id → is_Some (commits_dir r !! id)) →
     well_formed (create_branch name from r).2).
Proof.
  split_and!.
  - apply empty_directory_well_formed.
  - apply init_well_formed.
  - apply commit_changes_well_formed.
  - apply rollback_well_formed.
  - apply switch_branch_well_formed.
  - apply create_branch_well_formed.
Qed.

(** In a well-formed store, a walk from a stored commit never meets an
    id that is not stored, so storing a commit under such an id leaves
    the walk as it was. *)
Lemma walk_history_insert_new (n : nat) current (commits : gmap string PatternCommit)
    new c :
  (∀ id c0, commits !! id = Some c0 →
            ∀ parent, parent_id c0 = Some parent → is_Some (commits !! parent)) →
  commits !! new = None →
  (∀ id, current = Some id → is_Some (commits !! id)) →
  walk_history n current (<[new := c]> commits) = walk_history n current commits.
Proof.
  intros Hclosed Hnew. revert current.
  induction n as [|n IH]; intros current Hcur; cbn; [done|].
  destruct current as [id|]; cbn; [|done].
  destruct (Py.truthy id); [|done].
  destruct (Hcur id eq_refl) as [c0 Hc0].
  assert (new ≠ id) by (intros ->; congruence).
  rewrite lookup_insert_ne, Hc0 by done. f_equal. apply IH.
  intros parent Hp. by eapply Hclosed.
Qed.

(** X5. In a well-formed ledger, a commit under a new, non-empty id
    puts itself in front of the history: [get_commit_history(limit + 1)]
    afterwards is the new commit followed by [get_commit_history(limit)]
    as it was before. *)
Theorem history_grows_by_commit r p message author vrs (limit : Z) :
  well_formed r →
  commits_dir r !! entropy r (draws r) = None →
  entropy r (draws r) ≠ "" →
  (0 ≤ limit)%Z →
  (get_commit_history (limit + 1) (commit_changes p message author vrs r).2).1
  = committed r p message author vrs :: (get_commit_history limit r).1.
Proof.
  intros (Hc & Hh & _) Hfresh Hne Hl.
  destruct (commit_changes_run r p message author vrs) as (r' & -> & Hs & Hh' & _).
  unfold get_commit_history. unfold_state. cbn [fst snd]. rewrite Hh', Hs.
  replace (Z.to_nat (limit + 1)) with (S (Z.to_nat limit)) by lia.
  cbn [walk_history Py.truthy_opt default].
  assert (Py.truthy (entropy r (draws r)) = true) as ->
    by (by destruct (entropy r (draws r))).
  rewrite lookup_insert_eq. f_equal.
  apply walk_history_insert_new; [|done|done].
  intros id c0 Hid. apply (Hc id c0 Hid).
Qed.

(** X6. In a well-formed ledger, a rollback to a stored commit under a
    new, non-empty id puts the rollback commit in front of the history
    and drops nothing from it. *)
Theorem history_grows_by_rollback r target reason c (limit : Z) :
  well_formed r →
  commits_dir r !! target = Some c →
  commits_dir r !! entropy r (S (draws r)) = None →
  entropy r (S (draws r)) ≠ "" →
  (0 ≤ limit)%Z →
  (get_commit_history (limit + 1) (rollback_to_commit target reason r).2).1
  = rollback_commit_for r target reason c :: (get_commit_history limit r).1.
Proof.
  intros (Hc & Hh & _) Ht Hfresh Hne Hl.
  destruct (rollback_run r target reason c Ht) as (r' & -> & Hs & Hh' & _).
  unfold get_commit_history. unfold_state. cbn [fst snd]. rewrite Hh', Hs.
  replace (Z.to_nat (limit + 1)) with (S (Z.to_nat limit)) by lia.
  cbn [walk_history Py.truthy_opt default].
  assert (Py.truthy (entropy r (S (draws r))) = true) as ->
    by (by destruct (entropy r (S (draws r)))).
  rewrite lookup_insert_eq. f_equal.
  apply walk_history_insert_new; [|done|done].
  intros id c0 Hid. apply (Hc id c0 Hid).
Qed.
End LedgerInvariant.

(** ** Opening a repository, branches, diffs *)

Section LedgerBranches.
Import VersionControl.
Context `{Py.SetOrder}.

Implicit Types (r : Repo) (c : PatternCommit) (p : Snapshot).

(** X7. Opening a repository. On a directory without [config.json] the
    constructor writes the configuration, the branch [main] and an initial
    commit with an empty snapshot and no parent, which (its id being
    non-empty) is the whole history. On a directory that has the
    configuration it writes nothing: it selects [main] and takes the head
    from that branch's file. *)
Theorem opening_a_repository :
  (∀ r, config_file r = None → entropy r (draws r) ≠ "" →
        ∃ c, (get_commit_history 50 (init r).2).1 = [c] ∧
             commit_id c = entropy r (draws r) ∧
             parent_id c = None ∧
             pattern_snapshot c = ∅ ∧
             (_get_current_patterns (init r).2).1 = ∅ ∧
             current_branch (init r).2 = "main" ∧
             head_commit (init r).2 = Some (entropy r (draws r)) ∧
             is_Some (config_file (init r).2)) ∧
  (∀ r config, config_file r = Some config →
               commits_dir (init r).2 = commits_dir r ∧
               branches_dir (init r).2 = branches_dir r ∧
               config_file (init r).2 = Some config ∧
               current_branch (init r).2 = "main" ∧
               head_commit (init r).2 = branches_dir r !! "main" ≫= branch_head_commit).
Proof.
  split.
  - intros r Hcfg Hne.
    destruct (init_new_run r Hcfg)
      as (r' & -> & (c & Hs & Hid & Hp & Hsnap & _) & Hh & Hb & _ & _ & Hc).
    cbn [snd].
    assert (Ht : Py.truthy (entropy r (draws r)) = true)
      by (by destruct (entropy r (draws r))).
    exists c. split_and!; try done.
    + unfold get_commit_history. unfold_state. cbn [fst snd]. rewrite Hh, Hs.
      change (Z.to_nat 50) with 50%nat.
      cbn [walk_history Py.truthy_opt default]. rewrite Ht, lookup_insert_eq, Hp. done.
    + rewrite get_current_patterns_run, Hh, Ht, Hs, lookup_insert_eq. by cbn.
  - intros r config Hcfg. rewrite (init_existing_run r config Hcfg). done.
Qed.

(** A refused branch operation changes nothing: [create_branch]
    returns [False] for a name that has a branch file, and
    [switch_branch] returns [False] for a name that has none. *)
Lemma branch_refusals_change_nothing r name from :
  (is_Some (branches_dir r !! name) → create_branch name from r = (false, r)) ∧
  (branches_dir r !! name = None → switch_branch name r = (false, r)).
Proof.
  split.
  - intros [data Hd]. unfold create_branch. unfold_state. by rewrite Hd.
  - intros Hn. unfold switch_branch. unfold_state. by rewrite Hn.
Qed.

(** X8. Branches are separate pointers. Creating a branch from the
    head does not switch to it and stores no commit; after switching, a
    commit has the old head as its parent and is filed on the new branch,
    and the file of every other branch is as it was. *)
Theorem branch_commit_leaves_other_branches r name p message author vrs :
  branches_dir r !! name = None →
  let r1 := (create_branch name None r).2 in
  let r2 := (switch_branch name r1).2 in
  let r3 := (commit_changes p message author vrs r2).2 in
  (create_branch name None r).1 = true ∧
  (switch_branch name r1).1 = true ∧
  current_branch r1 = current_branch r ∧
  head_commit r1 = head_commit r ∧
  commits_dir r1 = commits_dir r ∧
  current_branch r2 = name ∧
  head_commit r2 = head_commit r ∧
  (∃ c, commits_dir r3 !! entropy r (draws r) = Some c ∧
        parent_id c = head_commit r ∧ branch c = name) ∧
  branch_head_commit <$> (branches_dir r3 !! name) = Some (Some (entropy r (draws r))) ∧
  (∀ b, b ≠ name → branches_dir r3 !! b = branches_dir r !! b).
Proof.
  intros Hn r1 r2 r3.
  assert (H1 : create_branch name None r
               = (true, set_branches_dir
                          (<[name := {| branch_name := name; created := clock r (ticks r);
                                        branch_head_commit := head_commit r;
                                        parent_branch := if String.eqb name "main"
                                                         then None else Some "main";
                                        last_updated := None |}]> (branches_dir r))
                          (set_ticks (S (ticks r)) r))).
  { unfold create_branch, _create_branch, time_time. unfold_state. by rewrite Hn. }
  assert (H2 : switch_branch name r1
               = (true, set_head_commit (head_commit r) (set_current_branch name r1))).
  { subst r1. rewrite H1. cbn [snd].
    unfold switch_branch, _get_head_commit. unfold_state. cbn.
    rewrite lookup_insert_eq. cbn. by rewrite lookup_insert_eq. }
  destruct (commit_changes_run r2 p message author vrs)
    as (r3' & Hrun & Hc & Hh & Hb & Hbh & Hbo & _).
  assert (r3 = r3') as -> by (subst r3; by rewrite Hrun).
  subst r2. rewrite H2 in *. cbn [snd fst] in *.
  subst r1. rewrite H1 in *. cbn [snd fst] in *. cbn in Hc, Hh, Hb, Hbh, Hbo.
  split_and!; try done.
  - eexists. rewrite Hc, lookup_insert_eq. split; [reflexivity|]. by cbn.
  - intros b Hne. rewrite Hbo by done. by rewrite lookup_insert_ne.
Qed.

Lemma elem_of_list_of_set (s : gset string) (x : string) : x ∈ Py.list_of_set s ↔ x ∈ s.
Proof. by rewrite (Py.list_of_set_perm s), elem_of_elements. Qed.

(** The added and removed lists of [diff_sources] are the gains of each
    source, in iteration order, one way and the other. *)
Lemma diff_sources_lists (from_patterns to_patterns : Snapshot) :
  (diff_sources from_patterns to_patterns).1.1
  = Py.list_of_set (dom from_patterns ∪ dom to_patterns)
      ≫= (λ source, Py.list_of_set (gained from_patterns to_patterns source)) ∧
  (diff_sources from_patterns to_patterns).1.2
  = Py.list_of_set (dom from_patterns ∪ dom to_patterns)
      ≫= (λ source, Py.list_of_set (gained to_patterns from_patterns source)).
Proof.
  unfold diff_sources.
  generalize (Py.list_of_set (dom from_patterns ∪ dom to_patterns)). intros sources.
  change (list_to_set (default [] (to_patterns !! ?s))
          ∖ list_to_set (default [] (from_patterns !! ?s)))
    with (gained from_patterns to_patterns s).
  enough (Hgen : ∀ (a rm : list string) (sc : dict SourceDiff),
    let out :=
      foldl (λ '(added_patterns, removed_patterns, source_changes) source,
               let from_set : gset string :=
                 list_to_set (default [] (from_patterns !! source)) in
               let to_set : gset string :=
                 list_to_set (default [] (to_patterns !! source)) in
               let added := to_set ∖ from_set in
               let removed := from_set ∖ to_set in
               if bool_decide (added = ∅) && bool_decide (removed = ∅)
               then (added_patterns, removed_patterns, source_changes)
               else ((added_patterns ++ Py.list_of_set added)%list,
                     (removed_patterns ++ Py.list_of_set removed)%list,
                     Validator.dict_set source
                       {| diff_added := Py.list_of_set added;
                          diff_removed := Py.list_of_set removed |} source_changes))
            (a, rm, sc) sources in
    out.1.1 = (a ++ (sources ≫=
                 λ source, Py.list_of_set (gained from_patterns to_patterns source)))%list ∧
    out.1.2 = (rm ++ (sources ≫=
                 λ source, Py.list_of_set (gained to_patterns from_patterns source)))%list).
  { apply (Hgen [] [] []). }
  induction sources as [|source sources IH]; intros a rm sc.
  - cbn. by rewrite !app_nil_r.
  - cbn [foldl]. fold (gained from_patterns to_patterns source).
    fold (gained to_patterns from_patterns source).
    destruct (bool_decide (gained from_patterns to_patterns source = ∅)) eqn:E1;
      destruct (bool_decide (gained to_patterns from_patterns source = ∅)) eqn:E2;
      cbn [andb]; cbv zeta in IH |- *; rewrite ?bind_cons;
      try (destruct (IH (a ++ Py.list_of_set (gained from_patterns to_patterns source))%list
                      (rm ++ Py.list_of_set (gained to_patterns from_patterns source))%list
                      (Validator.dict_set source
                         {| diff_added :=
                              Py.list_of_set (gained from_patterns to_patterns source);
                            diff_removed :=
                              Py.list_of_set (gained to_patterns from_patterns source) |} sc))
             as [-> ->]; by rewrite <- !app_assoc).
    apply bool_decide_eq_true in E1, E2. rewrite E1, E2, list_of_set_empty.
    destruct (IH a rm sc) as [-> ->]. done.
Qed.

Lemma generate_diff_run r a b :
  generate_diff a b r =
    (match commits_dir r !! a, commits_dir r !! b with
     | Some ca, Some cb =>
         Some {| from_commit := a; to_commit := b;
                 added_patterns :=
                   (diff_sources (pattern_snapshot ca) (pattern_snapshot cb)).1.1;
                 removed_patterns :=
                   (diff_sources (pattern_snapshot ca) (pattern_snapshot cb)).1.2;
                 modified_patterns := [];
                 source_changes :=
                   (diff_sources (pattern_snapshot ca) (pattern_snapshot cb)).2 |}
     | _, _ => None
     end, r).
Proof.
  unfold generate_diff, _load_commit. unfold_state.
  destruct (commits_dir r !! a) as [ca|]; destruct (commits_dir r !! b) as [cb|]; try done.
  by destruct (diff_sources (pattern_snapshot ca) (pattern_snapshot cb)) as [[? ?] ?].
Qed.

Lemma elem_of_gained (from_patterns to_patterns : Snapshot) source pattern :
  pattern ∈ gained from_patterns to_patterns source ↔
  pattern ∈ default [] (to_patterns !! source)
  ∧ pattern ∉ default [] (from_patterns !! source).
Proof. unfold gained. by rewrite elem_of_difference, !elem_of_list_to_set. Qed.

Lemma elem_of_gains (from_patterns to_patterns : Snapshot) pattern :
  pattern ∈ (Py.list_of_set (dom from_patterns ∪ dom to_patterns)
               ≫= λ source, Py.list_of_set (gained from_patterns to_patterns source)) ↔
  ∃ source, pattern ∈ default [] (to_patterns !! source)
            ∧ pattern ∉ default [] (from_patterns !! source).
Proof.
  rewrite list_elem_of_bind. split.
  - intros (source & Hp & _). apply elem_of_list_of_set, elem_of_gained in Hp. eauto.
  - intros (source & Hin & Hout). exists source. split.
    + apply elem_of_list_of_set, elem_of_gained. done.
    + apply elem_of_list_of_set, elem_of_union. right. apply elem_of_dom.
      destruct (to_patterns !! source); [done|]. cbn in Hin. by apply elem_of_nil in Hin.
Qed.

(** X9. [generate_diff] reads only. It raises [ValueError] exactly
    when one of the two ids has no stored commit. Otherwise a pattern is
    reported as added exactly when some source lists it in the second
    commit and not in the first, and as removed exactly when some source
    lists it in the first and not in the second; the diff of a commit
    with itself is empty. *)
Theorem generate_diff_reports_gains_and_losses r a b :
  (generate_diff a b r).2 = r ∧
  ((generate_diff a b r).1 = None ↔ commits_dir r !! a = None ∨ commits_dir r !! b = None) ∧
  (∀ ca cb d,
     commits_dir r !! a = Some ca → commits_dir r !! b = Some cb →
     (generate_diff a b r).1 = Some d →
     (∀ pattern, pattern ∈ added_patterns d ↔
                 ∃ source, pattern ∈ default [] (pattern_snapshot cb !! source)
                           ∧ pattern ∉ default [] (pattern_snapshot ca !! source)) ∧
     (∀ pattern, pattern ∈ removed_patterns d ↔
                 ∃ source, pattern ∈ default [] (pattern_snapshot ca !! source)
                           ∧ pattern ∉ default [] (pattern_snapshot cb !! source)) ∧
     (a = b → added_patterns d = [] ∧ removed_patterns d = [])).
Proof.
  rewrite generate_diff_run. cbn [fst snd]. split_and!; [done| |].
  - destruct (commits_dir r !! a), (commits_dir r !! b); split; intros; try done;
      try (by left); try (by right); by destruct_or!.
  - intros ca cb d Ha Hb. rewrite Ha, Hb. intros [= <-].
    cbn [added_patterns removed_patterns].
    destruct (diff_sources_lists (pattern_snapshot ca) (pattern_snapshot cb)) as [-> ->].
    split_and!.
    + intros pattern. apply elem_of_gains.
    + intros pattern.
      replace (dom (pattern_snapshot ca) ∪ dom (pattern_snapshot cb))
        with (dom (pattern_snapshot cb) ∪ dom (pattern_snapshot ca))
        by apply (comm_L (∪)).
      apply elem_of_gains.
    + intros ->. assert (ca = cb) as -> by congruence.
      split; apply elem_of_nil_inv; intros pattern Hp;
        apply elem_of_gains in Hp as (source & Hin & Hout); done.
Qed.


(** The counters of [_calculate_changes] advance with the lists of
    [diff_sources]. *)
Lemma calculate_changes_counts (old_patterns new_patterns : Snapshot) :
  ∃ u, _calculate_changes old_patterns new_patterns = ChangesUpdate u ∧
       patterns_added u = length (diff_sources old_patterns new_patterns).1.1 ∧
       patterns_removed u = length (diff_sources old_patterns new_patterns).1.2 ∧
       patterns_modified u = 0%nat.
Proof.
  unfold _calculate_changes, diff_sources. eexists. split; [reflexivity|].
  generalize (Py.list_of_set (dom old_patterns ∪ dom new_patterns)). intros sources.
  enough (Hgen : ∀ (u : UpdateSummary) (a rm : list string) (sc : dict SourceDiff),
    patterns_added u = length a → patterns_removed u = length rm →
    patterns_modified u = 0%nat →
    let u' :=
      foldl (λ changes source,
               let old_set : gset string :=
                 list_to_set (default [] (old_patterns !! source)) in
               let new_set : gset string :=
                 list_to_set (default [] (new_patterns !! source)) in
               let added := new_set ∖ old_set in
               let removed := old_set ∖ new_set in
               if bool_decide (added = ∅) && bool_decide (removed = ∅) then changes
               else
                 {| patterns_added := patterns_added changes + size added;
                    patterns_removed := patterns_removed changes + size removed;
                    patterns_modified := patterns_modified changes;
                    sources_modified := (sources_modified changes ++ [source])%list;
                    change_details :=
                      Validator.dict_set source
                        {| added := Py.list_of_set added;
                           removed := Py.list_of_set removed;
                           added_count := size added;
                           removed_count := size removed |}
                        (change_details changes) |})
            u sources in
    let out :=
      foldl (λ '(added_patterns, removed_patterns, source_changes) source,
               let from_set : gset string :=
                 list_to_set (default [] (old_patterns !! source)) in
               let to_set : gset string :=
                 list_to_set (default [] (new_patterns !! source)) in
               let added := to_set ∖ from_set in
               let removed := from_set ∖ to_set in
               if bool_decide (added = ∅) && bool_decide (removed = ∅)
               then (added_patterns, removed_patterns, source_changes)
               else ((added_patterns ++ Py.list_of_set added)%list,
                     (removed_patterns ++ Py.list_of_set removed)%list,
                     Validator.dict_set source
                       {| diff_added := Py.list_of_set added;
                          diff_removed := Py.list_of_set removed |} source_changes))
            (a, rm, sc) sources in
    patterns_added u' = length out.1.1 ∧ patterns_removed u' = length out.1.2
    ∧ patterns_modified u' = 0%nat).
  { by apply (Hgen empty_summary [] [] []). }
  induction sources as [|source sources IH]; intros u a rm sc Ha Hr Hm; [done|].
  cbn [foldl]. cbv zeta in IH |- *.
  destruct (bool_decide _ && bool_decide _); [by apply IH|].
  apply IH; cbn; rewrite ?length_app, ?list_of_set_length; congruence.
Qed.

(** X11. The counts a commit records agree with the diff: the
    [patterns_added] and [patterns_removed] of the commit that
    [commit_changes] writes are the lengths of the added and removed lists
    that [generate_diff] then reports from a stored commit holding the
    previous patterns to the new commit. *)
Theorem commit_counts_agree_with_diff r p message author vrs previous c_previous :
  commits_dir r !! previous = Some c_previous →
  pattern_snapshot c_previous = (_get_current_patterns r).1 →
  entropy r (draws r) ≠ previous →
  ∃ d u,
    (generate_diff previous (entropy r (draws r))
       (commit_changes p message author vrs r).2).1 = Some d ∧
    changes (committed r p message author vrs) = ChangesUpdate u ∧
    patterns_added u = length (added_patterns d) ∧
    patterns_removed u = length (removed_patterns d).
Proof.
  intros Hprev Hsnap Hne.
  destruct (commit_changes_run r p message author vrs) as (r' & -> & Hs & _).
  cbn [snd]. rewrite generate_diff_run, Hs, lookup_insert_eq, lookup_insert_ne, Hprev by done.
  cbn [fst].
  destruct (calculate_changes_counts (_get_current_patterns r).1 p) as (u & Hu & Ha & Hr & _).
  eexists _, u. split; [reflexivity|].
  cbn [added_patterns removed_patterns pattern_snapshot committed changes].
  rewrite Hsnap. done.
Qed.
End LedgerBranches.

Section AuditTrail.
Import VersionControl.

Implicit Types (r : Repo) (c : PatternCommit).




End AuditTrail.

(** ** Batches and the workers' queues *)

Section Dictionaries.
Import Validator.
Context {V : Type}.

Implicit Types (d : dict V) (k : string) (v : V).






End Dictionaries.

Section Batches.
Import Validator.
Context `{Stages}.








End Batches.

Section Workers.
Import Validator Monitor Orchestrator.

Implicit Types (o : Orchestrator) (change : ChangeEvent).

(** The test of [_extract_patterns_from_change] on a line. *)
Lemma extract_fold (source : string) (lines : list string) (acc : list (string * string)) :
  foldl (λ patterns line,
           if Py.truthy (Py.strip line)
              && negb (Py.startswith line "!") && negb (Py.startswith line "#")
           then (patterns ++ [(Py.strip line, source)])%list
           else patterns)
        acc lines
  = (acc ++ omap (λ line,
                    if Py.truthy (Py.strip line)
                       && negb (Py.startswith line "!") && negb (Py.startswith line "#")
                    then Some (Py.strip line, source) else None) lines)%list.
Proof.
  revert acc. induction lines as [|line lines IH]; intros acc; cbn [foldl omap list_omap].
  - by rewrite app_nil_r.
  - rewrite IH. destruct (_ && _); [|done]. by rewrite <- app_assoc.
Qed.

Lemma omap_length_le {A B} (f : A → option B) (l : list A) :
  (length (omap f l) ≤ length l)%nat.
Proof. induction l as [|x l IH]; cbn; [lia|]. destruct (f x); cbn; lia. Qed.

Lemma elem_of_take_list {A} (x : A) (n : nat) (l : list A) : x ∈ take n l → x ∈ l.
Proof. intros (i & Hi & _)%elem_of_take. by eapply list_elem_of_lookup_2. Qed.

Lemma truthy_nonempty (s : string) : Py.truthy s = true ↔ s ≠ "".
Proof. destruct s; cbn; split; congruence. Qed.

(** X14. What [_extract_patterns_from_change] hands to validation: at
    most 20 candidates, each the stripped text of a sampled added line
    that is not blank and does not begin, before stripping, with [!] or
    [#], paired with the event's source; and when the sample has at most
    20 lines, every such line is a candidate. *)
Theorem extracted_patterns_are_kept_lines change patterns :
  _extract_patterns_from_change change = Some patterns →
  (length patterns ≤ 20)%nat ∧
  (∀ pattern source, (pattern, source) ∈ patterns →
     source = source_name change ∧ pattern ≠ "" ∧
     ∃ lines line, dict_get "added_lines" (changes change) = Some (Lines lines) ∧
                   line ∈ lines ∧ pattern = Py.strip line ∧
                   Py.startswith line "!" = false ∧ Py.startswith line "#" = false) ∧
  (∀ lines line, dict_get "added_lines" (changes change) = Some (Lines lines) →
                 (length lines ≤ 20)%nat →
                 line ∈ lines → Py.strip line ≠ "" →
                 Py.startswith line "!" = false → Py.startswith line "#" = false →
                 (Py.strip line, source_name change) ∈ patterns).
Proof.
  unfold _extract_patterns_from_change.
  destruct (dict_get "added_lines" (changes change)) as [[n|lines]|] eqn:Hget; [done| |].
  - intros [= <-]. rewrite extract_fold, app_nil_l. split_and!.
    + rewrite length_take. lia.
    + intros pattern source Hin%elem_of_take_list.
      apply list_elem_of_omap in Hin as (line & Hline & Hkeep).
      destruct (Py.truthy (Py.strip line)) eqn:Ht; [|done].
      destruct (Py.startswith line "!") eqn:Hb; [done|].
      destruct (Py.startswith line "#") eqn:Hh; [done|].
      cbn in Hkeep. injection Hkeep as <- <-. split_and!; [done|by apply truthy_nonempty|].
      by exists lines, line.
    + intros lines' line [= <-] Hlen Hline Hne Hb Hh.
      rewrite take_ge.
      * apply list_elem_of_omap. exists line. split; [done|].
        apply truthy_nonempty in Hne. by rewrite Hne, Hb, Hh.
      * etrans; [|exact Hlen]. apply omap_length_le.
  - intros [= <-]. split_and!; [cbn; lia|by intros ?? ?%elem_of_nil|done].
Qed.

(** The loop of [_change_processor] over the pending changes. *)
Lemma route_changes (c : AutoUpdateConfig) (pending : list ChangeEvent) o :
  let o' := foldl (λ o change,
                     if emergency_stop c then o
                     else if validation_enabled c
                          then set_validation_queue (validation_queue o ++ [change])%list o
                          else set_update_queue (update_queue o ++ [(change, None)])%list o)
                  o pending in
  config o' = config o ∧ github_monitor o' = github_monitor o ∧
  validation_failures o' = validation_failures o ∧
  validation_queue o' =
    (if emergency_stop c then validation_queue o
     else if validation_enabled c then (validation_queue o ++ pending)%list
          else validation_queue o) ∧
  update_queue o' =
    (if emergency_stop c then update_queue o
     else if validation_enabled c then update_queue o
          else (update_queue o ++ ((λ change, (change, None)) <$> pending))%list).
Proof.
  revert o. induction pending as [|change pending IH]; intros o; cbn zeta.
  - cbn [foldl fmap list_fmap]. rewrite !app_nil_r.
    by destruct (emergency_stop c), (validation_enabled c).
  - cbn [foldl]. cbn zeta in IH.
    destruct (emergency_stop c) eqn:Es; [apply IH|].
    destruct (validation_enabled c) eqn:Ev.
    + destruct (IH (set_validation_queue (validation_queue o ++ [change])%list o))
        as (-> & -> & -> & -> & ->). cbn. by rewrite <- app_assoc.
    + destruct (IH (set_update_queue (update_queue o ++ [(change, None)])%list o))
        as (-> & -> & -> & -> & ->). cbn. by rewrite <- app_assoc.
Qed.

(** X15. A turn of [_change_processor] empties the monitor's queue. It
    appends the events, in the monitor's order, to the validation queue
    when validation is enabled, and otherwise to the update queue with no
    validation results; while the emergency stop is set it appends them
    nowhere: they are taken off the monitor's queue and dropped. *)
Theorem change_processor_routes_in_order o :
  let pending := change_queue (github_monitor o) in
  let o' := (_change_processor o).2 in
  change_queue (github_monitor o') = [] ∧
  cache_dir (github_monitor o') = cache_dir (github_monitor o) ∧
  config o' = config o ∧
  validation_failures o' = validation_failures o ∧
  (emergency_stop (config o) = true →
   validation_queue o' = validation_queue o ∧ update_queue o' = update_queue o) ∧
  (emergency_stop (config o) = false → validation_enabled (config o) = true →
   validation_queue o' = (validation_queue o ++ pending)%list ∧
   update_queue o' = update_queue o) ∧
  (emergency_stop (config o) = false → validation_enabled (config o) = false →
   validation_queue o' = validation_queue o ∧
   update_queue o' = (update_queue o ++ ((λ change, (change, None)) <$> pending))%list).
Proof.
  intros pending o'. subst pending o'.
  unfold _change_processor, on_monitor, get_pending_changes. unfold_state.
  cbn [fst snd config set_github_monitor].
  destruct (route_changes (config o) (change_queue (github_monitor o))
              (set_github_monitor (set_change_queue [] (github_monitor o)) o))
    as (Hc & Hm & Hf & Hv & Hu).
  rewrite Hc, Hm, Hf, Hv, Hu. cbn.
  split_and!; try done.
  - by intros ->.
  - by intros -> ->.
  - by intros -> ->.
Qed.

Section Accounting.
Context `{Stages}.



End Accounting.
End Workers.

(** ** Polling a source *)

Section Polling.
Import Validator Monitor.
Context `{Py.SetOrder}.
Variable sha256_hexdigest : string → string.

Implicit Types (t : Task).

Lemma old_lines_of_cached (old : string) :
  old_lines_of (Some old) = list_to_set (Py.splitlines old).
Proof. unfold old_lines_of. by destruct old. Qed.

Lemma differs_false_iff (old_content : option string) (new_content : string) :
  differs old_content new_content = false ↔
  old_content = Some new_content ∨ new_lines_of new_content = old_lines_of old_content.
Proof.
  unfold differs, added_between, removed_between.
  rewrite negb_false_iff, orb_true_iff, andb_true_iff, !bool_decide_eq_true.
  split; (intros [Heq|Hsets]; [by left|right]).
  - destruct Hsets as [Ha Hr]. apply set_eq. intros x. split; intros Hx.
    + destruct (decide (x ∈ old_lines_of old_content)) as [|Hn]; [done|].
      assert (Hadded : x ∈ new_lines_of new_content ∖ old_lines_of old_content)
        by (by apply elem_of_difference).
      rewrite Ha in Hadded. by apply elem_of_empty in Hadded.
    + destruct (decide (x ∈ new_lines_of new_content)) as [|Hn]; [done|].
      assert (Hremoved : x ∈ old_lines_of old_content ∖ new_lines_of new_content)
        by (by apply elem_of_difference).
      rewrite Hr in Hremoved. by apply elem_of_empty in Hremoved.
  - rewrite Hsets. split; apply set_eq; intros x;
      rewrite elem_of_difference, elem_of_empty; tauto.
Qed.

Lemma monitor_source_name t api_data response :
  name (source (_monitor_source sha256_hexdigest api_data response t).2) = name (source t).
Proof.
  unfold _monitor_source. unfold_state.
  pose proof (check_for_commits_frame t api_data) as (_ & _ & Hn).
  destruct (_check_for_commits api_data t) as [new_sha t1]. cbn [snd] in Hn.
  destruct response as [content e lm| | |]; try done.
  unfold _fetch_with_etag, time_time. unfold_state. cbn [andb Py.truthy_opt default].
  destruct (Py.truthy content); cbn [andb]; [|done].
  rewrite detect_changes_run. by destruct (differs _ _).
Qed.

(** X17. A fetched text with the same set of lines as the cached one
    (its lines reordered or repeated, say) is no change: nothing is put
    on the queue and the cache keeps the old text. *)
Theorem same_line_set_is_no_change t api_data content etag last_modified old :
  cache_dir t !! cache_file (source t) = Some old →
  (list_to_set (Py.splitlines content) : gset string) = list_to_set (Py.splitlines old) →
  let t' := (_monitor_source sha256_hexdigest api_data
               (Status200 content etag last_modified) t).2 in
  change_queue t' = change_queue t ∧
  cache_dir t' = cache_dir t ∧
  cache_dir t' !! cache_file (source t') = Some old.
Proof.
  intros Hold Hsets t'.
  pose proof (monitor_source_fetched sha256_hexdigest t api_data content etag last_modified)
    as Hrun.
  pose proof (monitor_source_name t api_data (Status200 content etag last_modified)) as Hn.
  fold t' in Hrun, Hn. cbv zeta in Hrun. rewrite Hold in Hrun.
  assert (Hd : differs (Some old) content = false).
  { apply differs_false_iff. right. by rewrite old_lines_of_cached. }
  rewrite Hd, andb_false_r in Hrun. destruct Hrun as [Hq Hc].
  split_and!; [done|done|]. unfold cache_file in *. by rewrite Hn, Hc.
Qed.

(** X18. A poll answered as the poll before it was, whatever the
    commits API says either time, queues no event and writes no cache:
    the same content is reported at most once. *)
Theorem repeated_answer_queues_nothing t api_data1 api_data2 response :
  let t1 := (_monitor_source sha256_hexdigest api_data1 response t).2 in
  let t2 := (_monitor_source sha256_hexdigest api_data2 response t1).2 in
  change_queue t2 = change_queue t1 ∧ cache_dir t2 = cache_dir t1.
Proof.
  intros t1 t2.
  destruct response as [content etag last_modified| | |];
    try (by apply monitor_source_not_fetched).
  pose proof (monitor_source_fetched sha256_hexdigest t api_data1 content etag last_modified)
    as Hfirst.
  pose proof (monitor_source_fetched sha256_hexdigest t1 api_data2 content etag last_modified)
    as Hsecond.
  pose proof (monitor_source_name t api_data1 (Status200 content etag last_modified)) as Hn.
  fold t1 in Hfirst, Hn. fold t2 in Hsecond. cbv zeta in Hfirst, Hsecond.
  assert (Hfile : cache_file (source t1) = cache_file (source t))
    by (unfold cache_file; by rewrite Hn).
  rewrite Hfile in Hsecond.
  destruct (Py.truthy content); cbn [andb] in *; [|done].
  destruct (differs (cache_dir t !! cache_file (source t)) content) eqn:Hd.
  - destruct Hfirst as (ev & _ & Hc & _).
    assert (Hnow : cache_dir t1 !! cache_file (source t) = Some content)
      by (rewrite Hc; apply lookup_insert_eq).
    rewrite Hnow in Hsecond.
    assert (Hsame : differs (Some content) content = false)
      by (apply differs_false_iff; by left).
    by rewrite Hsame in Hsecond.
  - destruct Hfirst as [_ Hc]. rewrite <- Hc in Hd. by rewrite Hd in Hsecond.
Qed.

(** X19. [_check_for_commits] reports a commit once. For a non-empty
    latest sha the first call stores it, and returns it unless it was
    stored already; a second call with the same latest sha returns
    [None] and changes nothing. *)
Theorem commit_reported_once t (sha : string) (older older' : list string) :
  sha ≠ "" →
  let first := _check_for_commits (Some (sha :: older)) t in
  let second := _check_for_commits (Some (sha :: older')) first.2 in
  last_commit_sha (source first.2) = Some sha ∧
  (first.1 = None ↔ last_commit_sha (source t) = Some sha) ∧
  (first.1 ≠ None → first.1 = Some sha) ∧
  second = (None, first.2).
Proof.
  intros Hne first second. subst first second.
  assert (Ht : Py.truthy sha = true) by (by destruct sha).
  unfold _check_for_commits. unfold_state.
  destruct (bool_decide (last_commit_sha (source t) = Some sha)) eqn:Hk.
  - apply bool_decide_eq_true in Hk. rewrite Hk. cbn [Py.truthy_opt]. rewrite Ht.
    cbn [andb fst snd]. rewrite Hk. cbn [Py.truthy_opt]. rewrite Ht.
    rewrite bool_decide_eq_true_2 by done. done.
  - apply bool_decide_eq_false in Hk. rewrite andb_false_r. cbn [fst snd source set_source
      last_commit_sha with_last_commit_sha Py.truthy_opt]. rewrite Ht.
    rewrite bool_decide_eq_true_2 by done. cbn [andb]. split_and!; done.
Qed.

(** X20. The validators of the conditional request are those of the
    last 200 answer. After a 200 answer the next request carries
    [If-None-Match] and [If-Modified-Since] with the answer's [ETag] and
    [Last-Modified]; a header the answer lacked, or had empty, is not
    sent, whatever was stored before. Any other answer leaves the source
    as it was. *)
Theorem request_validators_follow_last_answer t content etag last_modified :
  let t' := (_fetch_with_etag (Status200 content etag last_modified) t).2 in
  dict_get "If-None-Match" (request_headers (source t'))
  = (if Py.truthy_opt etag then etag else None) ∧
  dict_get "If-Modified-Since" (request_headers (source t'))
  = (if Py.truthy_opt last_modified then last_modified else None) ∧
  dict_get "User-Agent" (request_headers (source t'))
  = Some "Email-Tracker-Pixel-AutoUpdate/2.0" ∧
  last_check (source t') = Some (clock t (ticks t)) ∧
  (∀ response, (∀ c e m, response ≠ Status200 c e m) →
               (_fetch_with_etag response t).2 = t).
Proof.
  intros t'. subst t'. unfold _fetch_with_etag, time_time. unfold_state.
  cbn [snd source set_source set_ticks]. unfold request_headers.
  cbn [Monitor.etag Monitor.last_modified last_check with_headers].
  split_and!.
  - destruct etag as [e|], last_modified as [m|]; cbn [Py.truthy_opt default];
      try destruct (Py.truthy e); try destruct (Py.truthy m); reflexivity.
  - destruct etag as [e|], last_modified as [m|]; cbn [Py.truthy_opt default];
      try destruct (Py.truthy e); try destruct (Py.truthy m); reflexivity.
  - destruct etag as [e|], last_modified as [m|]; cbn [Py.truthy_opt default];
      try destruct (Py.truthy e); try destruct (Py.truthy m); reflexivity.
  - done.
  - intros response Hr. destruct response as [c e m| | |]; try done. by destruct (Hr c e m).
Qed.
End Polling.

(** ** The index and its lookups *)

Section IndexLookups.
Import Engine.

Implicit Types (e : Engine) (info : ThreatInfo) (item : MailTrackerItem).

Lemma lower_char_idem (c : ascii) : Py.lower_char (Py.lower_char c) = Py.lower_char c.
Proof. destruct c as [[] [] [] [] [] [] [] []]; reflexivity. Qed.

Lemma lower_idem (s : string) : Py.lower (Py.lower s) = Py.lower s.
Proof. induction s as [|c s IH]; cbn; [done|]. by rewrite lower_char_idem, IH. Qed.

Lemma lower_truthy (s : string) : Py.truthy (Py.lower s) = Py.truthy s.
Proof. by destruct s. Qed.

Lemma extract_base_domain_lower (domain : string) :
  _extract_base_domain (Py.lower domain) = _extract_base_domain domain.
Proof. unfold _extract_base_domain. by rewrite lower_idem. Qed.

Lemma startswith_nil (s : string) : Py.startswith s "" = true.
Proof. by destruct s. Qed.

Lemma find_slash (domain rest : string) :
  Py.contains domain "/" = false →
  Py.find (domain ++ "/" ++ rest) "/" = Some (String.length domain).
Proof.
  unfold Py.contains. induction domain as [|c domain IH].
  - intros _. change ("" ++ "/" ++ rest) with (String "/" rest).
    cbn. by rewrite startswith_nil.
  - change (String c domain ++ "/" ++ rest) with (String c (domain ++ "/" ++ rest)).
    cbn [Py.find String.length]. cbn [Py.startswith]. rewrite !startswith_nil.
    destruct (Ascii.eqb "/" c); [done|].
    destruct (Py.find domain "/") eqn:Hf; [done|]. intros _. by rewrite IH.
Qed.

Lemma find_https (rest : string) : Py.find ("https://" ++ rest) "://" = Some 5%nat.
Proof.
  change ("https://" ++ rest)
    with (String "h" (String "t" (String "t" (String "p" (String "s"
            (String ":" (String "/" (String "/" rest)))))))).
  cbn. by rewrite startswith_nil.
Qed.

Lemma slice_to_app (domain rest : string) :
  Py.slice_to (String.length domain) (domain ++ rest) = domain.
Proof.
  induction domain as [|c domain IH]; [by destruct rest|].
  change (String c domain ++ rest) with (String c (domain ++ rest)). cbn. by rewrite IH.
Qed.

Lemma slice_from_app (domain rest : string) (n : nat) :
  Py.slice_from (String.length domain + n) (domain ++ rest) = Py.slice_from n rest.
Proof.
  induction domain as [|c domain IH]; [done|].
  change (String c domain ++ rest) with (String c (domain ++ rest)). cbn. by rewrite IH.
Qed.

Lemma split1_slash (domain rest : string) :
  Py.contains domain "/" = false →
  Py.contains (domain ++ "/" ++ rest) "/" = true ∧
  Py.split1 (domain ++ "/" ++ rest) "/" = [domain; rest].
Proof.
  intros Hd. unfold Py.contains, Py.split1. rewrite (find_slash domain rest Hd).
  split; [done|]. by rewrite slice_to_app, slice_from_app.
Qed.

Lemma split1_https (rest : string) :
  Py.contains ("https://" ++ rest) "://" = true ∧
  Py.split1 ("https://" ++ rest) "://" = ["https"; rest].
Proof. unfold Py.contains, Py.split1. by rewrite find_https. Qed.

(** The domain of [https://<domain>/<rest>]. *)
Lemma extract_domain_of_https (domain rest : string) :
  Py.contains domain "/" = false →
  _extract_domain_from_url ("https://" ++ domain ++ "/" ++ rest) = Py.lower domain.
Proof.
  intros Hd. unfold _extract_domain_from_url, extract_domain_try.
  destruct (split1_https (domain ++ "/" ++ rest)) as [-> ->].
  cbn [getitem lookup list_lookup mbind result_bind].
  by destruct (split1_slash domain rest Hd) as [-> ->].
Qed.

(** One turn of the MailTracker loop on an item it indexes. *)
Lemma index_mailtracker_item_run item e :
  indexable item = true →
  ∃ base_domain e',
    _extract_base_domain (default "" (item_domain item)) = Ok base_domain ∧
    index_mailtracker_item item e = Ok e' ∧
    (∃ before,
       domain_index e' !! base_domain
       = Some {| threat_level := from_option threat_level "critical"
                                   (domain_index e !! base_domain);
                 source := from_option source "MailTracker" (domain_index e !! base_domain);
                 patterns :=
                   (before ++
                    [{| pattern := default "" (item_pattern item);
                        regex_pattern := default "" (item_regex_pattern item);
                        pattern_confidence := default "high" (item_confidence item) |}])%list;
                 confidence := from_option confidence "high"
                                 (domain_index e !! base_domain) |}) ∧
    (∀ key, key ≠ base_domain → domain_index e' !! key = domain_index e !! key) ∧
    stats e' = count_domain_indexed (stats e).
Proof.
  intros Hi. unfold index_mailtracker_item. fold (indexable item). rewrite Hi.
  destruct (extract_base_domain_ok (default "" (item_domain item))) as (b & Hb).
  rewrite Hb. unfold mbind, result_bind, mret, result_ret.
  exists b. eexists. split; [done|]. split; [reflexivity|].
  cbn [domain_index set_stats set_domain_index stats].
  destruct (domain_index e !! b) as [info|] eqn:Hl; cbn [domain_index set_domain_index stats].
  - split_and!; [|by intros key Hk; rewrite lookup_alter_ne|done].
    exists (patterns info). by rewrite lookup_alter_eq, Hl.
  - split_and!; [|by intros key Hk; rewrite lookup_alter_ne, lookup_insert_ne|done].
    exists []. by rewrite lookup_alter_eq, lookup_insert_eq.
Qed.

Lemma index_mailtracker_item_skip item e :
  indexable item = false → index_mailtracker_item item e = Ok e.
Proof. intros Hi. unfold index_mailtracker_item. fold (indexable item). by rewrite Hi. Qed.

Lemma index_mailtracker_item_ok item e : ∃ e', index_mailtracker_item item e = Ok e'.
Proof.
  destruct (indexable item) eqn:Hi.
  - destruct (index_mailtracker_item_run item e Hi) as (b & e' & _ & Hrun & _). eauto.
  - exists e. by apply index_mailtracker_item_skip.
Qed.

Lemma index_mailtracker_item_entries item e e' :
  (∀ key info, domain_index e !! key = Some info → mailtracker_entry info) →
  index_mailtracker_item item e = Ok e' →
  ∀ key info, domain_index e' !! key = Some info → mailtracker_entry info.
Proof.
  intros Hall Hrun. destruct (indexable item) eqn:Hi.
  - destruct (index_mailtracker_item_run item e Hi)
      as (b & e1 & _ & Hrun1 & (before & Hnew) & Hold & _).
    rewrite Hrun in Hrun1. injection Hrun1 as <-.
    intros key info Hk. destruct (decide (key = b)) as [->|Hne].
    + rewrite Hnew in Hk. injection Hk as <-. unfold mailtracker_entry. cbn.
      destruct (domain_index e !! b) as [old|] eqn:Hb; cbn.
      * destruct (Hall b old Hb) as (? & ? & ? & _). split_and!; try done.
        by destruct before.
      * split_and!; try done. by destruct before.
    + rewrite Hold in Hk by done. by eapply Hall.
  - rewrite index_mailtracker_item_skip in Hrun by done. injection Hrun as <-. exact Hall.
Qed.

Lemma for_each_invariant {A} (P : Engine → Prop) (body : A → Engine → Result Engine)
    (items : list A) e :
  (∀ a e e', P e → body a e = Ok e' → P e') → P e → P (for_each body items e).
Proof.
  intros Hbody. revert e. induction items as [|a items IH]; intros e He; cbn; [done|].
  destruct (body a e) as [e'|x] eqn:Hb; [|done]. apply IH. by eapply Hbody.
Qed.

Lemma for_each_grows {A} (body : A → Engine → Result Engine) (items : list A) e :
  (∀ a e e', body a e = Ok e' → index_grows e e') →
  index_grows e (for_each body items e).
Proof. intros Hbody. apply states_of_grow; [done|apply states_of_head]. Qed.

(** After the MailTracker loop every item it indexes has its pattern
    under its base domain. *)
Lemma mailtracker_loop_indexes data e item :
  (∀ key info, domain_index e !! key = Some info → mailtracker_entry info) →
  item ∈ data → indexable item = true →
  ∃ base_domain info,
    _extract_base_domain (default "" (item_domain item)) = Ok base_domain ∧
    domain_index (for_each index_mailtracker_item data e) !! base_domain = Some info ∧
    mailtracker_entry info ∧
    default "" (item_pattern item) ∈ pattern <$> patterns info.
Proof.
  revert e. induction data as [|x data IH]; intros e Hall Hin Hi;
    [by apply elem_of_nil in Hin|].
  cbn [for_each]. destruct (index_mailtracker_item_ok x e) as (e1 & Hx). rewrite Hx.
  pose proof (index_mailtracker_item_entries x e e1 Hall Hx) as Hall1.
  apply elem_of_cons in Hin as [->|Hin]; [|by apply IH].
  destruct (index_mailtracker_item_run x e Hi)
    as (b & e2 & Hb & Hrun & (before & Hnew) & _ & _).
  rewrite Hx in Hrun. injection Hrun as <-.
  destruct (for_each_grows index_mailtracker_item data e1 index_mailtracker_item_grows
              b _ Hnew) as (info & Hinfo & _ & _ & _ & Hprefix).
  exists b, info. split_and!; [done|done| |].
  - eapply (for_each_invariant
              (λ e, ∀ key info, domain_index e !! key = Some info → mailtracker_entry info));
      [|exact Hall1|exact Hinfo].
    intros ????. by apply index_mailtracker_item_entries.
  - destruct Hprefix as (more & ->). cbn [patterns]. rewrite !fmap_app.
    apply elem_of_app. left. apply elem_of_app. right. cbn. by apply list_elem_of_singleton.
Qed.

Lemma index_github_domain_entries url_patterns domain e e' :
  (∀ key info, domain_index e !! key = Some info →
               mailtracker_entry info ∨ github_entry info) →
  index_github_domain url_patterns domain e = Ok e' →
  ∀ key info, domain_index e' !! key = Some info → mailtracker_entry info ∨ github_entry info.
Proof.
  intros Hall. unfold index_github_domain.
  destruct ((3 <? String.length domain)%nat && Py.contains domain ".");
    [|by intros [= <-]].
  destruct (extract_base_domain_ok domain) as (b & ->).
  unfold mbind, result_bind, mret, result_ret. intros [= <-] key info.
  rewrite add_url_patterns_index.
  destruct (domain_index e !! b) as [old|] eqn:Hb; cbn [domain_index set_domain_index];
    [apply Hall|].
  destruct (decide (key = b)) as [->|Hne].
  - rewrite lookup_insert_eq. intros [= <-]. by right.
  - rewrite lookup_insert_ne by done. apply Hall.
Qed.

(** The three ways [fast_domain_lookup] returns. *)
Lemma fast_domain_lookup_run url e :
  (∃ info key,
     domain_index e !! key = Some info ∧
     _extract_base_domain (_extract_domain_from_url url) = Ok key ∧
     fast_domain_lookup url e
     = (Ok (Some info), set_stats (count_cache_hit (count_lookup (stats e))) e))
  ∨ (fast_domain_lookup url e
     = (Ok None, set_stats (count_cache_miss (count_lookup (stats e))) e))
  ∨ (fast_domain_lookup url e = (Ok None, set_stats (count_lookup (stats e)) e)).
Proof.
  unfold fast_domain_lookup. unfold_state.
  destruct (Py.truthy (_extract_domain_from_url url)); cbn [negb]; [|by right; right].
  destruct (extract_base_domain_ok (_extract_domain_from_url url)) as (key & Hkey).
  rewrite Hkey. cbn [domain_index set_stats].
  destruct (domain_index e !! key) as [info|] eqn:Hk.
  - left. by exists info, key.
  - right. by left.
Qed.

(** X21. In the index that [_initialize_indexes] builds in a new
    engine, an entry is either a MailTracker entry (critical, with at
    least one pattern) or a GitHub entry (medium, without patterns). So
    for every URL that
    [_analyze_single_url] finds there, the verdict [is_malicious] holds
    exactly when the entry came from MailTracker, which is exactly when
    it matched a pattern; a domain known from GitHub alone is reported,
    never as malicious. *)
Theorem fresh_index_has_two_kinds_of_entry cache_data github_data :
  let e := _initialize_indexes cache_data github_data new_engine in
  (∀ key info, domain_index e !! key = Some info →
               mailtracker_entry info ∨ github_entry info) ∧
  (∀ url analysis, (_analyze_single_url url e).1 = Ok (Some analysis) →
     (is_malicious analysis = true ↔ analysis_source analysis = "MailTracker") ∧
     (is_malicious analysis = false ↔ analysis_source analysis = "GitHub") ∧
     (is_malicious analysis = true ↔ (0 < patterns_matched analysis)%nat)).
Proof.
  intros e.
  assert (Hkinds : ∀ key info, domain_index e !! key = Some info →
                               mailtracker_entry info ∨ github_entry info).
  { subst e. unfold _initialize_indexes. intros key info.
    rewrite precompile_keeps_index. revert key info.
    assert (Hmail : ∀ key info,
      domain_index (_index_mailtracker_patterns cache_data new_engine) !! key = Some info →
      mailtracker_entry info).
    { destruct cache_data as [data|]; cbn [_index_mailtracker_patterns].
      - apply (for_each_invariant
                 (λ e, ∀ key info, domain_index e !! key = Some info → mailtracker_entry info)).
        + intros ????. by apply index_mailtracker_item_entries.
        + intros key info Hk. cbn [domain_index new_engine] in Hk.
          by rewrite lookup_empty in Hk.
      - intros key info Hk. cbn [domain_index new_engine] in Hk.
          by rewrite lookup_empty in Hk. }
    destruct github_data as [rules|]; cbn [_index_github_patterns].
    - apply (for_each_invariant
               (λ e, ∀ key info, domain_index e !! key = Some info →
                                 mailtracker_entry info ∨ github_entry info)).
      + intros ????. by apply index_github_domain_entries.
      + intros key info Hk. left. by eapply Hmail.
    - intros key info Hk. left. by eapply Hmail. }
  split; [exact Hkinds|].
  clearbody e. intros url analysis. unfold _analyze_single_url. unfold_state.
  destruct (fast_domain_lookup_run url e) as [(info & key & Hk & Hkey & ->)|[-> | ->]];
    [|done|done].
  rewrite Hkey. cbn [fst]. intros [= <-]. cbn [is_malicious analysis_source patterns_matched].
  destruct (Hkinds key info Hk) as [(Hl & Hs & _ & Hp)|(Hl & Hs & _ & Hp)];
    rewrite Hl, Hs, ?Hp.
  - split_and!; try done. split; [|done]. intros _. destruct (patterns info); [done|cbn; lia].
  - split_and!; try done. cbn. split; [done|lia].
Qed.

Lemma github_loop_grows github_data e :
  index_grows e (_index_github_patterns github_data e).
Proof.
  destruct github_data as [rules|]; cbn [_index_github_patterns]; [|apply index_grows_refl].
  apply for_each_grows. intros ???. apply index_github_domain_grows.
Qed.

(** X22. Index, then look up. Once a new engine is initialised, every
    item of the MailTracker cache that has a pattern and a domain without
    [/] is found: for any URL [https://<domain>/...] on that domain
    [_analyze_single_url] returns a result, which is malicious, critical
    and attributed to MailTracker, whether or not the GitHub list names
    the domain as well; and the lookup leaves the index as it was. *)
Theorem listed_domain_is_found_malicious data github_data item domain rest :
  item ∈ data →
  item_domain item = Some domain →
  indexable item = true →
  Py.contains domain "/" = false →
  let e := _initialize_indexes (Some data) github_data new_engine in
  ∃ analysis e',
    _analyze_single_url ("https://" ++ domain ++ "/" ++ rest) e = (Ok (Some analysis), e') ∧
    is_malicious analysis = true ∧
    analysis_threat_level analysis = "critical" ∧
    analysis_source analysis = "MailTracker" ∧
    analysis_domain analysis = Py.lower domain ∧
    (0 < patterns_matched analysis)%nat ∧
    domain_index e' = domain_index e.
Proof.
  intros Hin Hdom Hi Hslash e.
  assert (Hempty : ∀ key info, domain_index new_engine !! key = Some info →
                               mailtracker_entry info).
  { intros key info Hk. cbn [domain_index new_engine] in Hk. by rewrite lookup_empty in Hk. }
  destruct (mailtracker_loop_indexes data new_engine item Hempty Hin Hi)
    as (b & info & Hb & Hinfo & (Hl & Hs & Hc & Hp) & _).
  rewrite Hdom in Hb. change (default "" (Some domain)) with domain in Hb.
  destruct (github_loop_grows github_data (for_each index_mailtracker_item data new_engine)
              b info Hinfo) as (info' & Hinfo' & Hl' & Hs' & Hc' & Hprefix).
  assert (Hfinal : domain_index e !! b = Some info')
    by (subst e; unfold _initialize_indexes; by rewrite precompile_keeps_index).
  assert (Htruthy : Py.truthy domain = true).
  { unfold indexable in Hi. rewrite Hdom in Hi.
    change (default "" (Some domain)) with domain in Hi.
    by apply andb_true_iff in Hi as [? _]. }
  unfold _analyze_single_url, fast_domain_lookup. unfold_state.
  rewrite (extract_domain_of_https domain rest Hslash), lower_truthy, Htruthy.
  cbn [negb]. rewrite extract_base_domain_lower, Hb. cbn [domain_index set_stats].
  rewrite Hfinal. eexists _, _. split; [reflexivity|].
  cbn [is_malicious analysis_threat_level analysis_source analysis_domain patterns_matched
       domain_index set_stats].
  rewrite <- Hl', <- Hs', Hl, Hs. split_and!; try done.
  destruct Hprefix as (more & ->). rewrite length_app.
  destruct (patterns info); [done|cbn; lia].
Qed.




Lemma index_mailtracker_item_stats item e e' :
  index_mailtracker_item item e = Ok e' →
  stats e' = if indexable item then count_domain_indexed (stats e) else stats e.
Proof.
  intros Hrun. destruct (indexable item) eqn:Hi.
  - destruct (index_mailtracker_item_run item e Hi) as (b & e1 & _ & Hrun1 & _ & _ & Hst).
    congruence.
  - rewrite index_mailtracker_item_skip in Hrun by done. congruence.
Qed.

Lemma mailtracker_loop_stats data e :
  let e' := for_each index_mailtracker_item data e in
  domains_indexed (stats e') = (domains_indexed (stats e) + length (List.filter indexable data))%nat
  ∧ patterns_cached (stats e') = patterns_cached (stats e)
  ∧ cache_hits (stats e') = cache_hits (stats e)
  ∧ cache_misses (stats e') = cache_misses (stats e)
  ∧ total_lookups (stats e') = total_lookups (stats e)
  ∧ regex_pattern_cache e' = regex_pattern_cache e.
Proof.
  revert e. induction data as [|item data IH]; intros e; cbn zeta.
  - cbn. split_and!; try done; lia.
  - cbn [for_each List.filter]. destruct (index_mailtracker_item_ok item e) as (e1 & Hx).
    rewrite Hx. pose proof (index_mailtracker_item_stats item e e1 Hx) as Hst.
    assert (Hre : regex_pattern_cache e1 = regex_pattern_cache e).
    { revert Hx. unfold index_mailtracker_item. destruct (_ && _); [|by intros [= <-]].
      destruct (extract_base_domain_ok (default "" (item_domain item))) as (b & ->).
      unfold mbind, result_bind, mret, result_ret. intros [= <-].
      by destruct (domain_index e !! b). }
    destruct (IH e1) as (H1 & H2 & H3 & H4 & H5 & H6).
    rewrite H1, H2, H3, H4, H5, H6, Hst, Hre.
    destruct (indexable item); cbn; split_and!; try done; lia.
Qed.

Lemma add_url_patterns_rest (base_domain : string) (url_patterns : list string) e :
  let e' := foldl (λ e url_pattern,
                     if (5 <? String.length url_pattern)%nat then
                       set_url_pattern_index
                         (<[base_domain := (default [] (url_pattern_index e !! base_domain)
                                            ++ [url_pattern])%list]> (url_pattern_index e)) e
                     else e)
                  e url_patterns in
  stats e' = stats e ∧ regex_pattern_cache e' = regex_pattern_cache e.
Proof.
  revert e. induction url_patterns as [|p ps IH]; intros e; [done|].
  cbn [foldl]. cbn zeta in IH. destruct (5 <? String.length p)%nat; [|apply IH].
  match goal with |- context [foldl _ ?e0 ps] => destruct (IH e0) as [-> ->] end. done.
Qed.

Lemma github_loop_stats github_data e :
  stats (_index_github_patterns github_data e) = stats e ∧
  regex_pattern_cache (_index_github_patterns github_data e) = regex_pattern_cache e.
Proof.
  destruct github_data as [rules|]; cbn [_index_github_patterns]; [|done].
  apply (for_each_invariant
           (λ e', stats e' = stats e ∧ regex_pattern_cache e' = regex_pattern_cache e));
    [|done].
  intros domain e1 e2 [Hs Hr]. unfold index_github_domain.
  destruct (_ && _); [|by intros [= <-]].
  destruct (extract_base_domain_ok domain) as (b & ->).
  unfold mbind, result_bind, mret, result_ret. intros [= <-].
  destruct (add_url_patterns_rest b (url_patterns rules)
              (match domain_index e1 !! b with
               | Some _ => e1
               | None =>
                   set_domain_index
                     (<[b := {| threat_level := "medium"; source := "GitHub";
                                patterns := []; confidence := "medium" |}]>
                        (domain_index e1)) e1
               end)) as [-> ->].
  by destruct (domain_index e1 !! b).
Qed.

(** X24. The statistics of a newly initialised engine: the counter
    [domains_indexed] is the number of MailTracker items that have a
    domain and a pattern, an item counted each time its domain recurs and
    no GitHub domain counted at all; ten patterns are compiled; and no
    lookup has been counted. *)
Theorem statistics_after_initialization cache_data github_data :
  let e := _initialize_indexes cache_data github_data new_engine in
  domains_indexed (stats e) = length (List.filter indexable (default [] cache_data)) ∧
  patterns_cached (stats e) = 10%nat ∧
  size (regex_pattern_cache e) = 10%nat ∧
  total_lookups (stats e) = 0%nat ∧
  cache_hits (stats e) = 0%nat ∧
  cache_misses (stats e) = 0%nat.
Proof.
  intros e. subst e. unfold _initialize_indexes.
  set (e1 := _index_mailtracker_patterns cache_data new_engine).
  set (e2 := _index_github_patterns github_data e1).
  assert (H1 : domains_indexed (stats e1) = length (List.filter indexable (default [] cache_data))
               ∧ patterns_cached (stats e1) = 0%nat ∧ cache_hits (stats e1) = 0%nat
               ∧ cache_misses (stats e1) = 0%nat ∧ total_lookups (stats e1) = 0%nat
               ∧ regex_pattern_cache e1 = ∅).
  { subst e1. destruct cache_data as [data|]; cbn [_index_mailtracker_patterns default].
    - destruct (mailtracker_loop_stats data new_engine) as (-> & -> & -> & -> & -> & ->).
      done.
    - done. }
  destruct (github_loop_stats github_data e1) as [Hs2 Hr2]. fold e2 in Hs2, Hr2.
  destruct H1 as (Hd & Hp & Hh & Hm & Ht & Hr).
  unfold _precompile_common_patterns. cbn [foldl common_patterns stats set_stats
    regex_pattern_cache set_regex_pattern_cache count_pattern_cached domains_indexed
    patterns_cached cache_hits cache_misses total_lookups].
  rewrite Hs2, Hr2, Hd, Hp, Hh, Hm, Ht, Hr. split_and!; done.
Qed.
End IndexLookups.

(** ** Updates, health checks and rollbacks *)

Section RecoveryWorkers.
Import VersionControl Recovery.
Context `{Py.SetOrder}.
Variable str_of_list : list string → string.

Implicit Types (ctl : Controller) (r : Repo).

Lemma total_pattern_count_run r :
  VersionControl._get_total_pattern_count r
  = (count_patterns (VersionControl._get_current_patterns r).1, r).
Proof.
  unfold VersionControl._get_total_pattern_count. unfold_state.
  by rewrite get_current_patterns_run.
Qed.

Lemma collect_health_run ctl :
  _collect_health_metrics ctl =
    ({| health_timestamp := Orchestrator.clock (workers ctl) (Orchestrator.ticks (workers ctl));
        detection_speed_ms := 25.0; memory_usage_mb := 150.0;
        pattern_count := count_patterns
                           (VersionControl._get_current_patterns (version_control ctl)).1;
        false_positive_rate := 0.0001; cache_hit_rate := 0.75;
        errors_per_hour := 0; status := "healthy" |},
     set_version_control (version_control ctl)
       (set_workers (Orchestrator.set_ticks (S (Orchestrator.ticks (workers ctl)))
                       (workers ctl)) ctl)).
Proof.
  unfold _collect_health_metrics, Recovery._get_total_pattern_count, on_workers, on_ledger,
    Orchestrator.time_time.
  unfold_state. cbn [version_control set_workers]. by rewrite total_pattern_count_run.
Qed.

(** X25. The health monitor never acts. The metrics it collects are
    constants but for the time and the ledger's pattern count, so the
    status is always [healthy]: a turn of [_health_monitor] appends one
    record to the history, which it keeps to the last 100, and changes
    neither the ledger nor the rollback counter nor the configuration; the
    emergency rollback is never triggered from here. *)
Theorem health_monitor_only_records ctl :
  let ctl' := (_health_monitor ctl).2 in
  version_control ctl' = version_control ctl ∧
  rollback_count ctl' = rollback_count ctl ∧
  Orchestrator.config (workers ctl') = Orchestrator.config (workers ctl) ∧
  Orchestrator.update_queue (workers ctl') = Orchestrator.update_queue (workers ctl) ∧
  length (health_history ctl') = (S (length (health_history ctl)) `min` 100)%nat ∧
  ∃ health,
    health_history ctl' `suffix_of` (health_history ctl ++ [health])%list ∧
    last (health_history ctl') = Some health ∧
    status health = "healthy" ∧
    pattern_count health
    = count_patterns (VersionControl._get_current_patterns (version_control ctl)).1.
Proof.
  intros ctl'. subst ctl'. unfold _health_monitor. unfold_state.
  rewrite collect_health_run. unfold Recovery.config. unfold_state.
  cbn [status health_history set_health_history set_version_control set_workers fst snd].
  assert (Hok : bool_decide ("healthy" ∈ ["degraded"; "critical"]) = false)
    by (by vm_compute).
  rewrite Hok. clear Hok.
  set (health := {| health_timestamp := _; status := "healthy" |}).
  rewrite length_app. cbn [length].
  destruct (100 <? length (health_history ctl) + 1)%nat eqn:Hlen;
    cbn [version_control rollback_count workers health_history set_health_history
         set_version_control set_workers Orchestrator.config Orchestrator.set_ticks
         Orchestrator.update_queue snd].
  - apply Nat.ltb_lt in Hlen. split_and!; try done.
    + rewrite length_drop, length_app. cbn [length]. lia.
    + exists health. split_and!; try done.
      * apply suffix_drop.
      * rewrite drop_app_le by (rewrite ?length_app; cbn [length]; lia). apply last_snoc.
  - apply Nat.ltb_ge in Hlen. split_and!; try done.
    + rewrite length_app. cbn [length]. lia.
    + exists health. split_and!; try done. apply last_snoc.
Qed.

(** X26. The rollback ceiling. [_perform_rollback] rolls the ledger
    back only while the counter is below [max_rollback_attempts], and
    counts the rollback only when the target was found; at the ceiling it
    leaves the ledger alone and sets the emergency stop instead. It never
    clears the emergency stop, and never takes the counter past the
    ceiling. *)
Theorem rollback_stops_at_the_ceiling ctl target reason :
  let limit := Orchestrator.max_rollback_attempts (Orchestrator.config (workers ctl)) in
  let ctl' := (_perform_rollback target reason ctl).2 in
  ((limit ≤ rollback_count ctl)%Z →
   Orchestrator.emergency_stop (Orchestrator.config (workers ctl')) = true ∧
   version_control ctl' = version_control ctl ∧
   rollback_count ctl' = rollback_count ctl) ∧
  ((rollback_count ctl < limit)%Z →
   Orchestrator.config (workers ctl') = Orchestrator.config (workers ctl) ∧
   version_control ctl' = (rollback_to_commit target reason (version_control ctl)).2 ∧
   rollback_count ctl' =
     match commits_dir (version_control ctl) !! target with
     | Some _ => (rollback_count ctl + 1)%Z
     | None => rollback_count ctl
     end) ∧
  ((rollback_count ctl ≤ limit)%Z → (rollback_count ctl' ≤ limit)%Z) ∧
  (Orchestrator.emergency_stop (Orchestrator.config (workers ctl)) = true →
   Orchestrator.emergency_stop (Orchestrator.config (workers ctl')) = true) ∧
  Orchestrator.max_rollback_attempts (Orchestrator.config (workers ctl')) = limit.
Proof.
  intros limit ctl'. subst limit ctl'.
  unfold _perform_rollback, Recovery.config, on_ledger. unfold_state.
  destruct (Orchestrator.max_rollback_attempts (Orchestrator.config (workers ctl))
            <=? rollback_count ctl)%Z eqn:Hceil.
  - apply Z.leb_le in Hceil. cbn. split_and!; try done; lia.
  - apply Z.leb_gt in Hceil.
    destruct (commits_dir (version_control ctl) !! target) as [c|] eqn:Hc.
    + destruct (rollback_found (version_control ctl) target reason c Hc) as (r' & Hrun & _).
      rewrite Hrun. cbn. split_and!; try done; lia.
    + rewrite (rollback_missing (version_control ctl) target reason Hc).
      cbn. split_and!; try done; lia.
Qed.

Lemma current_patterns_at_head r id c :
  head_commit r = Some id → id ≠ "" → commits_dir r !! id = Some c →
  (VersionControl._get_current_patterns r).1 = pattern_snapshot c.
Proof.
  intros Hh Hne Hc. rewrite get_current_patterns_run, Hh. cbn [fst].
  assert (Py.truthy id = true) as -> by (by destruct id). by rewrite Hc.
Qed.

Lemma walk_history_at_head (n : nat) (head : string) (commits : gmap string PatternCommit) c :
  head ≠ "" → commits !! head = Some c →
  walk_history (S n) (Some head) commits = c :: walk_history n (parent_id c) commits.
Proof.
  intros Hne Hc. cbn [walk_history Py.truthy_opt].
  assert (Py.truthy head = true) as -> by (by destruct head).
  change (default "" (Some head)) with head. by rewrite Hc.
Qed.

(** X27. An emergency rollback goes back to the head. When the head of
    a well-formed ledger is an ordinary commit, it is the first of the
    recent commits that is not a rollback, so [_trigger_emergency_rollback]
    rolls back to the head itself: below the ceiling it adds a rollback
    commit on top of the head with the head's own snapshot, counts one
    rollback, and leaves the current patterns what they were. *)
Theorem emergency_rollback_returns_to_the_head ctl health head c :
  well_formed (version_control ctl) →
  head_commit (version_control ctl) = Some head →
  head ≠ "" →
  commits_dir (version_control ctl) !! head = Some c →
  is_rollback c = false →
  (rollback_count ctl
   < Orchestrator.max_rollback_attempts (Orchestrator.config (workers ctl)))%Z →
  entropy (version_control ctl) (S (draws (version_control ctl))) ≠ "" →
  let ctl' := (_trigger_emergency_rollback health ctl).2 in
  rollback_count ctl' = (rollback_count ctl + 1)%Z ∧
  (VersionControl._get_current_patterns (version_control ctl')).1
  = (VersionControl._get_current_patterns (version_control ctl)).1 ∧
  ∃ rc, head_commit (version_control ctl') = Some (commit_id rc) ∧
        commits_dir (version_control ctl') !! commit_id rc = Some rc ∧
        changes rc = ChangesRollback head ("emergency: " ++ status health) ∧
        parent_id rc = Some head ∧
        pattern_snapshot rc = pattern_snapshot c.
Proof.
  intros Hwf Hh Hne Hc Hnr Hbelow Hid ctl'. subst ctl'.
  assert (Hcid : commit_id c = head) by (by destruct Hwf as (Hstore & _); apply Hstore).
  assert (Ht : Py.truthy head = true) by (by destruct head).
  unfold _trigger_emergency_rollback, on_ledger, get_commit_history. unfold_state.
  rewrite Hh. change (Z.to_nat 5) with 5%nat.
  cbn [fst snd version_control set_version_control].
  rewrite (walk_history_at_head 4 head _ c Hne Hc).
  cbn [List.find]. rewrite Hnr. cbn [negb]. rewrite Hcid.
  unfold _perform_rollback, Recovery.config, on_ledger. unfold_state.
  cbn [rollback_count workers version_control set_version_control].
  apply Z.leb_gt in Hbelow. rewrite Hbelow.
  destruct (rollback_found (version_control ctl) head ("emergency: " ++ status health) c Hc)
    as (r' & Hrun & Hstore' & Hhead' & _).
  assert (Heta : set_version_control (version_control ctl) ctl = ctl) by (by destruct ctl).
  rewrite Heta, Hrun.
  cbn [rollback_count version_control set_version_control set_rollback_count snd].
  assert (Hnew : commits_dir r' !! entropy (version_control ctl) (S (draws (version_control ctl)))
                 = Some (rollback_commit_for (version_control ctl) head
                           ("emergency: " ++ status health) c))
    by (rewrite Hstore'; apply lookup_insert_eq).
  split_and!; [done| |].
  - rewrite (current_patterns_at_head r' _ _ Hhead' Hid Hnew).
    by rewrite (current_patterns_at_head (version_control ctl) head c Hh Hne Hc).
  - exists (rollback_commit_for (version_control ctl) head
              ("emergency: " ++ status health) c).
    split_and!; [exact Hhead'|exact Hnew|done|exact Hh|done].
Qed.

Lemma commit_changes_env r p message author vrs :
  let r' := (commit_changes p message author vrs r).2 in
  entropy r' = entropy r ∧ draws r' = S (draws r) ∧ clock r' = clock r.
Proof.
  unfold commit_changes, _generate_commit_id, time_time, _save_commit, _update_branch_head,
    _create_snapshot, time_time. unfold_state.
  rewrite !get_current_patterns_run. cbn.
  by destruct (branches_dir r !! current_branch r).
Qed.

(** X28. A turn of [_update_processor] on an update whose time stamp
    converts to an integer writes two commits: first the rollback point,
    whose snapshot is the orchestrator's placeholder for its current
    patterns (empty without an engine) and not the patterns the ledger
    holds, then on top of it the update commit with the two simulated
    patterns of the source and the validation results. The update commit
    becomes the head and its snapshot the current patterns; the entry is
    taken off the update queue and the rollback counter reset. *)
Theorem update_turn_commits_point_and_update ctl change vrs queue seconds :
  let vc := version_control ctl in
  let point_id := entropy vc (draws vc) in
  let update_id := entropy vc (S (draws vc)) in
  Orchestrator.update_queue (workers ctl) = (change, vrs) :: queue →
  int_of_float (Orchestrator.clock (workers ctl) (Orchestrator.ticks (workers ctl)))
  = Some seconds →
  update_id ≠ "" →
  point_id ≠ update_id →
  let ctl' := (_update_processor str_of_list ctl).2 in
  let simulated : Snapshot :=
    {[ Monitor.source_name change :=
         ["simulated_pattern_" ++ pretty seconds;
          "test_pattern_" ++ Py.slice_to 8 (Monitor.commit_sha change)] ]} in
  Orchestrator.update_queue (workers ctl') = queue ∧
  rollback_count ctl' = 0%Z ∧
  head_commit (version_control ctl') = Some update_id ∧
  (VersionControl._get_current_patterns (version_control ctl')).1 = simulated ∧
  ∃ point update,
    commits_dir (version_control ctl') !! point_id = Some point ∧
    commits_dir (version_control ctl') !! update_id = Some update ∧
    parent_id point = head_commit vc ∧
    pattern_snapshot point
    = match pattern_engine ctl with
      | None => ∅
      | Some _ => {[ "current_state" := ["pattern_extraction_placeholder"] ]}
      end ∧
    parent_id update = Some point_id ∧
    pattern_snapshot update = simulated ∧
    validation_results update = vrs ∧
    author update = "auto-update-system".
Proof.
  intros vc point_id update_id Hq Hint Hne Hdistinct ctl' simulated.
  subst ctl'. unfold _update_processor. unfold_state. rewrite Hq.
  unfold _create_rollback_point, Recovery._get_current_patterns, on_ledger. unfold_state.
  cbn [version_control set_workers pattern_engine].
  set (current := match pattern_engine ctl with
                  | None => (∅ : Snapshot)
                  | Some _ => {[ "current_state" := ["pattern_extraction_placeholder"] ]}
                  end).
  assert (Hcur : (match pattern_engine ctl with
                  | Some _ => mret ({[ "current_state" := ["pattern_extraction_placeholder"] ]}
                                    : Snapshot)
                  | None => mret ∅
                  end : Control Snapshot)
                   (set_workers (Orchestrator.set_update_queue queue (workers ctl)) ctl)
                 = (current, set_workers (Orchestrator.set_update_queue queue (workers ctl)) ctl))
    by (subst current; by destruct (pattern_engine ctl)).
  unfold mret, state_ret in Hcur |- *. rewrite Hcur. clear Hcur.
  cbn [version_control set_workers].
  destruct (commit_changes_run vc current "Rollback point: before_update"
              "auto-update-system" None)
    as (r1 & Hrun1 & Hc1 & Hh1 & _).
  pose proof (commit_changes_env vc current "Rollback point: before_update"
                "auto-update-system" None) as (He1 & Hd1 & _).
  fold vc. change ("Rollback point: " ++ "before_update") with "Rollback point: before_update".
  rewrite Hrun1 in He1, Hd1 |- *. cbn [snd] in He1, Hd1.
  unfold _apply_pattern_update, _simulate_new_patterns, on_workers, on_ledger,
    Orchestrator.time_time. unfold_state.
  cbn [workers set_version_control set_workers Orchestrator.clock Orchestrator.ticks
       Orchestrator.set_update_queue version_control].
  rewrite Hint. cbn [version_control set_version_control set_workers].
  set (message := ("Auto-update from " ++ _)%string).
  fold simulated.
  destruct (commit_changes_run r1 simulated message "auto-update-system" vrs)
    as (r2 & Hrun2 & Hc2 & Hh2 & _).
  rewrite Hrun2. rewrite He1, Hd1 in Hc2, Hh2. fold update_id in Hc2, Hh2.
  fold point_id in Hc1, Hh1.
  cbn [workers set_version_control set_workers set_last_update set_rollback_count
       version_control rollback_count Orchestrator.update_queue
       Orchestrator.set_update_queue Orchestrator.set_ticks snd fst].
  assert (Hupdate : commits_dir r2 !! update_id
                    = Some (committed r1 simulated message "auto-update-system" vrs))
    by (rewrite Hc2; apply lookup_insert_eq).
  split_and!; [done|done|done| |].
  - by rewrite (current_patterns_at_head r2 update_id _ Hh2 Hne Hupdate).
  - eexists _, _. split_and!.
    + rewrite Hc2, lookup_insert_ne by (intros E; by apply Hdistinct).
      rewrite Hc1. apply lookup_insert_eq.
    + exact Hupdate.
    + done.
    + done.
    + exact Hh1.
    + done.
    + done.
    + done.
Qed.

End RecoveryWorkers.

(** ** Concrete runs of the operations above *)

Section LedgerOperationRuns.
Import VersionControl Examples.

Lemma ledger2_well_formed : well_formed ledger2.
Proof.
  unfold ledger2, ledger1, ledger0.
  apply commit_changes_well_formed, commit_changes_well_formed, init_well_formed,
    empty_directory_well_formed.
Qed.

(** A third commit on [ledger2]. *)
Lemma commit_changes_records_witness :
  ∃ r' c,
    commit_changes {[ "s" := ["p1"; "p2"; "p3"] ]} "add p3" "auto-update" None ledger2
    = (entropy ledger2 (draws ledger2), r') ∧
    commits_dir r' !! entropy ledger2 (draws ledger2) = Some c ∧
    pattern_snapshot c = {[ "s" := ["p1"; "p2"; "p3"] ]} ∧
    parent_id c = head_commit ledger2 ∧
    head_commit r' = Some (entropy ledger2 (draws ledger2)) ∧
    (_get_current_patterns r').1 = {[ "s" := ["p1"; "p2"; "p3"] ]}.
Proof.
  assert (Fr : commits_dir ledger2 !! entropy ledger2 (draws ledger2) = None)
    by (vm_compute; reflexivity).
  assert (Ne : entropy ledger2 (draws ledger2) ≠ "") by (vm_compute; discriminate).
  pose proof (commit_changes_records ledger2 {[ "s" := ["p1"; "p2"; "p3"] ]} "add p3"
                "auto-update" None Fr Ne) as L.
  destruct L as (r' & c & Hrun & Hc & _ & Hsnap & Hparent & _ & Hhead & _ & _ & _ & _ & Hcur & _).
  exists r', c. split_and!; [exact Hrun|exact Hc|exact Hsnap|exact Hparent|exact Hhead|exact Hcur].
Defined.

(** Back to the initial commit of [ledger2]. *)
Lemma rollback_restores_patterns_witness :
  (_get_current_patterns (rollback_to_commit "4be1c07a" "latency regression" ledger2).2).1
  = pattern_snapshot commit0 ∧
  (_get_total_pattern_count (rollback_to_commit "4be1c07a" "latency regression" ledger2).2).1
  = count_patterns (pattern_snapshot commit0).
Proof.
  assert (S0 : commits_dir ledger2 !! "4be1c07a" = Some commit0)
    by (vm_compute; reflexivity).
  assert (Ne : entropy ledger2 (S (draws ledger2)) ≠ "") by (vm_compute; discriminate).
  exact (rollback_restores_patterns ledger2 "4be1c07a" "latency regression" commit0 S0 Ne).
Defined.

Lemma history_grows_by_commit_witness :
  (get_commit_history (2 + 1)
     (commit_changes {[ "s" := ["p1"; "p2"; "p3"] ]} "add p3" "auto-update" None ledger2).2).1
  = committed ledger2 {[ "s" := ["p1"; "p2"; "p3"] ]} "add p3" "auto-update" None
    :: (get_commit_history 2 ledger2).1.
Proof.
  assert (Fr : commits_dir ledger2 !! entropy ledger2 (draws ledger2) = None)
    by (vm_compute; reflexivity).
  assert (Ne : entropy ledger2 (draws ledger2) ≠ "") by (vm_compute; discriminate).
  assert (Hl : (0 ≤ 2)%Z) by lia.
  exact (history_grows_by_commit ledger2 {[ "s" := ["p1"; "p2"; "p3"] ]} "add p3"
           "auto-update" None 2 ledger2_well_formed Fr Ne Hl).
Defined.

Lemma history_grows_by_rollback_witness :
  (get_commit_history (2 + 1)
     (rollback_to_commit "4be1c07a" "latency regression" ledger2).2).1
  = rollback_commit_for ledger2 "4be1c07a" "latency regression" commit0
    :: (get_commit_history 2 ledger2).1.
Proof.
  assert (S0 : commits_dir ledger2 !! "4be1c07a" = Some commit0)
    by (vm_compute; reflexivity).
  assert (Fr : commits_dir ledger2 !! entropy ledger2 (S (draws ledger2)) = None)
    by (vm_compute; reflexivity).
  assert (Ne : entropy ledger2 (S (draws ledger2)) ≠ "") by (vm_compute; discriminate).
  assert (Hl : (0 ≤ 2)%Z) by lia.
  exact (history_grows_by_rollback ledger2 "4be1c07a" "latency regression" commit0 2
           ledger2_well_formed S0 Fr Ne Hl).
Defined.

(** A branch [staging] off [ledger2], and a commit on it. *)
Lemma branch_commit_leaves_other_branches_witness :
  let r1 := (create_branch "staging" None ledger2).2 in
  let r2 := (switch_branch "staging" r1).2 in
  let r3 := (commit_changes {[ "s" := ["p9"] ]} "try p9" "analyst" None r2).2 in
  current_branch r1 = current_branch ledger2 ∧
  current_branch r2 = "staging" ∧
  (∃ c, commits_dir r3 !! entropy ledger2 (draws ledger2) = Some c ∧
        parent_id c = head_commit ledger2 ∧ branch c = "staging") ∧
  (∀ b, b ≠ "staging" → branches_dir r3 !! b = branches_dir ledger2 !! b).
Proof.
  assert (Hn : branches_dir ledger2 !! "staging" = None) by (vm_compute; reflexivity).
  pose proof (branch_commit_leaves_other_branches ledger2 "staging" {[ "s" := ["p9"] ]}
                "try p9" "analyst" None Hn) as L.
  cbv zeta in L. destruct L as (_ & _ & H1 & _ & _ & H2 & _ & H3 & _ & H4).
  cbv zeta. split_and!; [exact H1|exact H2|exact H3|exact H4].
Defined.


Lemma commit_counts_agree_with_diff_witness :
  ∃ d u,
    (generate_diff "c57e08b1" (entropy ledger2 (draws ledger2))
       (commit_changes {[ "s" := ["p2"; "p3"] ]} "swap" "auto-update" None ledger2).2).1
    = Some d ∧
    changes (committed ledger2 {[ "s" := ["p2"; "p3"] ]} "swap" "auto-update" None)
    = ChangesUpdate u ∧
    patterns_added u = length (added_patterns d) ∧
    patterns_removed u = length (removed_patterns d).
Proof.
  assert (S2 : commits_dir ledger2 !! "c57e08b1" = Some commit2)
    by (vm_compute; reflexivity).
  assert (Hs : pattern_snapshot commit2 = (_get_current_patterns ledger2).1)
    by (vm_compute; reflexivity).
  assert (Hne : entropy ledger2 (draws ledger2) ≠ "c57e08b1") by (vm_compute; discriminate).
  exact (commit_counts_agree_with_diff ledger2 {[ "s" := ["p2"; "p3"] ]} "swap" "auto-update"
           None "c57e08b1" commit2 S2 Hs Hne).
Defined.

Example diff_of_a_swap :
  let r := (commit_changes {[ "s" := ["p2"; "p3"] ]} "swap" "auto-update" None ledger2).2 in
  (λ d, (added_patterns d, removed_patterns d)) <$> (generate_diff "c57e08b1" "0a9f6d3e" r).1
  = Some (["p3"], ["p1"]).
Proof. vm_compute. reflexivity. Qed.
End LedgerOperationRuns.

Section WorkerRuns.
Import Validator Monitor Orchestrator Examples.

(** Of the five sampled lines of [event_lines] the blank line and the
    comment are left out; the indented comment is kept, stripped. *)
Lemma extracted_patterns_are_kept_lines_witness :
  (length [("||pixel.tracker.com^", "X"); ("# indented", "X"); ("beacon.example.net", "X")]
   ≤ 20)%nat ∧
  (∀ pattern source,
     (pattern, source)
       ∈ [("||pixel.tracker.com^", "X"); ("# indented", "X"); ("beacon.example.net", "X")] →
     source = source_name event_lines ∧ pattern ≠ "" ∧
     ∃ lines line, dict_get "added_lines" (changes event_lines) = Some (Lines lines) ∧
                   line ∈ lines ∧ pattern = Py.strip line ∧
                   Py.startswith line "!" = false ∧ Py.startswith line "#" = false) ∧
  (∀ lines line, dict_get "added_lines" (changes event_lines) = Some (Lines lines) →
                 (length lines ≤ 20)%nat →
                 line ∈ lines → Py.strip line ≠ "" →
                 Py.startswith line "!" = false → Py.startswith line "#" = false →
                 (Py.strip line, source_name event_lines)
                   ∈ [("||pixel.tracker.com^", "X"); ("# indented", "X");
                      ("beacon.example.net", "X")]).
Proof.
  assert (Hx : _extract_patterns_from_change event_lines
               = Some [("||pixel.tracker.com^", "X"); ("# indented", "X");
                       ("beacon.example.net", "X")])
    by (vm_compute; reflexivity).
  exact (extracted_patterns_are_kept_lines event_lines _ Hx).
Defined.


Example rejected_event_is_logged :
  let o' := (_validation_processor (set_validation_queue [event_c] orchestrator_X)).2 in
  (_validation_passed (validate_patterns_batch [("c", "X")]),
   length (update_queue o'), failure_source <$> validation_failures o')
  = (false, 0%nat, ["X"]).
Proof. vm_compute. reflexivity. Qed.
End WorkerRuns.

Section PollingRuns.
Import Validator Monitor Examples.

(** The cached lines a, b fetched as b, a, b. *)
Lemma same_line_set_is_no_change_witness :
  let t' := (_monitor_source example_sha256 None
               (Status200 ("b" ++ Py.nl ++ "a" ++ Py.nl ++ "b") None None) monitor_X).2 in
  change_queue t' = change_queue monitor_X ∧
  cache_dir t' = cache_dir monitor_X ∧
  cache_dir t' !! cache_file (source t') = Some a_b.
Proof.
  assert (Hc : cache_dir monitor_X !! cache_file (source monitor_X) = Some a_b)
    by (vm_compute; reflexivity).
  assert (Hs : (list_to_set (Py.splitlines ("b" ++ Py.nl ++ "a" ++ Py.nl ++ "b")) : gset string)
               = list_to_set (Py.splitlines a_b))
    by (vm_compute; reflexivity).
  exact (same_line_set_is_no_change example_sha256 monitor_X None
           ("b" ++ Py.nl ++ "a" ++ Py.nl ++ "b") None None a_b Hc Hs).
Defined.

Lemma commit_reported_once_witness :
  let first := _check_for_commits (Some ["9f2c1e7a"; "51d0b3c4"]) monitor_X in
  let second := _check_for_commits (Some ["9f2c1e7a"]) first.2 in
  last_commit_sha (source first.2) = Some "9f2c1e7a" ∧
  (first.1 = None ↔ last_commit_sha (source monitor_X) = Some "9f2c1e7a") ∧
  (first.1 ≠ None → first.1 = Some "9f2c1e7a") ∧
  second = (None, first.2).
Proof.
  assert (Hne : "9f2c1e7a" ≠ "") by discriminate.
  exact (commit_reported_once monitor_X "9f2c1e7a" ["51d0b3c4"] [] Hne).
Defined.
End PollingRuns.

Section IndexLookupRuns.
Import Engine Examples.

(** The first item of [two_items], looked up by a URL on its domain. *)
Lemma listed_domain_is_found_malicious_witness :
  let e := _initialize_indexes (Some two_items) None new_engine in
  ∃ analysis e',
    _analyze_single_url ("https://" ++ "track.flexlinks.com" ++ "/" ++ "a.ashx?tc=1") e
    = (Ok (Some analysis), e') ∧
    is_malicious analysis = true ∧
    analysis_threat_level analysis = "critical" ∧
    analysis_source analysis = "MailTracker" ∧
    analysis_domain analysis = Py.lower "track.flexlinks.com" ∧
    (0 < patterns_matched analysis)%nat ∧
    domain_index e' = domain_index e.
Proof.
  assert (Hin : {| item_pattern := Some "flexlinks"; item_domain := Some "track.flexlinks.com";
                   item_regex_pattern := Some "track\.flexlinks\.com";
                   item_confidence := Some "high" |} ∈ two_items)
    by (apply elem_of_cons; by left).
  assert (Hi : indexable {| item_pattern := Some "flexlinks";
                            item_domain := Some "track.flexlinks.com";
                            item_regex_pattern := Some "track\.flexlinks\.com";
                            item_confidence := Some "high" |} = true) by reflexivity.
  assert (Hs : Py.contains "track.flexlinks.com" "/" = false) by (vm_compute; reflexivity).
  exact (listed_domain_is_found_malicious two_items None _ "track.flexlinks.com"
           "a.ashx?tc=1" Hin eq_refl Hi Hs).
Defined.

Example batch_of_three :
  let e := _initialize_indexes (Some two_items) None new_engine in
  let outcome := batch_analyze_urls
                   ["https://track.flexlinks.com/a.ashx?tc=1"; "https://example.org/";
                    "https://WWW.pntrac.com/t/track?id=7"] e in
  (analysis_url <$> outcome.1, is_malicious <$> outcome.1,
   total_lookups (stats outcome.2), cache_hits (stats outcome.2),
   cache_misses (stats outcome.2))
  = (["https://track.flexlinks.com/a.ashx?tc=1"; "https://WWW.pntrac.com/t/track?id=7"],
     [true; true], 3%nat, 2%nat, 1%nat).
Proof. vm_compute. reflexivity. Qed.
End IndexLookupRuns.

Section RecoveryRuns.
Import VersionControl Recovery Examples.

(** An emergency rollback on [ledger2], whose head is the third
    commit. *)
Lemma emergency_rollback_returns_to_the_head_witness :
  let health := (_collect_health_metrics controller_X).1 in
  let ctl' := (_trigger_emergency_rollback health controller_X).2 in
  rollback_count ctl' = (rollback_count controller_X + 1)%Z ∧
  (VersionControl._get_current_patterns (version_control ctl')).1
  = (VersionControl._get_current_patterns (version_control controller_X)).1 ∧
  ∃ rc, head_commit (version_control ctl') = Some (commit_id rc) ∧
        commits_dir (version_control ctl') !! commit_id rc = Some rc ∧
        changes rc = ChangesRollback "c57e08b1" ("emergency: " ++ status health) ∧
        parent_id rc = Some "c57e08b1" ∧
        pattern_snapshot rc = pattern_snapshot commit2.
Proof.
  assert (Hh : head_commit (version_control controller_X) = Some "c57e08b1")
    by (vm_compute; reflexivity).
  assert (Hne : "c57e08b1" ≠ "") by discriminate.
  assert (Hc : commits_dir (version_control controller_X) !! "c57e08b1" = Some commit2)
    by (vm_compute; reflexivity).
  assert (Hnr : is_rollback commit2 = false) by reflexivity.
  assert (Hb : (rollback_count controller_X
                < Orchestrator.max_rollback_attempts
                    (Orchestrator.config (workers controller_X)))%Z)
    by (vm_compute; reflexivity).
  assert (Hid : entropy (version_control controller_X)
                  (S (draws (version_control controller_X))) ≠ "")
    by (vm_compute; discriminate).
  exact (emergency_rollback_returns_to_the_head controller_X
           (_collect_health_metrics controller_X).1 "c57e08b1" commit2
           ledger2_well_formed Hh Hne Hc Hnr Hb Hid).
Defined.

(** The approved event of [controller_X], applied. *)
Lemma update_turn_commits_point_and_update_witness :
  let ctl' := (_update_processor example_str_of_list controller_X).2 in
  Orchestrator.update_queue (workers ctl') = [] ∧
  rollback_count ctl' = 0%Z ∧
  head_commit (version_control ctl') = Some "e2b4417c" ∧
  ∃ point update,
    commits_dir (version_control ctl') !! "0a9f6d3e" = Some point ∧
    commits_dir (version_control ctl') !! "e2b4417c" = Some update ∧
    parent_id point = Some "c57e08b1" ∧
    pattern_snapshot point = ∅ ∧
    parent_id update = Some "0a9f6d3e" ∧
    pattern_snapshot update
    = {[ "X" := ["simulated_pattern_1700000000"; "test_pattern_2c26b46b"] ]}.
Proof.
  assert (Hq : Orchestrator.update_queue (workers controller_X) = (event_c, None) :: [])
    by reflexivity.
  assert (Hi : int_of_float (Orchestrator.clock (workers controller_X)
                               (Orchestrator.ticks (workers controller_X)))
               = Some 1700000000%Z) by (vm_compute; reflexivity).
  assert (Hne : entropy (version_control controller_X)
                  (S (draws (version_control controller_X))) ≠ "")
    by (vm_compute; discriminate).
  assert (Hd : entropy (version_control controller_X) (draws (version_control controller_X))
               ≠ entropy (version_control controller_X)
                   (S (draws (version_control controller_X))))
    by (vm_compute; discriminate).
  pose proof (update_turn_commits_point_and_update example_str_of_list controller_X event_c None []
                1700000000%Z Hq Hi Hne Hd) as L.
  cbv zeta in L.
  destruct L as (H1 & H2 & H3 & _ & point & update & H4 & H5 & H6 & H7 & H8 & H9 & _).
  assert (Ip : entropy (version_control controller_X) (draws (version_control controller_X))
               = "0a9f6d3e") by (vm_compute; reflexivity).
  assert (Iu : entropy (version_control controller_X)
                 (S (draws (version_control controller_X))) = "e2b4417c")
    by (vm_compute; reflexivity).
  assert (Hp : head_commit (version_control controller_X) = Some "c57e08b1")
    by (vm_compute; reflexivity).
  assert (Hs : pretty 1700000000%Z = "1700000000") by (vm_compute; reflexivity).
  rewrite Ip in H4, H8. rewrite Iu in H3, H5. rewrite Hp in H6.
  cbv zeta. split_and!; [exact H1|exact H2|exact H3|].
  exists point, update. split_and!; [exact H4|exact H5|exact H6|exact H7|exact H8|].
  rewrite H9. rewrite Hs. reflexivity.
Defined.


Example patterns_after_a_failed_update :
  ((VersionControl._get_current_patterns (version_control controller_stalled)).1,
   (VersionControl._get_current_patterns
      (version_control (_update_processor example_str_of_list controller_stalled).2)).1)
  = ({[ "s" := ["p1"; "p2"] ]}, ∅).
Proof. vm_compute. reflexivity. Qed.
End RecoveryRuns.
